(** * TaskTrackerPro: balance maintenance and analytics aggregation

    A shallow embedding of the storage layer ([server/storage.ts], class
    [MemStorage]) and of the analytics handlers ([server/routes.ts]) of the
    finance tracker, together with the properties its specification states
    about them.

    Layout: the ECMAScript number operations the server relies on
    ([Number]), the schema records, the in-memory store ([MemStorage]) and
    the analytics handlers ([Analytics]); then the facts proved about them. *)

From stdpp Require Import gmap strings list sorting pretty.
From Stdlib Require Import Ascii ZArith QArith Qround Qabs Qpower Lqa Floats Uint63.

(* ===================================================================== *)
(** * ECMAScript numbers                                                  *)
(* ===================================================================== *)

(** The server computes on balances with [parseFloat], [+], [-] and
    [toFixed(2)].  A finite binary64 value is represented by the rational
    it denotes; every operation is the exact rational operation followed by
    rounding to the nearest value with a 53-bit significand, ties to even
    ([RN]).  The exponent range is not bounded, so overflow to [Infinity],
    subnormals, [NaN] and the sign of zero are outside the model; monetary
    values are far inside the normal range.

    The strings of the balances and of the amounts are read as decimal
    numerals ([decimal]).  A string that is no numeral, for which
    [parseFloat] answers [NaN] or reads a prefix, and the numeral ["-0.00"],
    which [toFixed] can write, have no [decimal]: the properties below that
    speak of stored balances take the balance and the amount among the
    values of the [decimal(15, 2)] columns, where the operations of the
    model are those of JavaScript. *)
Module Number.
Local Open Scope Q_scope.

(** [floor_log2 q] is the exponent [e] with [2^e <= q < 2^(e+1)], for [0 < q]. *)
Definition floor_log2 (q : Q) : Z :=
  let e0 := (Z.log2 (Qnum q) - Z.log2 (Zpos (Qden q)))%Z in
  if Qle_bool ((2#1) ^ e0) q then e0 else (e0 - 1)%Z.

Definition round_half_even (q : Q) : Z :=
  let f := Qfloor q in
  match Qcompare (q - inject_Z f) (1#2) with
  | Lt => f
  | Gt => (f + 1)%Z
  | Eq => if Z.even f then f else (f + 1)%Z
  end.

(** Round to nearest binary64, ties to even: scale the value so that its
    integer part has exactly 53 bits, round to an integer, scale back. *)
Definition RN (q : Q) : Q :=
  match Qnum q with
  | Z0 => 0
  | _ => let s := (52 - floor_log2 (Qabs q))%Z in
         inject_Z (round_half_even (q * (2#1) ^ s)) * (2#1) ^ (- s)
  end.

Definition add (x y : Q) : Q := RN (x + y).
Definition sub (x y : Q) : Q := RN (x - y).
Definition mul (x y : Q) : Q := RN (x * y).
Definition div (x y : Q) : Q := RN (x / y).

(** [x > y] and [x < y] on numbers. *)
Definition ltb (x y : Q) : bool := negb (Qle_bool y x).
Definition gtb (x y : Q) : bool := ltb y x.

(** [v || 0] where [v] is a number or [undefined]. *)
Definition or_zero (v : option Q) : Q :=
  match v with
  | Some x => if Qeq_bool x 0 then 0 else x
  | None => 0
  end.

(** The unit roundoff of binary64. *)
Definition u : Q := 1 # 9007199254740992.

(** A decimal numeral, the content of a numeric string such as ["87450.30"]:
    the digits as a signed integer and the number of digits after the
    point.  ["87450.30"] is [Decimal 8745030 2]. *)
Record decimal := Decimal { unscaled : Z; scale : nat }.

Definition value (d : decimal) : Q :=
  inject_Z (unscaled d) / inject_Z (10 ^ Z.of_nat (scale d)).

(** [parseFloat(s)] on a decimal numeral: the binary64 nearest to its
    value.  (On other strings [parseFloat] reads the longest prefix that is
    a numeral, and answers [NaN] when there is none.) *)
Definition parseFloat (d : decimal) : Q := RN (value d).

(** [x.toFixed(fractionDigits)] for a finite [x] of magnitude below
    [10^21]: the integer [n] for which [n / 10^fractionDigits] is closest to
    the magnitude of [x], the larger one on a tie, with the sign of [x].
    (From [10^21] JavaScript answers in exponent notation, and for [NaN]
    it answers ["NaN"]; for a negative [x] that rounds to zero it writes
    ["-0.00"], which is read here as the numeral of zero.) *)
Definition toFixed (fractionDigits : nat) (x : Q) : decimal :=
  let p := inject_Z (10 ^ Z.of_nat fractionDigits) in
  let n := if ltb x 0 then (- Qfloor (- x * p + (1#2)))%Z
           else Qfloor (x * p + (1#2)) in
  Decimal n fractionDigits.

(** Reading a binary64 of the kernel as the rational it denotes, to compare
    the model with the hardware arithmetic on samples. *)
Definition of_spec_float (f : spec_float) : option Q :=
  match f with
  | S754_zero _ => Some 0
  | S754_finite s m e =>
      Some (inject_Z (if s then Z.neg m else Z.pos m) * (2#1) ^ e)
  | _ => None
  end.

Definition agrees (f : float) (q : Q) : bool :=
  match of_spec_float (Prim2SF f) with
  | Some q' => Qeq_bool q q'
  | None => false
  end.

(** The binary64 of the kernel for an amount of cents below [2^53]: the
    correctly rounded quotient of two integers that binary64 holds. *)
Definition binary64_of_cents (c : Z) : float :=
  let x := (of_uint63 (Uint63.of_Z (Z.abs c)) / 100)%float in
  if (c <? 0)%Z then (- x)%float else x.

(** The model against the kernel on a pair of amounts: the literal, the
    sum, the difference, the product and the quotient. *)
Definition agrees_on (a b : Z) : bool :=
  agrees (binary64_of_cents a) (parseFloat (Decimal a 2))
  && agrees (binary64_of_cents a + binary64_of_cents b)%float
       (add (parseFloat (Decimal a 2)) (parseFloat (Decimal b 2)))
  && agrees (binary64_of_cents a - binary64_of_cents b)%float
       (sub (parseFloat (Decimal a 2)) (parseFloat (Decimal b 2)))
  && agrees (binary64_of_cents a * binary64_of_cents b)%float
       (mul (parseFloat (Decimal a 2)) (parseFloat (Decimal b 2)))
  && ((b =? 0)%Z
      || agrees (binary64_of_cents a / binary64_of_cents b)%float
           (div (parseFloat (Decimal a 2)) (parseFloat (Decimal b 2)))).

Definition sample_cents : list Z :=
  [0; 1; 2; 5; 10; 15; 29; 30; 99; 100; 101; 105; 333; 1999; 2000; 3000; 120050;
   2568075; 8745030; 999999999999; 123456789012345; 999999999999999;
   -1; -5; -30; -101; -8745030; -999999999999999]%Z.

End Number.

Global Instance decimal_eq_dec : EqDecision Number.decimal.
Proof. solve_decision. Defined.

(* ===================================================================== *)
(** * Schema                                                              *)
(* ===================================================================== *)

(** The [type] column of a transaction: ["expense"] or ["income"]. *)
Inductive TransactionType := expense | income.

Global Instance TransactionType_eq_dec : EqDecision TransactionType.
Proof. solve_decision. Defined.

(** A [Date]: its time value and the calendar fields the handlers read. *)
Record Date := mkDate { getTime : Z; getFullYear : Z; getMonth : Z }.

Module Category.
Record t := mk {
  id : Z;
  name : string;
  color : string;
  type : TransactionType }.
End Category.

Module Account.
Record t := mk {
  id : Z;
  name : string;
  type : string;
  balance : Number.decimal;
  bankName : option string;
  accountNumber : option string;
  userId : option Z }.

(** [{ ...account, balance: b }] *)
Definition with_balance (account : t) (b : Number.decimal) : t :=
  mk (id account) (name account) (type account) b
     (bankName account) (accountNumber account) (userId account).
End Account.

Module Transaction.
Record t := mk {
  id : Z;
  type : TransactionType;
  amount : Number.decimal;
  description : string;
  thirdParty : option string;
  categoryId : option Z;
  accountId : option Z;
  paymentMethod : option string;
  receiptUrl : option string;
  notes : option string;
  userId : option Z;
  createdAt : Date;
  transactionDate : Date }.
End Transaction.

Module InsertTransaction.
Record t := mk {
  type : TransactionType;
  amount : Number.decimal;
  description : string;
  thirdParty : option string;
  categoryId : option Z;
  accountId : option Z;
  paymentMethod : option string;
  receiptUrl : option string;
  notes : option string;
  userId : option Z;
  transactionDate : option Date }.
End InsertTransaction.

(** [Partial<InsertTransaction>]: every field may be absent. *)
Module PartialTransaction.
Record t := mk {
  type : option TransactionType;
  amount : option Number.decimal;
  description : option string;
  thirdParty : option (option string);
  categoryId : option (option Z);
  accountId : option (option Z);
  paymentMethod : option (option string);
  receiptUrl : option (option string);
  notes : option (option string);
  userId : option (option Z);
  transactionDate : option Date }.
End PartialTransaction.

(** [x || null] on an optional id: [0] is falsy. *)
Definition truthy_id (x : option Z) : option Z :=
  match x with
  | Some z => if (z =? 0)%Z then None else Some z
  | None => None
  end.

(** [x || null] on an optional string: the empty string is falsy. *)
Definition truthy_string (x : option string) : option string :=
  match x with
  | Some EmptyString => None
  | _ => x
  end.

(* ===================================================================== *)
(** * The in-memory store                                                 *)
(* ===================================================================== *)

(** The maps of [MemStorage] that transactions and analytics touch, and the
    transaction id counter. *)
Record MemStorage := mkMemStorage {
  categories : gmap Z Category.t;
  accounts : gmap Z Account.t;
  transactions : gmap Z Transaction.t;
  currentTransactionId : Z }.

Definition set_accounts (this : MemStorage) (a : gmap Z Account.t) : MemStorage :=
  mkMemStorage (categories this) a (transactions this) (currentTransactionId this).

(** [createTransaction(insertTransaction)]; [now] is the value of [new Date()]. *)
Definition createTransaction (this : MemStorage) (now : Date)
    (insertTransaction : InsertTransaction.t) : MemStorage * Transaction.t :=
  let id := currentTransactionId this in
  let transaction :=
    Transaction.mk id
      (InsertTransaction.type insertTransaction)
      (InsertTransaction.amount insertTransaction)
      (InsertTransaction.description insertTransaction)
      (truthy_string (InsertTransaction.thirdParty insertTransaction))
      (truthy_id (InsertTransaction.categoryId insertTransaction))
      (truthy_id (InsertTransaction.accountId insertTransaction))
      (truthy_string (InsertTransaction.paymentMethod insertTransaction))
      (truthy_string (InsertTransaction.receiptUrl insertTransaction))
      (truthy_string (InsertTransaction.notes insertTransaction))
      (truthy_id (InsertTransaction.userId insertTransaction))
      now
      (default now (InsertTransaction.transactionDate insertTransaction)) in
  let this1 :=
    mkMemStorage (categories this) (accounts this)
      (<[id := transaction]> (transactions this)) (id + 1)%Z in
  (* Update account balance *)
  let this2 :=
    match truthy_id (Transaction.accountId transaction) with
    | Some accountId =>
        match accounts this1 !! accountId with
        | Some account =>
            let currentBalance := Number.parseFloat (Account.balance account) in
            let transactionAmount := Number.parseFloat (Transaction.amount transaction) in
            let newBalance :=
              match Transaction.type transaction with
              | income => Number.add currentBalance transactionAmount
              | expense => Number.sub currentBalance transactionAmount
              end in
            set_accounts this1
              (<[accountId := Account.with_balance account (Number.toFixed 2 newBalance)]>
                 (accounts this1))
        | None => this1
        end
    | None => this1
    end in
  (this2, transaction).

(** [{ ...transaction, ...updates }] *)
Definition patch (transaction : Transaction.t) (updates : PartialTransaction.t)
    : Transaction.t :=
  Transaction.mk (Transaction.id transaction)
    (default (Transaction.type transaction) (PartialTransaction.type updates))
    (default (Transaction.amount transaction) (PartialTransaction.amount updates))
    (default (Transaction.description transaction) (PartialTransaction.description updates))
    (default (Transaction.thirdParty transaction) (PartialTransaction.thirdParty updates))
    (default (Transaction.categoryId transaction) (PartialTransaction.categoryId updates))
    (default (Transaction.accountId transaction) (PartialTransaction.accountId updates))
    (default (Transaction.paymentMethod transaction) (PartialTransaction.paymentMethod updates))
    (default (Transaction.receiptUrl transaction) (PartialTransaction.receiptUrl updates))
    (default (Transaction.notes transaction) (PartialTransaction.notes updates))
    (default (Transaction.userId transaction) (PartialTransaction.userId updates))
    (Transaction.createdAt transaction)
    (default (Transaction.transactionDate transaction)
       (PartialTransaction.transactionDate updates)).

(** [updateTransaction(id, updates)] *)
Definition updateTransaction (this : MemStorage) (id : Z)
    (updates : PartialTransaction.t) : MemStorage * option Transaction.t :=
  match transactions this !! id with
  | None => (this, None)
  | Some transaction =>
      let updatedTransaction := patch transaction updates in
      (mkMemStorage (categories this) (accounts this)
         (<[id := updatedTransaction]> (transactions this))
         (currentTransactionId this),
       Some updatedTransaction)
  end.

(** [deleteTransaction(id)] *)
Definition deleteTransaction (this : MemStorage) (id : Z) : MemStorage * bool :=
  match transactions this !! id with
  | None => (this, false)
  | Some transaction =>
      (* Reverse account balance change *)
      let this1 :=
        match truthy_id (Transaction.accountId transaction) with
        | Some accountId =>
            match accounts this !! accountId with
            | Some account =>
                let currentBalance := Number.parseFloat (Account.balance account) in
                let transactionAmount := Number.parseFloat (Transaction.amount transaction) in
                let newBalance :=
                  match Transaction.type transaction with
                  | income => Number.sub currentBalance transactionAmount
                  | expense => Number.add currentBalance transactionAmount
                  end in
                set_accounts this
                  (<[accountId := Account.with_balance account (Number.toFixed 2 newBalance)]>
                     (accounts this))
            | None => this
            end
        | None => this
        end in
      (mkMemStorage (categories this1) (accounts this1)
         (delete id (transactions this1)) (currentTransactionId this1),
       true)
  end.

(** The store that the constructor builds ([initializeDefaults]): seven
    categories, two accounts of the admin user, no transaction. *)
Definition defaultCategories : list Category.t :=
  [ Category.mk 1 "Suministros" "#1976D2" expense;
    Category.mk 2 "Transporte" "#388E3C" expense;
    Category.mk 3 "Servicios" "#F57C00" expense;
    Category.mk 4 "Marketing" "#D32F2F" expense;
    Category.mk 5 "Alimentación" "#7B1FA2" expense;
    Category.mk 6 "Ventas" "#388E3C" income;
    Category.mk 7 "Consultoría" "#1976D2" income ].

Definition checkingAccount : Account.t :=
  Account.mk 1 "Cuenta Corriente Principal" "checking" (Number.Decimal 8745030 2)
    (Some "Banco Nacional") (Some "****1234") (Some 1%Z).

Definition savingsAccount : Account.t :=
  Account.mk 2 "Cuenta de Ahorros" "savings" (Number.Decimal 2568075 2)
    (Some "Banco Regional") (Some "****5678") (Some 1%Z).

Definition initializeDefaults : MemStorage :=
  mkMemStorage
    (list_to_map ((λ c, (Category.id c, c)) <$> defaultCategories))
    (<[2%Z := savingsAccount]> (<[1%Z := checkingAccount]> ∅))
    ∅ 1.

(* ===================================================================== *)
(** * The analytics handlers                                              *)
(* ===================================================================== *)

Module Analytics.

(** [s.includes(sub)] *)
Fixpoint includes (sub s : string) : bool :=
  String.prefix sub s ||
  match s with
  | EmptyString => false
  | String _ s' => includes sub s'
  end.

(** [s.padStart(targetLength, c)] for a one-character filler. *)
Definition padStart (targetLength : nat) (c : Ascii.ascii) (s : string) : string :=
  Nat.iter (targetLength - String.length s) (String c) s.

(** The transfer marker and the loan-payment marker. *)
Definition Transferencia : string := "Transferencia".
Definition Pago_de_prestamo : string := "Pago de préstamo".

(** [t.type === type && t.thirdParty !== "Transferencia" &&
     !t.description?.includes("Pago de préstamo")] *)
Definition counts_as (type : TransactionType) (t : Transaction.t) : bool :=
  bool_decide (Transaction.type t = type)
  && negb (bool_decide (Transaction.thirdParty t = Some Transferencia))
  && negb (includes Pago_de_prestamo (Transaction.description t)).

(** [list.filter(...).reduce((sum, t) => sum + parseFloat(t.amount), 0)] *)
Definition total (type : TransactionType) (l : list Transaction.t) : Q :=
  fold_left (λ sum t, Number.add sum (Number.parseFloat (Transaction.amount t)))
    (filter (λ t, counts_as type t = true) l) 0%Q.

(** [l.filter(t => { const d = new Date(t.transactionDate); return d >= lo && d <= hi })] *)
Definition between (lo hi : Date) (l : list Transaction.t) : list Transaction.t :=
  filter (λ t, (getTime lo <=? getTime (Transaction.transactionDate t))%Z
               && (getTime (Transaction.transactionDate t) <=? getTime hi)%Z = true) l.

(** [prev > 0 ? ((cur - prev) / prev) * 100 : 0] *)
Definition change_percent (cur prev : Q) : Q :=
  if Number.gtb prev 0
  then Number.mul (Number.div (Number.sub cur prev) prev) 100
  else 0%Q.

Record Summary := mkSummary {
  totalBalance : Q;
  monthlyIncome : Q;
  monthlyExpenses : Q;
  pendingLoans : Q;
  netCashFlow : Q;
  incomeChangePercent : Q;
  expenseChangePercent : Q;
  prevMonthIncome : Q;
  prevMonthExpenses : Q }.

Section Clock.

(** [new Date(year, monthIndex, day)], the local calendar of the host. *)
Variable newDate : Z → Z → Z → Date.

(** [GET /api/analytics/summary]; [currentMonth] is [new Date()]. *)
Definition summary (currentMonth : Date) (transactions : list Transaction.t)
    (accounts : list Account.t) : Summary :=
  let totalBalance :=
    fold_left (λ sum account, Number.add sum (Number.parseFloat (Account.balance account)))
      accounts 0%Q in
  (* Current month calculations *)
  let monthStart := newDate (getFullYear currentMonth) (getMonth currentMonth) 1 in
  let monthEnd := newDate (getFullYear currentMonth) (getMonth currentMonth + 1) 0 in
  let monthlyTransactions := between monthStart monthEnd transactions in
  let monthlyIncome := total income monthlyTransactions in
  let monthlyExpenses := total expense monthlyTransactions in
  (* Previous month calculations for comparison *)
  let prevMonthStart := newDate (getFullYear currentMonth) (getMonth currentMonth - 1) 1 in
  let prevMonthEnd := newDate (getFullYear currentMonth) (getMonth currentMonth) 0 in
  let prevMonthTransactions := between prevMonthStart prevMonthEnd transactions in
  let prevMonthIncome := total income prevMonthTransactions in
  let prevMonthExpenses := total expense prevMonthTransactions in
  (* Calculate percentage changes *)
  let incomeChange := change_percent monthlyIncome prevMonthIncome in
  let expenseChange := change_percent monthlyExpenses prevMonthExpenses in
  let pendingLoans :=
    fold_left
      (λ sum account,
         let b := Number.parseFloat (Account.balance account) in
         Number.add sum (if Number.gtb b 0 then b else 0%Q))
      (filter (λ a, Account.type a = "loan" ∨ Account.type a = "credit") accounts) 0%Q in
  mkSummary totalBalance monthlyIncome monthlyExpenses pendingLoans
    (Number.sub monthlyIncome monthlyExpenses)
    incomeChange expenseChange prevMonthIncome prevMonthExpenses.

End Clock.

(** [new Map(categories.map(c => [c.id, c]))]: a later entry replaces an
    earlier one with the same id. *)
Definition categoriesMap (categories : list Category.t) : gmap Z Category.t :=
  fold_left (λ m c, <[Category.id c := c]> m) categories ∅.

Definition Sin_categoria : string := "Sin categoría".

(** [category?.name || "Sin categoría"] with
    [category = t.categoryId ? categoriesMap.get(t.categoryId) : null] *)
Definition categoryName (m : gmap Z Category.t) (t : Transaction.t) : string :=
  let category :=
    match truthy_id (Transaction.categoryId t) with
    | Some cid => m !! cid
    | None => None
    end in
  match category with
  | Some c => match Category.name c with EmptyString => Sin_categoria | n => n end
  | None => Sin_categoria
  end.

(** The accumulator of the handler is an object literal, [{}]: besides
    the keys that the handler sets, it answers for the properties that
    every object inherits from [Object.prototype]. *)
Module Obj.

Definition prototype : list string :=
  [ "constructor"; "hasOwnProperty"; "isPrototypeOf"; "propertyIsEnumerable";
    "toLocaleString"; "toString"; "valueOf"; "__defineGetter__";
    "__defineSetter__"; "__lookupGetter__"; "__lookupSetter__"; "__proto__" ].

Definition inherited (key : string) : Prop := key ∈ prototype.

Global Instance inherited_dec key : Decision (inherited key).
Proof. unfold inherited. apply _. Defined.

(** A value of the accumulator: a number, or the text that [+] makes of an
    inherited property (a function, or the prototype itself) and of the
    numbers added to it since, in their order. *)
Inductive value :=
| Num (number : Q)
| Text (property : string) (numbers : list Q).

(** [acc[key]]: the own property, else the inherited one, else [undefined]. *)
Definition get (acc : gmap string value) (key : string) : option value :=
  match acc !! key with
  | Some v => Some v
  | None => if decide (inherited key) then Some (Text key []) else None
  end.

(** [(v || 0) + x] for a number [x]: a number is added to, with [0] for
    [undefined] and for [0]; anything else is truthy, and [+] appends the
    number to its text. *)
Definition or_zero_plus (v : option value) (x : Q) : value :=
  match v with
  | Some (Text property numbers) => Text property (numbers ++ [x])
  | Some (Num number) => Num (Number.add (Number.or_zero (Some number)) x)
  | None => Num (Number.add (Number.or_zero None) x)
  end.

(** [acc[key] = v] for a number or a text [v]: the setter of [__proto__]
    ignores a value that is not an object, every other key becomes an own
    property. *)
Definition set (acc : gmap string value) (key : string) (v : value) : gmap string value :=
  if decide (key = "__proto__") then acc else <[key := v]> acc.

End Obj.

(** [GET /api/analytics/expenses-by-category] *)
Definition expensesByCategory (transactions : list Transaction.t)
    (categories : list Category.t) : gmap string Obj.value :=
  let expenses := filter (λ t, counts_as expense t = true) transactions in
  let m := categoriesMap categories in
  fold_left
    (λ acc transaction,
       let categoryName := categoryName m transaction in
       Obj.set acc categoryName
         (Obj.or_zero_plus (Obj.get acc categoryName)
            (Number.parseFloat (Transaction.amount transaction))))
    expenses ∅.

(** An entry of [monthlyData]: [{ income, expenses }]. *)
Module MonthData.
Record t := mk { income : Q; expenses : Q }.
End MonthData.

(** An entry of the response: [{ month, income, expenses, net }]. *)
Module Trend.
Record t := mk { month : string; income : Q; expenses : Q; net : Q }.
End Trend.

(** [`${date.getFullYear()}-${String(date.getMonth() + 1).padStart(2, '0')}`] *)
Definition monthKey (date : Date) : string :=
  pretty (getFullYear date) +:+ "-" +:+ padStart 2 "0"%char (pretty (getMonth date + 1)%Z).

(** The body of [transactions.forEach(...)]. *)
Definition accumulate (monthlyData : gmap string MonthData.t) (transaction : Transaction.t)
    : gmap string MonthData.t :=
  let monthKey := monthKey (Transaction.transactionDate transaction) in
  let monthlyData :=
    match monthlyData !! monthKey with
    | None => <[monthKey := MonthData.mk 0 0]> monthlyData
    | Some _ => monthlyData
    end in
  let amount := Number.parseFloat (Transaction.amount transaction) in
  if counts_as income transaction then
    alter (λ d, MonthData.mk (Number.add (MonthData.income d) amount) (MonthData.expenses d))
      monthKey monthlyData
  else if counts_as expense transaction then
    alter (λ d, MonthData.mk (MonthData.income d) (Number.add (MonthData.expenses d) amount))
      monthKey monthlyData
  else monthlyData.

Definition monthlyData (transactions : list Transaction.t) : gmap string MonthData.t :=
  fold_left accumulate transactions ∅.

(** The order of the default [Array.prototype.sort]: by code units. *)
Definition string_le (s1 s2 : string) : Prop := String.leb s1 s2 = true.
Definition string_lt (s1 s2 : string) : Prop := String.ltb s1 s2 = true.

Global Instance string_le_dec : RelDecision string_le.
Proof. intros s1 s2. unfold string_le. apply _. Defined.

(** [Object.keys(monthlyData).sort()] *)
Definition sortedMonths (monthlyData : gmap string MonthData.t) : list string :=
  merge_sort string_le (map_to_list monthlyData).*1.

(** [l.slice(-n)] *)
Definition slice_last {A} (n : nat) (l : list A) : list A :=
  drop (length l - n) l.

(** [monthlyData[month]] for a key of the object of the handler. *)
Definition entry (monthlyData : gmap string MonthData.t) (month : string) : MonthData.t :=
  default (MonthData.mk 0 0) (monthlyData !! month).

(** [GET /api/analytics/monthly-trends] *)
Definition monthlyTrends (transactions : list Transaction.t) : list Trend.t :=
  let monthlyData := monthlyData transactions in
  let sortedMonths := sortedMonths monthlyData in
  let last6Months := slice_last 6 sortedMonths in
  (λ month,
     Trend.mk month
       (MonthData.income (entry monthlyData month))
       (MonthData.expenses (entry monthlyData month))
       (Number.sub (MonthData.income (entry monthlyData month))
                   (MonthData.expenses (entry monthlyData month))))
  <$> last6Months.

(** ** Vocabulary of the analytics properties *)

(** A transaction that carries the transfer marker as third party or the
    loan-payment marker in its description. *)
Definition marked (t : Transaction.t) : Prop :=
  Transaction.thirdParty t = Some Transferencia
  ∨ includes Pago_de_prestamo (Transaction.description t) = true.

Global Instance marked_dec t : Decision (marked t).
Proof. unfold marked. apply _. Defined.

(** What a transaction adds to the entry of its month. *)
Definition accumulated (d : MonthData.t) (t : Transaction.t) : MonthData.t :=
  let amount := Number.parseFloat (Transaction.amount t) in
  if counts_as income t then
    MonthData.mk (Number.add (MonthData.income d) amount) (MonthData.expenses d)
  else if counts_as expense t then
    MonthData.mk (MonthData.income d) (Number.add (MonthData.expenses d) amount)
  else d.

(** A value of the expenses by category with its numbers in lowest terms. *)
Definition reduced (v : Obj.value) : Obj.value :=
  match v with
  | Obj.Num number => Obj.Num (Qred number)
  | Obj.Text property numbers => Obj.Text property (Qred <$> numbers)
  end.

(** The amounts, as [parseFloat] reads them, of the expenses of a list
    that count and resolve to a category name, in the order of the list. *)
Definition amounts_under (m : gmap Z Category.t) (name : string)
    (transactions : list Transaction.t) : list Q :=
  (λ t, Number.parseFloat (Transaction.amount t))
  <$> filter (λ t, categoryName m t = name ∧ counts_as expense t = true) transactions.

(** The lexicographic combination of two comparisons. *)
Definition lex (c1 c2 : comparison) : comparison :=
  match c1 with Eq => c2 | _ => c1 end.

(** A date of the calendar the keys are meant for: a year of four digits
    and a month index from 0 to 11. *)
Definition calendar (d : Date) : Prop :=
  (1000 ≤ getFullYear d ≤ 9999)%Z ∧ (0 ≤ getMonth d ≤ 11)%Z.


End Analytics.

(* ===================================================================== *)
(** * Vocabulary of the balance properties                                *)
(* ===================================================================== *)

(** The [decimal(15, 2)] columns of the schema ([balance], [amount]): two
    digits after the point, fifteen digits in all. *)
Definition decimal_15_2 (d : Number.decimal) : Prop :=
  Number.scale d = 2%nat ∧ (Z.abs (Number.unscaled d) ≤ 999999999999999)%Z.

Global Instance decimal_15_2_dec d : Decision (decimal_15_2 d).
Proof. unfold decimal_15_2. apply _. Defined.

(** The exact posting of [amount] cents to [balance] cents: added for an
    income, subtracted for an expense. *)
Definition post (type : TransactionType) (balance amount : Z) : Z :=
  match type with
  | income => (balance + amount)%Z
  | expense => (balance - amount)%Z
  end.

(** The reversal of a posting. *)
Definition unpost (type : TransactionType) (balance amount : Z) : Z :=
  match type with
  | income => (balance - amount)%Z
  | expense => (balance + amount)%Z
  end.

(** The balance that a creation and a deletion compute, as the code does:
    in binary64. *)
Definition binary_post (type : TransactionType) (balance amount : Number.decimal)
    : Number.decimal :=
  Number.toFixed 2
    match type with
    | income => Number.add (Number.parseFloat balance) (Number.parseFloat amount)
    | expense => Number.sub (Number.parseFloat balance) (Number.parseFloat amount)
    end.

Definition binary_unpost (type : TransactionType) (balance amount : Number.decimal)
    : Number.decimal :=
  Number.toFixed 2
    match type with
    | income => Number.sub (Number.parseFloat balance) (Number.parseFloat amount)
    | expense => Number.add (Number.parseFloat balance) (Number.parseFloat amount)
    end.

(** The arithmetic that the specification asks for, in its words: exact
    decimal arithmetic, and standard rounding (half away from zero) to a
    number of decimal places. *)
Definition standard_rounding (places : nat) (q : Q) : Number.decimal :=
  let p := inject_Z (10 ^ Z.of_nat places) in
  Number.Decimal
    (if Qle_bool 0 q then Qfloor (q * p + (1#2)) else (- Qfloor (- q * p + (1#2)))%Z)
    places.

Definition decimal_post (type : TransactionType) (balance amount : Number.decimal)
    : Number.decimal :=
  standard_rounding 2
    match type with
    | income => (Number.value balance + Number.value amount)%Q
    | expense => (Number.value balance - Number.value amount)%Q
    end.


(** A request against the store: create or delete a transaction. *)
Inductive operation :=
| Create (now : Date) (insertTransaction : InsertTransaction.t)
| Delete (id : Z).

Definition apply (this : MemStorage) (op : operation) : MemStorage :=
  match op with
  | Create now insertTransaction => (createTransaction this now insertTransaction).1
  | Delete id => (deleteTransaction this id).1
  end.

Definition run (this : MemStorage) (ops : list operation) : MemStorage :=
  fold_left apply ops this.

Definition balanceOf (accountId : Z) (this : MemStorage) : option Number.decimal :=
  Account.balance <$> accounts this !! accountId.

(** The sum of [f] over the rows of the transaction table. *)
Definition sum_over (f : Transaction.t → Z) (rows : gmap Z Transaction.t) : Z :=
  map_fold (λ _ t acc, (acc + f t)%Z) 0%Z rows.

Definition references (accountId : Z) (t : Transaction.t) : Prop :=
  Transaction.accountId t = Some accountId.

Global Instance references_dec accountId t : Decision (references accountId t).
Proof. unfold references. apply _. Defined.

(** The amount of [t] in cents if [t] is of type [type] and references the
    account, else nothing. *)
Definition amount_of (type : TransactionType) (accountId : Z) (t : Transaction.t) : Z :=
  if decide (references accountId t ∧ Transaction.type t = type)
  then Number.unscaled (Transaction.amount t) else 0%Z.

(** The sum of the amounts of the existing transactions of a type that
    reference the account. *)
Definition total_of (type : TransactionType) (accountId : Z) (this : MemStorage) : Z :=
  sum_over (amount_of type accountId) (transactions this).

(** The cents of the existing transactions that reference the account,
    whatever their type and sign. *)
Definition moved (accountId : Z) (t : Transaction.t) : Z :=
  if decide (references accountId t)
  then Z.abs (Number.unscaled (Transaction.amount t)) else 0%Z.

(** The cents that the creations of [ops] against the account move. *)
Definition volume (accountId : Z) (ops : list operation) : Z :=
  foldr
    (λ op acc,
       match op with
       | Create _ ins =>
           if decide (truthy_id (InsertTransaction.accountId ins) = Some accountId)
           then (Z.abs (Number.unscaled (InsertTransaction.amount ins)) + acc)%Z
           else acc
       | Delete _ => acc
       end)
    0%Z ops.

(** The amounts of the creations against the account carry two decimals. *)
Definition two_decimals (accountId : Z) (op : operation) : Prop :=
  match op with
  | Create _ ins =>
      truthy_id (InsertTransaction.accountId ins) = Some accountId →
      Number.scale (InsertTransaction.amount ins) = 2%nat
  | Delete _ => True
  end.

Global Instance two_decimals_dec accountId op : Decision (two_decimals accountId op).
Proof. destruct op; simpl; apply _. Defined.

(** The invariant of a run against the account [accountId] whose balance
    was [b0] cents when no transaction referenced it: the stored balance is
    [b0] plus the existing incomes minus the existing expenses; the rows
    that reference the account were created by the store; and the cents
    moved so far and still to be moved by [rest] fit the balance column. *)
Record posted (accountId b0 : Z) (rest : list operation) (this : MemStorage) : Prop :=
  Posted {
    posted_account :
      ∃ account, accounts this !! accountId = Some account ∧
        Account.balance account =
          Number.Decimal
            (b0 + total_of income accountId this - total_of expense accountId this) 2;
    posted_rows :
      ∀ k t, transactions this !! k = Some t → references accountId t →
        accountId ≠ 0%Z ∧ (k < currentTransactionId this)%Z
        ∧ Number.scale (Transaction.amount t) = 2%nat;
    posted_budget :
      (Z.abs b0 + sum_over (moved accountId) (transactions this)
       + volume accountId rest ≤ 999999999999999)%Z }.

(* ===================================================================== *)
(** * Sample stores and transactions                                      *)
(* ===================================================================== *)

(** 10 June 2024, 12:00 UTC. *)
Definition noon : Date := mkDate 1718020800000 2024 5.

(** A payload as the route builds it: the fields of the request, the user
    of the session and the date of the transaction. *)
Definition payload (type : TransactionType) (cents : Z) (description : string)
    (thirdParty : option string) (categoryId accountId : Z) : InsertTransaction.t :=
  InsertTransaction.mk type (Number.Decimal cents 2) description thirdParty
    (Some categoryId) (Some accountId) None None None (Some 1%Z) (Some noon).

(** The scenario of the specification: an account with balance 100.00, an
    expense of 30.00, an income of 20.00, and the deletion of the expense. *)
Definition scenarioAccount : Account.t :=
  Account.mk 1 "Caja" "checking" (Number.Decimal 10000 2) None None (Some 1%Z).

Definition scenarioStore : MemStorage :=
  mkMemStorage ∅ (<[1%Z := scenarioAccount]> ∅) ∅ 1.

Definition scenarioOps : list operation :=
  [ Create noon (payload expense 3000 "Alquiler" None 3 1);
    Create noon (payload income 2000 "Venta" None 6 1);
    Delete 1 ].

Definition scenarioRow : Transaction.t :=
  (createTransaction scenarioStore noon (payload expense 3000 "Alquiler" None 3 1)).2.

Definition changeEverything : PartialTransaction.t :=
  PartialTransaction.mk (Some income) (Some (Number.Decimal 99900 2)) None None None
    (Some (Some 2%Z)) None None None None None.









(** A calendar of months of thirty-one days, for the clock of the samples. *)
Definition civil (year monthIndex day : Z) : Date :=
  mkDate (((year * 12 + monthIndex) * 31 + day) * 86400000)
    (year + monthIndex `div` 12) (monthIndex `mod` 12).

Definition row (id : Z) (type : TransactionType) (cents : Z) (description : string)
    (thirdParty : option string) (categoryId : option Z) (date : Date) : Transaction.t :=
  Transaction.mk id type (Number.Decimal cents 2) description thirdParty categoryId
    (Some 1%Z) None None None (Some 1%Z) date date.

Definition rent : Transaction.t :=
  row 1 expense 4000 "Alquiler" None (Some 3%Z) (civil 2024 5 3).
Definition transfer : Transaction.t :=
  row 2 expense 50000 "A la cuenta de ahorros" (Some "Transferencia") None (civil 2024 5 4).
Definition loan : Transaction.t :=
  row 4 expense 30000 "Pago de préstamo 3/12" None None (civil 2024 5 6).
Definition sale : Transaction.t :=
  row 5 income 15000 "Venta" None (Some 6%Z) (civil 2024 5 7).
Definition lastSale : Transaction.t :=
  row 6 income 10000 "Venta" None (Some 6%Z) (civil 2024 4 7).


(** The categories of the scenario of the specification. *)
Definition food : list Category.t :=
  [ Category.mk 1 "Food" "#7B1FA2" expense; Category.mk 2 "Transport" "#388E3C" expense ].

(** The expenses of the scenario of the specification: 40.00 and 25.00
    under the two categories, 10.00 without category. *)
Definition lunchBusTip : list Transaction.t :=
  [ row 1 expense 4000 "Lunch" None (Some 1%Z) (civil 2024 5 3);
    row 2 expense 2500 "Bus" None (Some 2%Z) (civil 2024 5 4);
    row 3 expense 1000 "Tip" None None (civil 2024 5 5) ].

(** Two expenses of one category, one of a category that does not exist,
    an income and a transfer. *)
Definition lunchDinnerFee : list Transaction.t :=
  [ row 1 expense 4000 "Lunch" None (Some 1%Z) (civil 2024 5 3);
    row 2 expense 1550 "Dinner" None (Some 1%Z) (civil 2024 5 4);
    row 3 expense 1000 "Fee" None (Some 9%Z) (civil 2024 5 5);
    row 4 income 70000 "Venta" None (Some 2%Z) (civil 2024 5 5);
    transfer ].

(** Categories named like properties of [Object.prototype], as
    [POST /api/categories] accepts them. *)
Definition builtins : list Category.t :=
  [ Category.mk 1 "constructor" "#7B1FA2" expense;
    Category.mk 2 "__proto__" "#388E3C" expense ].

(** Transactions over seven months, one of them with a transfer only. *)
Definition sevenMonths : list Transaction.t :=
  [ row 1 income 10000 "Venta" None None (civil 2023 11 5);
    row 2 income 10000 "Venta" None None (civil 2024 0 5);
    row 3 expense 50000 "A la cuenta de ahorros" (Some "Transferencia") None (civil 2024 1 5);
    row 4 income 10000 "Venta" None None (civil 2024 2 5);
    row 5 expense 2500 "Abono de bus" None None (civil 2024 3 5);
    row 6 income 10000 "Venta" None None (civil 2024 4 5);
    row 7 income 10000 "Venta" None None (civil 2024 5 5) ].

(* ===================================================================== *)
(** * The rest of the store                                               *)
(* ===================================================================== *)

(** The rows of users and of the configuration of the bot, and the
    payloads of the methods that create and update rows.  The records of
    categories and accounts above leave out [createdAt], which the server
    stores and never reads. *)
Module User.
Record t := mk {
  id : Z;
  username : string;
  email : string;
  password : string;
  fullName : string;
  role : string;
  telegramUserId : option string;
  createdAt : Date }.
End User.

Module InsertUser.
Record t := mk {
  username : string;
  email : string;
  password : string;
  fullName : string;
  role : option string;
  telegramUserId : option string }.
End InsertUser.

Module PartialUser.
Record t := mk {
  username : option string;
  email : option string;
  password : option string;
  fullName : option string;
  role : option string;
  telegramUserId : option (option string) }.
End PartialUser.

Module InsertCategory.
Record t := mk {
  name : string;
  color : option string;
  type : TransactionType }.
End InsertCategory.

Module PartialCategory.
Record t := mk {
  name : option string;
  color : option string;
  type : option TransactionType }.
End PartialCategory.

(** The balance of a payload is a decimal numeral; [None] is an absent or
    empty balance. *)
Module InsertAccount.
Record t := mk {
  name : string;
  type : string;
  balance : option Number.decimal;
  bankName : option string;
  accountNumber : option string;
  userId : option Z }.
End InsertAccount.

Module PartialAccount.
Record t := mk {
  name : option string;
  type : option string;
  balance : option Number.decimal;
  bankName : option (option string);
  accountNumber : option (option string);
  userId : option (option Z) }.
End PartialAccount.

Module TelegramConfig.
Record t := mk {
  id : Z;
  botToken : string;
  isActive : option bool;
  createdAt : Date }.
End TelegramConfig.

Module InsertTelegramConfig.
Record t := mk {
  botToken : string;
  isActive : option bool }.
End InsertTelegramConfig.

Module PartialTelegramConfig.
Record t := mk {
  botToken : option string;
  isActive : option (option bool) }.
End PartialTelegramConfig.

(** [x || null] on an optional boolean: [false] is falsy. *)
Definition truthy_bool (x : option bool) : option bool :=
  match x with
  | Some true => x
  | _ => None
  end.

(** [Array.from(map.values())].  A [Map] iterates in the order of
    insertion; the store inserts a row under the next value of the counter
    of its table, and [set] on a key that is there keeps the place of the
    key: the order of insertion is the order of the ids. *)
Definition key_le {A} (x y : Z * A) : Prop := (x.1 ≤ y.1)%Z.

Global Instance key_le_dec {A} : RelDecision (@key_le A).
Proof. intros x y. unfold key_le. apply _. Defined.

Definition values {A} (m : gmap Z A) : list A :=
  (merge_sort key_le (map_to_list m)).*2.

(** [l.sort((a, b) => new Date(b.createdAt).getTime() - new Date(a.createdAt).getTime())]:
    the latest first; the sort is stable, so rows created at the same
    instant keep their order. *)
Fixpoint insert_newest (x : Transaction.t) (l : list Transaction.t) : list Transaction.t :=
  match l with
  | [] => [x]
  | y :: l' =>
      if (getTime (Transaction.createdAt y) <=? getTime (Transaction.createdAt x))%Z
      then x :: y :: l'
      else y :: insert_newest x l'
  end.

Definition newest_first (l : list Transaction.t) : list Transaction.t :=
  foldr insert_newest [] l.

(** The whole object: the tables and the counter above, the users, the
    configurations of the bot, and the other counters. *)
Module Store.

Record t := mk {
  tables : MemStorage;
  users : gmap Z User.t;
  telegramConfigs : gmap Z TelegramConfig.t;
  currentUserId : Z;
  currentCategoryId : Z;
  currentAccountId : Z;
  currentConfigId : Z }.

Definition set_tables (this : t) (m : MemStorage) : t :=
  mk m (users this) (telegramConfigs this) (currentUserId this)
    (currentCategoryId this) (currentAccountId this) (currentConfigId this).

Definition set_users (this : t) (u : gmap Z User.t) : t :=
  mk (tables this) u (telegramConfigs this) (currentUserId this)
    (currentCategoryId this) (currentAccountId this) (currentConfigId this).

Definition set_categories (this : t) (c : gmap Z Category.t) : t :=
  set_tables this
    (mkMemStorage c (accounts (tables this)) (transactions (tables this))
       (currentTransactionId (tables this))).

Definition set_accounts (this : t) (a : gmap Z Account.t) : t :=
  set_tables this
    (mkMemStorage (categories (tables this)) a (transactions (tables this))
       (currentTransactionId (tables this))).

Definition set_telegramConfigs (this : t) (c : gmap Z TelegramConfig.t) : t :=
  mk (tables this) (users this) c (currentUserId this)
    (currentCategoryId this) (currentAccountId this) (currentConfigId this).

(** [new MemStorage()]: the counters start at 1 and [initializeDefaults]
    takes one user id, seven category ids and two account ids. *)
Definition adminUser (now : Date) : User.t :=
  User.mk 1 "admin" "admin@empresa.com" "demo123" "Admin Usuario" "admin" None now.

Definition constructor (now : Date) : t :=
  mk initializeDefaults {[ 1%Z := adminUser now ]} ∅ 2 8 3 1.

(** ** Users *)

Definition getUser (this : t) (id : Z) : option User.t := users this !! id.

Definition getUserByUsername (this : t) (username : string) : option User.t :=
  List.find (λ user, bool_decide (User.username user = username)) (values (users this)).

Definition getUserByEmail (this : t) (email : string) : option User.t :=
  List.find (λ user, bool_decide (User.email user = email)) (values (users this)).

Definition createUser (this : t) (now : Date) (insertUser : InsertUser.t) : t * User.t :=
  let id := currentUserId this in
  let user :=
    User.mk id
      (InsertUser.username insertUser)
      (InsertUser.email insertUser)
      (InsertUser.password insertUser)
      (InsertUser.fullName insertUser)
      (default "employee" (truthy_string (InsertUser.role insertUser)))
      (truthy_string (InsertUser.telegramUserId insertUser))
      now in
  (mk (tables this) (<[id := user]> (users this)) (telegramConfigs this) (id + 1)%Z
     (currentCategoryId this) (currentAccountId this) (currentConfigId this),
   user).

Definition updateUser (this : t) (id : Z) (updates : PartialUser.t) : t * option User.t :=
  match users this !! id with
  | None => (this, None)
  | Some user =>
      let updatedUser :=
        User.mk (User.id user)
          (default (User.username user) (PartialUser.username updates))
          (default (User.email user) (PartialUser.email updates))
          (default (User.password user) (PartialUser.password updates))
          (default (User.fullName user) (PartialUser.fullName updates))
          (default (User.role user) (PartialUser.role updates))
          (default (User.telegramUserId user) (PartialUser.telegramUserId updates))
          (User.createdAt user) in
      (set_users this (<[id := updatedUser]> (users this)), Some updatedUser)
  end.

(** ** Categories *)

Definition getAllCategories (this : t) : list Category.t :=
  values (categories (tables this)).

Definition getCategoryById (this : t) (id : Z) : option Category.t :=
  categories (tables this) !! id.

Definition createCategory (this : t) (insertCategory : InsertCategory.t) : t * Category.t :=
  let id := currentCategoryId this in
  let category :=
    Category.mk id
      (InsertCategory.name insertCategory)
      (default "#1976D2" (truthy_string (InsertCategory.color insertCategory)))
      (InsertCategory.type insertCategory) in
  (mk (mkMemStorage (<[id := category]> (categories (tables this)))
         (accounts (tables this)) (transactions (tables this))
         (currentTransactionId (tables this)))
      (users this) (telegramConfigs this) (currentUserId this)
      (id + 1)%Z (currentAccountId this) (currentConfigId this),
   category).

Definition updateCategory (this : t) (id : Z) (updates : PartialCategory.t)
    : t * option Category.t :=
  match categories (tables this) !! id with
  | None => (this, None)
  | Some category =>
      let updatedCategory :=
        Category.mk (Category.id category)
          (default (Category.name category) (PartialCategory.name updates))
          (default (Category.color category) (PartialCategory.color updates))
          (default (Category.type category) (PartialCategory.type updates)) in
      (set_categories this (<[id := updatedCategory]> (categories (tables this))),
       Some updatedCategory)
  end.

(** [Map.prototype.delete] returns whether the key was there. *)
Definition deleteCategory (this : t) (id : Z) : t * bool :=
  (set_categories this (delete id (categories (tables this))),
   bool_decide (is_Some (categories (tables this) !! id))).

(** ** Accounts *)

Definition getAllAccounts (this : t) : list Account.t :=
  values (accounts (tables this)).

Definition getAccountById (this : t) (id : Z) : option Account.t :=
  accounts (tables this) !! id.

Definition getAccountsByUserId (this : t) (userId : Z) : list Account.t :=
  filter (λ account, Account.userId account = Some userId) (values (accounts (tables this))).

Definition createAccount (this : t) (insertAccount : InsertAccount.t) : t * Account.t :=
  let id := currentAccountId this in
  let account :=
    Account.mk id
      (InsertAccount.name insertAccount)
      (InsertAccount.type insertAccount)
      (default (Number.Decimal 0 2) (InsertAccount.balance insertAccount))
      (truthy_string (InsertAccount.bankName insertAccount))
      (truthy_string (InsertAccount.accountNumber insertAccount))
      (truthy_id (InsertAccount.userId insertAccount)) in
  (mk (mkMemStorage (categories (tables this))
         (<[id := account]> (accounts (tables this))) (transactions (tables this))
         (currentTransactionId (tables this)))
      (users this) (telegramConfigs this) (currentUserId this)
      (currentCategoryId this) (id + 1)%Z (currentConfigId this),
   account).

Definition updateAccount (this : t) (id : Z) (updates : PartialAccount.t)
    : t * option Account.t :=
  match accounts (tables this) !! id with
  | None => (this, None)
  | Some account =>
      let updatedAccount :=
        Account.mk (Account.id account)
          (default (Account.name account) (PartialAccount.name updates))
          (default (Account.type account) (PartialAccount.type updates))
          (default (Account.balance account) (PartialAccount.balance updates))
          (default (Account.bankName account) (PartialAccount.bankName updates))
          (default (Account.accountNumber account) (PartialAccount.accountNumber updates))
          (default (Account.userId account) (PartialAccount.userId updates)) in
      (set_accounts this (<[id := updatedAccount]> (accounts (tables this))),
       Some updatedAccount)
  end.

Definition deleteAccount (this : t) (id : Z) : t * bool :=
  (set_accounts this (delete id (accounts (tables this))),
   bool_decide (is_Some (accounts (tables this) !! id))).

(** ** Transactions *)

Definition getAllTransactions (this : t) : list Transaction.t :=
  newest_first (values (transactions (tables this))).

Definition getTransactionById (this : t) (id : Z) : option Transaction.t :=
  transactions (tables this) !! id.

Definition getTransactionsByUserId (this : t) (userId : Z) : list Transaction.t :=
  newest_first
    (filter (λ transaction, Transaction.userId transaction = Some userId)
       (values (transactions (tables this)))).

(** The bounds are [Date] objects that may be invalid ([None]); a
    comparison with an invalid date is false. *)
Definition getTransactionsByDateRange (this : t) (startDate endDate : option Date)
    : list Transaction.t :=
  match startDate, endDate with
  | Some startDate, Some endDate =>
      Analytics.between startDate endDate (values (transactions (tables this)))
  | _, _ => []
  end.

Definition createTransaction (this : t) (now : Date) (insertTransaction : InsertTransaction.t)
    : t * Transaction.t :=
  let r := createTransaction (tables this) now insertTransaction in
  (set_tables this r.1, r.2).

Definition updateTransaction (this : t) (id : Z) (updates : PartialTransaction.t)
    : t * option Transaction.t :=
  let r := updateTransaction (tables this) id updates in
  (set_tables this r.1, r.2).

Definition deleteTransaction (this : t) (id : Z) : t * bool :=
  let r := deleteTransaction (tables this) id in
  (set_tables this r.1, r.2).

(** ** The configuration of the bot *)

Definition getTelegramConfig (this : t) : option TelegramConfig.t :=
  head (values (telegramConfigs this)).

Definition createTelegramConfig (this : t) (now : Date)
    (insertConfig : InsertTelegramConfig.t) : t * TelegramConfig.t :=
  let id := currentConfigId this in
  let config :=
    TelegramConfig.mk id
      (InsertTelegramConfig.botToken insertConfig)
      (truthy_bool (InsertTelegramConfig.isActive insertConfig))
      now in
  (mk (tables this) (users this) (<[id := config]> (telegramConfigs this))
      (currentUserId this) (currentCategoryId this) (currentAccountId this) (id + 1)%Z,
   config).

Definition updateTelegramConfig (this : t) (id : Z) (updates : PartialTelegramConfig.t)
    : t * option TelegramConfig.t :=
  match telegramConfigs this !! id with
  | None => (this, None)
  | Some config =>
      let updatedConfig :=
        TelegramConfig.mk (TelegramConfig.id config)
          (default (TelegramConfig.botToken config) (PartialTelegramConfig.botToken updates))
          (default (TelegramConfig.isActive config) (PartialTelegramConfig.isActive updates))
          (TelegramConfig.createdAt config) in
      (set_telegramConfigs this (<[id := updatedConfig]> (telegramConfigs this)),
       Some updatedConfig)
  end.

(** ** Calls *)

(** A call of a method that writes. *)
Inductive call :=
| CreateUser (now : Date) (insertUser : InsertUser.t)
| UpdateUser (id : Z) (updates : PartialUser.t)
| CreateCategory (insertCategory : InsertCategory.t)
| UpdateCategory (id : Z) (updates : PartialCategory.t)
| DeleteCategory (id : Z)
| CreateAccount (insertAccount : InsertAccount.t)
| UpdateAccount (id : Z) (updates : PartialAccount.t)
| DeleteAccount (id : Z)
| CreateTransaction (now : Date) (insertTransaction : InsertTransaction.t)
| UpdateTransaction (id : Z) (updates : PartialTransaction.t)
| DeleteTransaction (id : Z)
| CreateTelegramConfig (now : Date) (insertConfig : InsertTelegramConfig.t)
| UpdateTelegramConfig (id : Z) (updates : PartialTelegramConfig.t).

Definition exec (this : t) (c : call) : t :=
  match c with
  | CreateUser now insertUser => (createUser this now insertUser).1
  | UpdateUser id updates => (updateUser this id updates).1
  | CreateCategory insertCategory => (createCategory this insertCategory).1
  | UpdateCategory id updates => (updateCategory this id updates).1
  | DeleteCategory id => (deleteCategory this id).1
  | CreateAccount insertAccount => (createAccount this insertAccount).1
  | UpdateAccount id updates => (updateAccount this id updates).1
  | DeleteAccount id => (deleteAccount this id).1
  | CreateTransaction now insertTransaction => (createTransaction this now insertTransaction).1
  | UpdateTransaction id updates => (updateTransaction this id updates).1
  | DeleteTransaction id => (deleteTransaction this id).1
  | CreateTelegramConfig now insertConfig => (createTelegramConfig this now insertConfig).1
  | UpdateTelegramConfig id updates => (updateTelegramConfig this id updates).1
  end.

Definition execs (this : t) (calls : list call) : t := fold_left exec calls this.

End Store.

(* ===================================================================== *)
(** * The routes                                                          *)
(* ===================================================================== *)

(** The handlers of [registerRoutes] over the in-memory store.  A handler
    takes what the validation of the request body returns and the session
    of the request, and gives the status and the body of the response.
    The validator, the parser of dates and the clock are the host's. *)
Module Api.

(** The outcome of [schema.parse(req.body)]: the parsed value, a
    [ZodError], or another error thrown from a transform. *)
Inductive Parsed (A : Type) :=
| Valid (a : A)
| Invalid
| Thrown (message : string).
Arguments Valid {A} a.
Arguments Invalid {A}.
Arguments Thrown {A} message.

Record LoginInput := mkLoginInput {
  login_username : string;
  login_password : string }.

Record RegisterInput := mkRegisterInput {
  register_username : string;
  register_email : string;
  register_password : string;
  register_fullName : string }.

(** What [createAccountSchema] returns; the balance is the numeral of
    [String(val)], or [None] for the empty string. *)
Record CreateAccount := mkCreateAccount {
  account_name : string;
  account_type : string;
  account_balance : option Number.decimal;
  account_bankName : option string;
  account_accountNumber : option string }.

(** What [createTransactionSchema] returns; an id is the result of
    [parseInt], [None] for [NaN]. *)
Record CreateTransaction := mkCreateTransaction {
  type : TransactionType;
  amount : Number.decimal;
  description : string;
  thirdParty : option string;
  categoryId : option Z;
  accountId : option Z;
  paymentMethod : option string;
  notes : option string;
  transactionDate : string }.

(** What [updateTransactionSchema] returns: every field may be absent. *)
Record UpdateTransaction := mkUpdateTransaction {
  update_type : option TransactionType;
  update_amount : option Number.decimal;
  update_description : option string;
  update_thirdParty : option string;
  update_categoryId : option (option Z);
  update_accountId : option (option Z);
  update_paymentMethod : option string;
  update_notes : option string;
  update_transactionDate : option string }.

(** The user as the routes send it: without the password. *)
Record PublicUser := mkPublicUser {
  id : Z;
  username : string;
  email : string;
  fullName : string;
  role : string }.

Definition public (user : User.t) : PublicUser :=
  mkPublicUser (User.id user) (User.username user) (User.email user)
    (User.fullName user) (User.role user).

(** A transaction with the details of its category and of its account. *)
Record Enriched := mkEnriched {
  transaction : Transaction.t;
  category : option Category.t;
  account : option Account.t }.

(** The body of a response.  [Errors] is [{ message, errors }], without
    the list of the validator; [NoConfig] is [{ botToken: "", isActive: false }]. *)
Inductive Body :=
| Message (message : string)
| MessageError (message error : string)
| MessageDetails (message details : string)
| Errors (message : string)
| OneUser (user : PublicUser)
| Categories (l : list Category.t)
| OneCategory (c : Category.t)
| Accounts (l : list Account.t)
| OneAccount (a : Account.t)
| Transactions (l : list Enriched)
| OneTransaction (t : Transaction.t)
| SummaryOf (s : Analytics.Summary)
| ExpensesByCategory (m : gmap string Analytics.Obj.value)
| MonthlyTrends (l : list Analytics.Trend.t)
| Config (c : TelegramConfig.t)
| NoConfig.

Record Response := mkResponse { status : Z; body : Body }.

(** The routes, with the parameters of the path parsed by [parseInt]
    ([None] for [NaN]) and the outcome of the validation of the body. *)
Inductive Route :=
| POST_auth_login (body : Parsed LoginInput)
| POST_auth_logout
| GET_auth_me
| POST_auth_register (body : Parsed RegisterInput)
| GET_categories
| POST_categories (body : Parsed InsertCategory.t)
| PUT_categories (id : option Z) (body : Parsed PartialCategory.t)
| DELETE_categories (id : option Z)
| GET_accounts
| POST_accounts (body : Parsed CreateAccount)
| PUT_accounts (id : option Z) (body : Parsed PartialAccount.t)
| DELETE_accounts (id : option Z)
| GET_transactions (startDate endDate : option string)
| POST_transactions (body : Parsed CreateTransaction)
| PUT_transactions (id : option Z) (body : Parsed UpdateTransaction)
| DELETE_transactions (id : option Z)
| GET_analytics_summary
| GET_analytics_expenses_by_category
| GET_analytics_monthly_trends
| GET_telegram_config
| POST_telegram_config (body : Parsed InsertTelegramConfig.t)
| PUT_telegram_config (id : option Z) (body : Parsed PartialTelegramConfig.t).

(** A request: the session it belongs to, the instant it is handled at,
    and the route. *)
Record Request := mkRequest { session : Z; now : Date; route : Route }.

(** The server: the store, and the user id of each session that holds one. *)
Record Server := mkServer { storage : Store.t; sessions : gmap Z Z }.

Definition set_storage (server : Server) (s : Store.t) : Server :=
  mkServer s (sessions server).

(** [req.session?.userId], and [!userId] in [requireAuth]: [0] is falsy. *)
Definition requireAuth (server : Server) (req : Request) : option Z :=
  truthy_id (sessions server !! session req).

Definition unauthenticated : Response :=
  mkResponse 401 (Message "Authentication required").

Definition json (b : Body) : Response := mkResponse 200 b.

(** [new Map(accounts.map(a => [a.id, a]))] *)
Definition accountsMap (accounts : list Account.t) : gmap Z Account.t :=
  fold_left (λ m a, <[Account.id a := a]> m) accounts ∅.

Section Host.

(** [new Date(year, monthIndex, day)], and [new Date(s)] on a string:
    [None] for an invalid date. *)
Variable newDate : Z → Z → Z → Date.
Variable parseDate : string → option Date.

Definition login (server : Server) (req : Request) (body : Parsed LoginInput)
    : Server * Response :=
  match body with
  | Valid input =>
      match Store.getUserByUsername (storage server) (login_username input) with
      | Some user =>
          if bool_decide (User.password user = login_password input)
          then (mkServer (storage server) (<[session req := User.id user]> (sessions server)),
                json (OneUser (public user)))
          else (server, mkResponse 401 (Message "Invalid credentials"))
      | None => (server, mkResponse 401 (Message "Invalid credentials"))
      end
  | _ => (server, mkResponse 400 (Message "Invalid request data"))
  end.

Definition logout (server : Server) (req : Request) : Server * Response :=
  (mkServer (storage server) (delete (session req) (sessions server)),
   json (Message "Logged out successfully")).

Definition me (server : Server) (userId : Z) : Server * Response :=
  match Store.getUser (storage server) userId with
  | None => (server, mkResponse 404 (Message "User not found"))
  | Some user => (server, json (OneUser (public user)))
  end.

Definition register (server : Server) (req : Request) (body : Parsed RegisterInput)
    : Server * Response :=
  match body with
  | Valid input =>
      match Store.getUserByUsername (storage server) (register_username input) with
      | Some _ => (server, mkResponse 400 (Message "Username already exists"))
      | None =>
          match Store.getUserByEmail (storage server) (register_email input) with
          | Some _ => (server, mkResponse 400 (Message "Email already exists"))
          | None =>
              let r :=
                Store.createUser (storage server) (now req)
                  (InsertUser.mk (register_username input) (register_email input)
                     (register_password input) (register_fullName input)
                     (Some "employee") None) in
              (mkServer r.1 (<[session req := User.id r.2]> (sessions server)),
               mkResponse 201 (OneUser (public r.2)))
          end
      end
  | Invalid => (server, mkResponse 400 (Errors "Error de validación"))
  | Thrown _ =>
      (server,
       mkResponse 500 (Message "Error interno del servidor. Por favor, intenta de nuevo."))
  end.

Definition postCategory (server : Server) (body : Parsed InsertCategory.t)
    : Server * Response :=
  match body with
  | Valid categoryData =>
      let r := Store.createCategory (storage server) categoryData in
      (set_storage server r.1, mkResponse 201 (OneCategory r.2))
  | _ => (server, mkResponse 400 (Message "Invalid category data"))
  end.

Definition putCategory (server : Server) (id : option Z) (body : Parsed PartialCategory.t)
    : Server * Response :=
  match body with
  | Valid updates =>
      match id with
      | Some id =>
          let r := Store.updateCategory (storage server) id updates in
          match r.2 with
          | Some category => (set_storage server r.1, json (OneCategory category))
          | None => (server, mkResponse 404 (Message "Category not found"))
          end
      | None => (server, mkResponse 404 (Message "Category not found"))
      end
  | _ => (server, mkResponse 400 (Message "Invalid category data"))
  end.

Definition deleteCategory (server : Server) (id : option Z) : Server * Response :=
  match id with
  | Some id =>
      let r := Store.deleteCategory (storage server) id in
      if r.2
      then (set_storage server r.1, json (Message "Category deleted successfully"))
      else (server, mkResponse 404 (Message "Category not found"))
  | None => (server, mkResponse 404 (Message "Category not found"))
  end.

Definition postAccount (server : Server) (userId : Z) (body : Parsed CreateAccount)
    : Server * Response :=
  match body with
  | Valid validatedData =>
      let accountData :=
        InsertAccount.mk (account_name validatedData) (account_type validatedData)
          (account_balance validatedData) (account_bankName validatedData)
          (account_accountNumber validatedData) (Some userId) in
      let r := Store.createAccount (storage server) accountData in
      (set_storage server r.1, mkResponse 201 (OneAccount r.2))
  | Invalid =>
      (server, mkResponse 400 (Errors "Error de validación en los datos de la cuenta"))
  | Thrown message =>
      (server,
       mkResponse 500
         (MessageDetails "Error interno del servidor al crear la cuenta" message))
  end.

Definition putAccount (server : Server) (id : option Z) (body : Parsed PartialAccount.t)
    : Server * Response :=
  match body with
  | Valid updates =>
      match id with
      | Some id =>
          let r := Store.updateAccount (storage server) id updates in
          match r.2 with
          | Some account => (set_storage server r.1, json (OneAccount account))
          | None => (server, mkResponse 404 (Message "Account not found"))
          end
      | None => (server, mkResponse 404 (Message "Account not found"))
      end
  | _ => (server, mkResponse 400 (Message "Invalid account data"))
  end.

Definition deleteAccount (server : Server) (id : option Z) : Server * Response :=
  match id with
  | Some id =>
      let r := Store.deleteAccount (storage server) id in
      if r.2
      then (set_storage server r.1, json (Message "Account deleted successfully"))
      else (server, mkResponse 404 (Message "Account not found"))
  | None => (server, mkResponse 404 (Message "Account not found"))
  end.

(** [{ ...t, category: ..., account: ... }] *)
Definition enrich (categoriesMap : gmap Z Category.t) (accountsMap : gmap Z Account.t)
    (t : Transaction.t) : Enriched :=
  mkEnriched t
    (match truthy_id (Transaction.categoryId t) with
     | Some categoryId => categoriesMap !! categoryId
     | None => None
     end)
    (match truthy_id (Transaction.accountId t) with
     | Some accountId => accountsMap !! accountId
     | None => None
     end).

Definition getTransactions (server : Server) (userId : Z)
    (startDate endDate : option string) : Server * Response :=
  let transactions :=
    match truthy_string startDate, truthy_string endDate with
    | Some startDate, Some endDate =>
        Store.getTransactionsByDateRange (storage server)
          (parseDate startDate) (parseDate endDate)
    | _, _ => Store.getTransactionsByUserId (storage server) userId
    end in
  let categories := Store.getAllCategories (storage server) in
  let accounts := Store.getAccountsByUserId (storage server) userId in
  let categoriesMap := Analytics.categoriesMap categories in
  let accountsMap := accountsMap accounts in
  (server, json (Transactions (enrich categoriesMap accountsMap <$> transactions))).

Definition noon_of (transactionDate : string) : option Date :=
  parseDate (transactionDate +:+ "T12:00:00.000Z").

Definition postTransaction (server : Server) (req : Request) (userId : Z)
    (body : Parsed CreateTransaction) : Server * Response :=
  match body with
  | Valid validatedData =>
      match noon_of (transactionDate validatedData) with
      | None =>
          (server,
           mkResponse 400 (MessageError "Fecha inválida" "La fecha proporcionada no es válida"))
      | Some date =>
          let transactionData :=
            InsertTransaction.mk (type validatedData) (amount validatedData)
              (description validatedData) (thirdParty validatedData)
              (categoryId validatedData) (accountId validatedData)
              (paymentMethod validatedData) None (notes validatedData)
              (Some userId) (Some date) in
          let r := Store.createTransaction (storage server) (now req) transactionData in
          (set_storage server r.1, mkResponse 201 (OneTransaction r.2))
      end
  | Invalid => (server, mkResponse 400 (Errors "Error de validación"))
  | Thrown message =>
      (server, mkResponse 400 (MessageError "Invalid transaction data" message))
  end.

(** [updateData]: the validated fields, with the date parsed when there is
    one (the schema admits no empty date). *)
Definition updateData (validatedUpdates : UpdateTransaction) (date : option Date)
    : PartialTransaction.t :=
  PartialTransaction.mk (update_type validatedUpdates) (update_amount validatedUpdates)
    (update_description validatedUpdates)
    (Some <$> update_thirdParty validatedUpdates)
    (update_categoryId validatedUpdates) (update_accountId validatedUpdates)
    (Some <$> update_paymentMethod validatedUpdates) None
    (Some <$> update_notes validatedUpdates) None date.

Definition putTransaction (server : Server) (id : option Z)
    (body : Parsed UpdateTransaction) : Server * Response :=
  match body with
  | Valid validatedUpdates =>
      let date :=
        match truthy_string (update_transactionDate validatedUpdates) with
        | Some transactionDate => Some (noon_of transactionDate)
        | None => None
        end in
      match date with
      | Some None =>
          (server,
           mkResponse 400 (MessageError "Fecha inválida" "La fecha proporcionada no es válida"))
      | _ =>
          match id with
          | Some id =>
              let r :=
                Store.updateTransaction (storage server) id
                  (updateData validatedUpdates (mjoin date)) in
              match r.2 with
              | Some transaction => (set_storage server r.1, json (OneTransaction transaction))
              | None => (server, mkResponse 404 (Message "Transaction not found"))
              end
          | None => (server, mkResponse 404 (Message "Transaction not found"))
          end
      end
  | Invalid => (server, mkResponse 400 (Errors "Error de validación"))
  | Thrown message =>
      (server, mkResponse 400 (MessageError "Invalid transaction data" message))
  end.

Definition deleteTransaction (server : Server) (id : option Z) : Server * Response :=
  match id with
  | Some id =>
      let r := Store.deleteTransaction (storage server) id in
      if r.2
      then (set_storage server r.1, json (Message "Transaction deleted successfully"))
      else (server, mkResponse 404 (Message "Transaction not found"))
  | None => (server, mkResponse 404 (Message "Transaction not found"))
  end.

Definition getSummary (server : Server) (req : Request) (userId : Z) : Server * Response :=
  (server,
   json (SummaryOf
           (Analytics.summary newDate (now req)
              (Store.getTransactionsByUserId (storage server) userId)
              (Store.getAccountsByUserId (storage server) userId)))).

Definition getExpensesByCategory (server : Server) (userId : Z) : Server * Response :=
  (server,
   json (ExpensesByCategory
           (Analytics.expensesByCategory
              (Store.getTransactionsByUserId (storage server) userId)
              (Store.getAllCategories (storage server))))).

Definition getMonthlyTrends (server : Server) (userId : Z) : Server * Response :=
  (server,
   json (MonthlyTrends
           (Analytics.monthlyTrends
              (Store.getTransactionsByUserId (storage server) userId)))).

Definition getTelegramConfig (server : Server) : Server * Response :=
  (server,
   json match Store.getTelegramConfig (storage server) with
        | Some config => Config config
        | None => NoConfig
        end).

Definition postTelegramConfig (server : Server) (req : Request)
    (body : Parsed InsertTelegramConfig.t) : Server * Response :=
  match body with
  | Valid configData =>
      let r := Store.createTelegramConfig (storage server) (now req) configData in
      (set_storage server r.1, mkResponse 201 (Config r.2))
  | _ => (server, mkResponse 400 (Message "Invalid telegram config data"))
  end.

Definition putTelegramConfig (server : Server) (id : option Z)
    (body : Parsed PartialTelegramConfig.t) : Server * Response :=
  match body with
  | Valid updates =>
      match id with
      | Some id =>
          let r := Store.updateTelegramConfig (storage server) id updates in
          match r.2 with
          | Some config => (set_storage server r.1, json (Config config))
          | None => (server, mkResponse 404 (Message "Telegram config not found"))
          end
      | None => (server, mkResponse 404 (Message "Telegram config not found"))
      end
  | _ => (server, mkResponse 400 (Message "Invalid telegram config data"))
  end.

(** [app.get(path, requireAuth, handler)] *)
Definition guarded (server : Server) (req : Request) (handler : Z → Server * Response)
    : Server * Response :=
  match requireAuth server req with
  | Some userId => handler userId
  | None => (server, unauthenticated)
  end.

Definition handle (server : Server) (req : Request) : Server * Response :=
  match route req with
  | POST_auth_login body => login server req body
  | POST_auth_logout => logout server req
  | GET_auth_me => guarded server req (me server)
  | POST_auth_register body => register server req body
  | GET_categories =>
      guarded server req
        (λ _, (server, json (Categories (Store.getAllCategories (storage server)))))
  | POST_categories body => guarded server req (λ _, postCategory server body)
  | PUT_categories id body => guarded server req (λ _, putCategory server id body)
  | DELETE_categories id => guarded server req (λ _, deleteCategory server id)
  | GET_accounts =>
      guarded server req
        (λ userId,
           (server, json (Accounts (Store.getAccountsByUserId (storage server) userId))))
  | POST_accounts body => guarded server req (λ userId, postAccount server userId body)
  | PUT_accounts id body => guarded server req (λ _, putAccount server id body)
  | DELETE_accounts id => guarded server req (λ _, deleteAccount server id)
  | GET_transactions startDate endDate =>
      guarded server req (λ userId, getTransactions server userId startDate endDate)
  | POST_transactions body =>
      guarded server req (λ userId, postTransaction server req userId body)
  | PUT_transactions id body => guarded server req (λ _, putTransaction server id body)
  | DELETE_transactions id => guarded server req (λ _, deleteTransaction server id)
  | GET_analytics_summary => guarded server req (getSummary server req)
  | GET_analytics_expenses_by_category =>
      guarded server req (getExpensesByCategory server)
  | GET_analytics_monthly_trends => guarded server req (getMonthlyTrends server)
  | GET_telegram_config => guarded server req (λ _, getTelegramConfig server)
  | POST_telegram_config body =>
      guarded server req (λ _, postTelegramConfig server req body)
  | PUT_telegram_config id body =>
      guarded server req (λ _, putTelegramConfig server id body)
  end.

(** The routes that are not behind [requireAuth]. *)
Definition open (r : Route) : bool :=
  match r with
  | POST_auth_login _ | POST_auth_logout | POST_auth_register _ => true
  | _ => false
  end.

Definition serve (server : Server) (requests : list Request) : Server :=
  fold_left (λ server req, (handle server req).1) requests server.

End Host.

(** The server at its start: the store of the constructor, no session. *)
Definition start (now : Date) : Server := mkServer (Store.constructor now) ∅.

End Api.

(* ===================================================================== *)
(** * The operations of the client                                        *)
(* ===================================================================== *)

(** The transactions that the dialog of transfers and payments posts, as
    the validation of the route returns them: the ids of the form parsed,
    the amount and the date as typed. *)
Module Client.

(** [data.notes || fallback] *)
Definition notes_or (notes fallback : string) : string :=
  match notes with
  | EmptyString => fallback
  | _ => notes
  end.

(** A transfer: an expense of the source and an income of the destination. *)
Definition outgoingTransaction (amount : Number.decimal) (fromAccountId : Z)
    (toAccount : Account.t) (notes transactionDate : string) : Api.CreateTransaction :=
  Api.mkCreateTransaction expense amount
    ("Transferencia a " +:+ Account.name toAccount)
    (Some "Transferencia") (Some 1%Z) (Some fromAccountId) (Some "transfer")
    (Some (notes_or notes ("Transferencia a " +:+ Account.name toAccount)))
    transactionDate.

Definition incomingTransaction (amount : Number.decimal) (toAccountId : Z)
    (fromAccount : Account.t) (notes transactionDate : string) : Api.CreateTransaction :=
  Api.mkCreateTransaction income amount
    ("Transferencia desde " +:+ Account.name fromAccount)
    (Some "Transferencia") (Some 1%Z) (Some toAccountId) (Some "transfer")
    (Some (notes_or notes ("Transferencia desde " +:+ Account.name fromAccount)))
    transactionDate.

(** [toLoan.type === 'loan' ? 'préstamo' : 'crédito'] *)
Definition debt (toLoan : Account.t) : string :=
  if decide (Account.type toLoan = "loan") then "préstamo" else "crédito".

(** A payment to a loan or to a credit: an expense of the source. *)
Definition paymentTransaction (amount : Number.decimal) (fromAccountId : Z)
    (toLoan : Account.t) (notes transactionDate : string) : Api.CreateTransaction :=
  Api.mkCreateTransaction expense amount
    ("Pago de " +:+ debt toLoan +:+ ": " +:+ Account.name toLoan)
    (Some "Pago de deuda") (Some 1%Z) (Some fromAccountId) (Some "transfer")
    (Some (notes_or notes ("Pago de " +:+ debt toLoan)))
    transactionDate.

(** [Math.max(0, loanBalance - amount).toFixed(2)], the balance that the
    dialog sends for the account paid. *)
Definition newLoanBalance (toLoan : Account.t) (amount : Number.decimal) : Number.decimal :=
  let loanBalance := Number.parseFloat (Account.balance toLoan) in
  let difference := Number.sub loanBalance (Number.parseFloat amount) in
  Number.toFixed 2 (if Number.gtb difference 0 then difference else 0%Q).

(** [{ balance: newLoanBalance.toFixed(2) }], the body of the update of
    the account paid. *)
Definition loanUpdate (toLoan : Account.t) (amount : Number.decimal) : PartialAccount.t :=
  PartialAccount.mk None None (Some (newLoanBalance toLoan amount)) None None None.

End Client.

(* ===================================================================== *)
(** * Vocabulary of the further properties                                *)
(* ===================================================================== *)

(** A clock of whole days: [new Date(year, monthIndex, day)] is the start
    of the month of index [12 * year + monthIndex] and [day - 1] days of
    86 400 000 ms; a later month starts no earlier. *)
Definition whole_days (newDate : Z → Z → Z → Date) : Prop :=
  ∃ first : Z → Z,
    (∀ i j, (i ≤ j)%Z → (first i ≤ first j)%Z)
    ∧ ∀ year monthIndex day,
        (1000 ≤ year ≤ 9999)%Z → (-1 ≤ monthIndex ≤ 12)%Z →
        getTime (newDate year monthIndex day)
        = (first (12 * year + monthIndex) + (day - 1) * 86400000)%Z.

(** A date after the start of the last day of a month and before the
    start of the month that follows. *)
Definition in_last_day (newDate : Z → Z → Z → Date) (date : Date) : Prop :=
  ∃ year monthIndex,
    (1000 ≤ year ≤ 9999)%Z ∧ (0 ≤ monthIndex ≤ 12)%Z
    ∧ (getTime (newDate year monthIndex 0) < getTime date
       < getTime (newDate year monthIndex 1))%Z.

(** The cents of the transactions that count for a total. *)
Definition cents (type : TransactionType) (l : list Transaction.t) : Z :=
  foldr (λ t acc, (Number.unscaled (Transaction.amount t) + acc)%Z) 0%Z
    (filter (λ t, Analytics.counts_as type t = true) l).

(** The sum of the values of the amounts of a list. *)
Definition sum_values (l : list Transaction.t) : Q :=
  foldr (λ t acc, (Number.value (Transaction.amount t) + acc)%Q) 0%Q l.

(** The rows of a table are stored under their own ids, and the ids are
    among those that the counter of the table has issued. *)
Definition issued {A} (id_of : A → Z) (m : gmap Z A) (next : Z) : Prop :=
  (0 < next)%Z ∧ ∀ k x, m !! k = Some x → id_of x = k ∧ (0 < k < next)%Z.

Record well_formed (this : Store.t) : Prop := WellFormed {
  wf_users : issued User.id (Store.users this) (Store.currentUserId this);
  wf_categories :
    issued Category.id (categories (Store.tables this)) (Store.currentCategoryId this);
  wf_accounts :
    issued Account.id (accounts (Store.tables this)) (Store.currentAccountId this);
  wf_transactions :
    issued Transaction.id (transactions (Store.tables this))
      (currentTransactionId (Store.tables this));
  wf_configs :
    issued TelegramConfig.id (Store.telegramConfigs this) (Store.currentConfigId this) }.

(** The order of a listing of transactions: the later creation first,
    and of two rows created at the same instant the one of the smaller id. *)
Definition listed_before (a b : Transaction.t) : Prop :=
  (getTime (Transaction.createdAt b) < getTime (Transaction.createdAt a))%Z
  ∨ (getTime (Transaction.createdAt b) = getTime (Transaction.createdAt a)
     ∧ (Transaction.id a < Transaction.id b)%Z).

(** The counters of [this'] are not below those of [this]. *)
Definition not_before (this this' : Store.t) : Prop :=
  (Store.currentUserId this ≤ Store.currentUserId this')%Z
  ∧ (Store.currentCategoryId this ≤ Store.currentCategoryId this')%Z
  ∧ (Store.currentAccountId this ≤ Store.currentAccountId this')%Z
  ∧ (currentTransactionId (Store.tables this)
     ≤ currentTransactionId (Store.tables this'))%Z
  ∧ (Store.currentConfigId this ≤ Store.currentConfigId this')%Z.

(** A call of a method that leaves the users alone. *)
Definition leaves_users (c : Store.call) : Prop :=
  match c with
  | Store.CreateUser _ _ | Store.UpdateUser _ _ => False
  | _ => True
  end.

(** A call that a route makes: it leaves the users alone, and an update
    of a transaction names no owner. *)
Definition of_a_route (c : Store.call) : Prop :=
  leaves_users c
  ∧ match c with
    | Store.UpdateTransaction _ updates => PartialTransaction.userId updates = None
    | _ => True
    end.

(** The state of a server that the routes keep: the store is well formed,
    no two users share a name or an address, a session holds the id of a
    user, and a transaction belongs to a user. *)
Record consistent (server : Api.Server) : Prop := Consistent {
  consistent_store : well_formed (Api.storage server);
  consistent_usernames :
    ∀ i j u v,
      Store.users (Api.storage server) !! i = Some u →
      Store.users (Api.storage server) !! j = Some v →
      User.username u = User.username v → i = j;
  consistent_emails :
    ∀ i j u v,
      Store.users (Api.storage server) !! i = Some u →
      Store.users (Api.storage server) !! j = Some v →
      User.email u = User.email v → i = j;
  consistent_sessions :
    ∀ session userId,
      Api.sessions server !! session = Some userId →
      is_Some (Store.users (Api.storage server) !! userId);
  consistent_owners :
    ∀ id t,
      transactions (Store.tables (Api.storage server)) !! id = Some t →
      ∃ userId,
        Transaction.userId t = Some userId
        ∧ is_Some (Store.users (Api.storage server) !! userId) }.

(** An update that names no field, and [{ ...updates1, ...updates2 }]:
    the fields of the second payload, and those of the first that the
    second leaves out. *)
Definition noUpdates : PartialTransaction.t :=
  PartialTransaction.mk None None None None None None None None None None None.

Definition or_else {A} (x y : option A) : option A :=
  match x with
  | Some _ => x
  | None => y
  end.

Definition spread (updates1 updates2 : PartialTransaction.t) : PartialTransaction.t :=
  PartialTransaction.mk
    (or_else (PartialTransaction.type updates2) (PartialTransaction.type updates1))
    (or_else (PartialTransaction.amount updates2) (PartialTransaction.amount updates1))
    (or_else (PartialTransaction.description updates2)
       (PartialTransaction.description updates1))
    (or_else (PartialTransaction.thirdParty updates2)
       (PartialTransaction.thirdParty updates1))
    (or_else (PartialTransaction.categoryId updates2)
       (PartialTransaction.categoryId updates1))
    (or_else (PartialTransaction.accountId updates2)
       (PartialTransaction.accountId updates1))
    (or_else (PartialTransaction.paymentMethod updates2)
       (PartialTransaction.paymentMethod updates1))
    (or_else (PartialTransaction.receiptUrl updates2)
       (PartialTransaction.receiptUrl updates1))
    (or_else (PartialTransaction.notes updates2) (PartialTransaction.notes updates1))
    (or_else (PartialTransaction.userId updates2) (PartialTransaction.userId updates1))
    (or_else (PartialTransaction.transactionDate updates2)
       (PartialTransaction.transactionDate updates1)).

(** The row that [POST /api/transactions] stores for a validated payload. *)
Definition posted_row (id : Z) (now date : Date) (userId : Z)
    (validatedData : Api.CreateTransaction) : Transaction.t :=
  Transaction.mk id (Api.type validatedData) (Api.amount validatedData)
    (Api.description validatedData)
    (truthy_string (Api.thirdParty validatedData))
    (truthy_id (Api.categoryId validatedData))
    (truthy_id (Api.accountId validatedData))
    (truthy_string (Api.paymentMethod validatedData)) None
    (truthy_string (Api.notes validatedData))
    (truthy_id (Some userId)) now date.

(** The details that the listing of a user joins to a transaction: the
    category that the transaction names, and the account that it names if
    the account is of the user. *)
Definition details (this : Store.t) (userId : Z) (t : Transaction.t) : Api.Enriched :=
  Api.mkEnriched t
    (match truthy_id (Transaction.categoryId t) with
     | Some categoryId => Store.getCategoryById this categoryId
     | None => None
     end)
    (match truthy_id (Transaction.accountId t) with
     | Some accountId =>
         match Store.getAccountById this accountId with
         | Some account =>
             if decide (Account.userId account = Some userId) then Some account else None
         | None => None
         end
     | None => None
     end).

(* ===================================================================== *)
(** * Samples of the store and of the server                              *)
(* ===================================================================== *)

(** Noon of the last day of June 2024 on the clock of the samples. *)
Definition lastDayNoon : Date :=
  mkDate (getTime (civil 2024 6 0) + 43200000) 2024 5.

Definition lastDaySale : Transaction.t :=
  row 7 income 20000 "Venta" None (Some 6%Z) lastDayNoon.

(** An update of the amount to 5.00. *)
Definition amountToFive : PartialTransaction.t :=
  PartialTransaction.mk None (Some (Number.Decimal 500 2)) None None None None None None
    None None None.

Definition loanAccount : InsertAccount.t :=
  InsertAccount.mk "Préstamo del banco" "loan" (Some (Number.Decimal 500000 2))
    (Some "Banco Nacional") None (Some 1%Z).

(** A loan that has been paid in excess, and a credit card. *)
Definition overpaidLoan : Account.t :=
  Account.mk 3 "Préstamo del banco" "loan" (Number.Decimal (-25000) 2)
    (Some "Banco Nacional") None (Some 1%Z).

Definition creditCard : Account.t :=
  Account.mk 4 "Tarjeta" "credit" (Number.Decimal 120000 2) None None (Some 1%Z).

(** The store of the constructor after an expense of 30.00 of the savings
    account and an income of 20.00 of the checking account. *)
Definition sampleStore : Store.t :=
  Store.execs (Store.constructor noon)
    [ Store.CreateTransaction noon (payload expense 3000 "Alquiler" None 3 2);
      Store.CreateTransaction noon (payload income 2000 "Venta" None 6 1) ].

(** A parser of dates that knows three strings. *)
Definition sampleParse (s : string) : option Date :=
  if decide (s = "2024-06-10T12:00:00.000Z") then Some noon
  else if decide (s = "2024-06-01") then Some (mkDate 1717200000000 2024 5)
  else if decide (s = "2024-06-30") then Some (mkDate 1719705600000 2024 5)
  else None.

Definition adminLogin : Api.LoginInput := Api.mkLoginInput "admin" "demo123".

Definition ana : Api.RegisterInput :=
  Api.mkRegisterInput "ana" "ana@empresa.com" "secreto" "Ana Ruiz".

Definition lunch : Api.CreateTransaction :=
  Api.mkCreateTransaction expense (Number.Decimal 1250 2) "Almuerzo" None
    (Some 5%Z) (Some 1%Z) (Some "cash") None "2024-06-10".

(** The server after the login of the administrator in session 5, the
    registration of a user in session 7 and an expense of each. *)
Definition opened : Api.Server :=
  Api.serve civil sampleParse (Api.start noon)
    [ Api.mkRequest 5 noon (Api.POST_auth_login (Api.Valid adminLogin));
      Api.mkRequest 7 noon (Api.POST_auth_register (Api.Valid ana));
      Api.mkRequest 5 noon (Api.POST_transactions (Api.Valid lunch));
      Api.mkRequest 7 noon (Api.POST_transactions (Api.Valid lunch)) ].

(** An update of the description. *)
Definition renamed : Api.UpdateTransaction :=
  Api.mkUpdateTransaction None None (Some "Cena") None None None None None None.

(** The server after the login of the administrator in session 5 and the
    creation of a loan of 5000.00. *)
Definition loanData : Api.CreateAccount :=
  Api.mkCreateAccount "Préstamo del banco" "loan" (Some (Number.Decimal 500000 2))
    (Some "Banco Nacional") None.

Definition bankLoan : Account.t :=
  Account.mk 3 "Préstamo del banco" "loan" (Number.Decimal 500000 2)
    (Some "Banco Nacional") None (Some 1%Z).

Definition indebted : Api.Server :=
  Api.serve civil sampleParse (Api.start noon)
    [ Api.mkRequest 5 noon (Api.POST_auth_login (Api.Valid adminLogin));
      Api.mkRequest 5 noon (Api.POST_accounts (Api.Valid loanData)) ].

(* ===================================================================== *)
(** * Facts about the number model                                        *)
(* ===================================================================== *)

Module NumberFacts.
Import Number.
Local Open Scope Q_scope.

Lemma two_neq0 : ~ (2#1) == 0.
Proof. discriminate. Qed.

Lemma pow2_pos (e : Z) : 0 < (2#1) ^ e.
Proof. apply Qpower_0_lt. reflexivity. Qed.

Lemma inject_Z_pos (d : Z) : (0 < d)%Z -> 0 < inject_Z d.
Proof. intros H. change 0 with (inject_Z 0). now rewrite <- Zlt_Qlt. Qed.

Lemma pow2_log2_le (n : Z) : (0 < n)%Z -> (2#1) ^ Z.log2 n <= inject_Z n.
Proof.
  intros Hn. change (2#1) with (inject_Z 2).
  rewrite <- Zpower_Qpower by apply Z.log2_nonneg.
  rewrite <- Zle_Qle. apply Z.log2_spec, Hn.
Qed.

Lemma pow2_log2_gt (n : Z) : (0 < n)%Z -> inject_Z n < (2#1) ^ (Z.log2 n + 1).
Proof.
  intros Hn. change (2#1) with (inject_Z 2).
  rewrite <- Zpower_Qpower by (pose proof (Z.log2_nonneg n); lia).
  rewrite <- Zlt_Qlt. replace (Z.log2 n + 1)%Z with (Z.succ (Z.log2 n)) by lia.
  apply Z.log2_spec, Hn.
Qed.

Lemma Q_num_den (q : Q) : q * inject_Z (Zpos (Qden q)) == inject_Z (Qnum q).
Proof. destruct q as [n d]; unfold Qeq, Qmult, inject_Z; simpl. lia. Qed.

Lemma Qnum_pos (q : Q) : 0 < q -> (0 < Qnum q)%Z.
Proof. destruct q as [n d]; unfold Qlt; simpl. lia. Qed.

(** [floor_log2] brackets its argument between two consecutive powers of 2. *)
Lemma floor_log2_lower (q : Q) : 0 < q -> (2#1) ^ floor_log2 q <= q.
Proof.
  intros Hq. unfold floor_log2.
  pose proof (Qnum_pos q Hq) as Hn.
  assert (Hd : (0 < Zpos (Qden q))%Z) by lia.
  destruct (Qle_bool _ q) eqn:E.
  - now apply Qle_bool_iff.
  - apply (Qmult_le_r _ _ (inject_Z (Zpos (Qden q)))); [now apply inject_Z_pos|].
    rewrite Q_num_den.
    set (n := Qnum q) in *. set (d := Zpos (Qden q)) in *.
    apply Qle_trans with ((2#1) ^ (Z.log2 n - Z.log2 d - 1) * (2#1) ^ (Z.log2 d + 1)).
    + apply Qmult_le_l; [apply pow2_pos|]. apply Qlt_le_weak, pow2_log2_gt, Hd.
    + rewrite <- Qpower_plus by apply two_neq0.
      replace (Z.log2 n - Z.log2 d - 1 + (Z.log2 d + 1))%Z with (Z.log2 n) by lia.
      apply pow2_log2_le, Hn.
Qed.

Lemma floor_log2_upper (q : Q) : 0 < q -> q < (2#1) ^ (floor_log2 q + 1).
Proof.
  intros Hq. unfold floor_log2.
  pose proof (Qnum_pos q Hq) as Hn.
  assert (Hd : (0 < Zpos (Qden q))%Z) by lia.
  destruct (Qle_bool _ q) eqn:E.
  - apply (Qmult_lt_r _ _ (inject_Z (Zpos (Qden q)))); [now apply inject_Z_pos|].
    rewrite Q_num_den.
    set (n := Qnum q) in *. set (d := Zpos (Qden q)) in *.
    apply Qlt_le_trans with ((2#1) ^ (Z.log2 n + 1)); [apply pow2_log2_gt, Hn|].
    replace (Z.log2 n + 1)%Z with ((Z.log2 n - Z.log2 d + 1) + Z.log2 d)%Z by lia.
    rewrite Qpower_plus by apply two_neq0.
    apply Qmult_le_l; [apply pow2_pos|]. apply pow2_log2_le, Hd.
  - set (n := Qnum q) in *. set (d := Zpos (Qden q)) in *.
    replace (Z.log2 n - Z.log2 d - 1 + 1)%Z with (Z.log2 n - Z.log2 d)%Z by lia.
    apply Qnot_le_lt. intros H. apply Qle_bool_iff in H. congruence.
Qed.

Lemma round_half_even_error (t : Q) :
  Qabs (inject_Z (round_half_even t) - t) <= 1#2.
Proof.
  unfold round_half_even.
  pose proof (Qfloor_le t) as Hlo. pose proof (Qlt_floor t) as Hhi.
  rewrite inject_Z_plus in Hhi. change (inject_Z 1) with 1 in Hhi.
  apply Qabs_Qle_condition.
  destruct (Qcompare_spec (t - inject_Z (Qfloor t)) (1#2)) as [E|E|E].
  - destruct (Z.even (Qfloor t));
      [|rewrite inject_Z_plus; change (inject_Z 1) with 1]; split; lra.
  - split; lra.
  - rewrite inject_Z_plus; change (inject_Z 1) with 1; split; lra.
Qed.

Lemma RN_zero (q : Q) : q == 0 -> RN q = 0.
Proof.
  destruct q as [n d]; unfold Qeq, RN; simpl. intros H.
  replace n with 0%Z by lia. reflexivity.
Qed.

Lemma Qabs_pos_of_nonzero (q : Q) : ~ q == 0 -> 0 < Qabs q.
Proof.
  intros Hnz. apply Qabs_case; intros H; apply Qle_lt_or_eq in H as [H|H];
    solve [lra | exfalso; apply Hnz; lra].
Qed.

Lemma pow2_m52 : (2#1) ^ (-52) == 1 # 4503599627370496.
Proof. vm_compute. reflexivity. Qed.

(** The standard model of rounding: the relative error of [RN] is at most
    the unit roundoff. *)
Lemma RN_rel_error (q : Q) : Qabs (RN q - q) <= u * Qabs q.
Proof.
  destruct (Qeq_dec q 0) as [Hz|Hnz].
  - rewrite (RN_zero q Hz), Hz. discriminate.
  - pose proof (Qabs_pos_of_nonzero q Hnz) as Ha.
    pose proof (floor_log2_lower _ Ha) as He.
    unfold RN. destruct (Qnum q) eqn:En.
    { exfalso; apply Hnz. destruct q; unfold Qeq; simpl in *; lia. }
    all: set (e := floor_log2 (Qabs q)) in *;
      set (s := (52 - e)%Z);
      pose proof (round_half_even_error (q * (2#1) ^ s)) as Hr;
      set (m := inject_Z (round_half_even (q * (2#1) ^ s))) in *;
      assert (HPI : (2#1) ^ s * (2#1) ^ (- s) == 1)
        by (rewrite <- Qpower_plus by apply two_neq0;
            replace (s + - s)%Z with 0%Z by lia; reflexivity);
      assert (HI : (2#1) ^ (- s) == (2#1) ^ e * (1 # 4503599627370496))
        by (rewrite <- pow2_m52, <- Qpower_plus by apply two_neq0;
            f_equiv; unfold s; lia);
      pose proof (pow2_pos (- s)) as HIpos;
      set (P := (2#1) ^ s) in *; set (I := (2#1) ^ (- s)) in *;
      set (E := (2#1) ^ e) in *; set (a := Qabs q) in *;
      apply Qabs_Qle_condition in Hr; apply Qabs_Qle_condition;
      assert (Hq : q * P * I == q)
        by (rewrite <- Qmult_assoc, HPI; ring);
      unfold u; split; nra.
Qed.

Lemma RN_abs_error (q r : Q) :
  Qabs q <= r -> - (u * r) <= RN q - q <= u * r.
Proof.
  intros Hr. apply Qabs_Qle_condition.
  eapply Qle_trans; [apply RN_rel_error|].
  apply Qmult_le_l; [reflexivity | exact Hr].
Qed.

Lemma Qfloor_unique (q : Q) (c : Z) :
  inject_Z c <= q -> q < inject_Z c + 1 -> Qfloor q = c.
Proof.
  intros Hlo Hhi.
  pose proof (Qfloor_le q) as Fl. pose proof (Qlt_floor q) as Fh.
  assert (H1 : inject_Z (Qfloor q) < inject_Z (c + 1))
    by (rewrite inject_Z_plus; change (inject_Z 1) with 1; lra).
  assert (H2 : inject_Z c < inject_Z (Qfloor q + 1)) by lra.
  rewrite <- Zlt_Qlt in H1, H2. lia.
Qed.

(** [toFixed(2)] returns the cents that are within half a cent of its argument. *)
Lemma toFixed2_near (z : Q) (c : Z) :
  - (1#2) < 100 * z - inject_Z c < 1#2 -> toFixed 2 z = Decimal c 2.
Proof.
  intros [Hlo Hhi]. unfold toFixed. f_equal.
  change (inject_Z (10 ^ Z.of_nat 2)) with 100.
  destruct (ltb z 0).
  - rewrite (Qfloor_unique _ (- c)); [lia| |]; rewrite inject_Z_opp; lra.
  - apply Qfloor_unique; lra.
Qed.

Lemma value_scale2 (a : Z) : 100 * value (Decimal a 2) == inject_Z a.
Proof.
  unfold value; cbn [unscaled scale].
  change (inject_Z (10 ^ Z.of_nat 2)) with 100. field.
Qed.

Lemma inject_Z_abs_bounds (a : Z) :
  - inject_Z (Z.abs a) <= inject_Z a <= inject_Z (Z.abs a).
Proof. rewrite <- inject_Z_opp. split; rewrite <- Zle_Qle; lia. Qed.

(** Posting in binary64 and formatting with two digits is exact on cents,
    as long as operands and result together stay below [4 * 10^15] cents:
    three roundings of relative size [u] cannot reach half a cent. *)
Lemma posting_exact (plus : bool) (a b : Z) :
  (Z.abs a + Z.abs b + Z.abs (if plus then a + b else a - b)
   <= 4000000000000000)%Z ->
  toFixed 2 ((if plus then add else sub)
               (parseFloat (Decimal a 2)) (parseFloat (Decimal b 2)))
  = Decimal (if plus then a + b else a - b) 2.
Proof.
  intros Hb. apply toFixed2_near.
  pose proof (value_scale2 a) as HA. pose proof (value_scale2 b) as HB.
  pose proof (inject_Z_abs_bounds a) as Ba.
  pose proof (inject_Z_abs_bounds b) as Bb.
  pose proof (inject_Z_abs_bounds (if plus then a + b else a - b)) as Bs.
  rewrite Zle_Qle, !inject_Z_plus in Hb.
  change (inject_Z 4000000000000000) with 4000000000000000 in Hb.
  unfold parseFloat.
  set (A := value (Decimal a 2)) in *. set (B := value (Decimal b 2)) in *.
  set (zs := inject_Z (Z.abs (if plus then _ else _))) in *.
  set (za := inject_Z (Z.abs a)) in *. set (zb := inject_Z (Z.abs b)) in *.
  assert (Ex : - (u * (za * (1#100))) <= RN A - A <= u * (za * (1#100)))
    by (apply RN_abs_error, Qabs_Qle_condition; split; lra).
  assert (Ey : - (u * (zb * (1#100))) <= RN B - B <= u * (zb * (1#100)))
    by (apply RN_abs_error, Qabs_Qle_condition; split; lra).
  set (x := RN A) in *. set (y := RN B) in *.
  set (r := zs * (1#100) + u * (za * (1#100)) + u * (zb * (1#100))).
  unfold u in *.
  destruct plus; unfold add, sub.
  - rewrite inject_Z_plus in *.
    assert (Ez : - (u * r) <= RN (x + y) - (x + y) <= u * r)
      by (apply RN_abs_error, Qabs_Qle_condition; unfold r, u; split; lra).
    unfold r, u in Ez. split; lra.
  - unfold Z.sub in *. rewrite inject_Z_plus, inject_Z_opp in *.
    assert (Ez : - (u * r) <= RN (x - y) - (x - y) <= u * r)
      by (apply RN_abs_error, Qabs_Qle_condition; unfold r, u; split; lra).
    unfold r, u in Ez. split; lra.
Qed.

(** Rounding keeps the sign, and a rounded value is zero only as [0]. *)
Lemma round_half_even_nonneg (t : Q) : 0 <= t -> (0 <= round_half_even t)%Z.
Proof.
  intros Ht. unfold round_half_even.
  assert (0 <= Qfloor t)%Z by (apply (Qfloor_resp_le 0 t Ht)).
  destruct (Qcompare _ _); [destruct (Z.even _)| |]; lia.
Qed.

Lemma RN_nonneg (q : Q) : 0 <= q -> 0 <= RN q.
Proof.
  intros Hq. unfold RN. destruct (Qnum q); [apply Qle_refl| |];
    (apply Qmult_le_0_compat; [|apply Qlt_le_weak, pow2_pos]);
    change 0 with (inject_Z 0); rewrite <- Zle_Qle;
    apply round_half_even_nonneg;
    (apply Qmult_le_0_compat; [exact Hq|apply Qlt_le_weak, pow2_pos]).
Qed.

Lemma RN_canonical_zero (q : Q) : RN q == 0 -> RN q = 0.
Proof.
  intros H0. destruct (Qeq_dec q 0) as [Hz|Hnz]; [by apply RN_zero|].
  exfalso. pose proof (RN_rel_error q) as He.
  pose proof (Qabs_pos_of_nonzero q Hnz) as Ha.
  apply Qabs_Qle_condition in He. unfold u in He.
  revert He Ha. apply Qabs_case; intros; lra.
Qed.

Lemma or_zero_RN (q : Q) : or_zero (Some (RN q)) = RN q.
Proof.
  unfold or_zero. destruct (Qeq_bool (RN q) 0) eqn:E; [|done].
  apply Qeq_bool_iff in E. symmetry. by apply RN_canonical_zero.
Qed.


Lemma add_nonneg (x y : Q) : 0 <= x -> 0 <= y -> 0 <= add x y.
Proof. intros Hx Hy. apply RN_nonneg. lra. Qed.

(** The model agrees with the binary64 arithmetic of the kernel on samples:
    a literal, a sum, a difference, a product and a quotient. *)
Example agrees_literal :
  agrees (1005 / 1000)%float (parseFloat (Decimal 1005 3)) = true.
Proof. vm_compute. reflexivity. Qed.

Example agrees_add :
  agrees (1 / 10 + 2 / 10)%float
    (add (parseFloat (Decimal 1 1)) (parseFloat (Decimal 2 1))) = true.
Proof. vm_compute. reflexivity. Qed.

Example agrees_sub :
  agrees (8745030 / 100 - 2999 / 100)%float
    (sub (parseFloat (Decimal 8745030 2)) (parseFloat (Decimal 2999 2))) = true.
Proof. vm_compute. reflexivity. Qed.

Example agrees_mul_div :
  agrees ((7 / 3) * 100)%float (mul (div 7 3) 100) = true.
Proof. vm_compute. reflexivity. Qed.

(** And on every pair of a grid of amounts, from a cent to the largest
    value of the column, of both signs. *)
Example agrees_on_samples :
  forallb (λ a, forallb (agrees_on a) sample_cents) sample_cents = true.
Proof. vm_compute. reflexivity. Qed.

End NumberFacts.

(* ===================================================================== *)
(** * Facts about the store                                               *)
(* ===================================================================== *)

Lemma truthy_id_idemp (x : option Z) : truthy_id (truthy_id x) = truthy_id x.
Proof.
  destruct x as [z|]; simpl; [|done].
  destruct (z =? 0)%Z eqn:E; simpl; [done|]. by rewrite E.
Qed.

Lemma truthy_id_Some (x : option Z) (z : Z) : truthy_id x = Some z ↔ x = Some z ∧ z ≠ 0%Z.
Proof.
  destruct x as [y|]; simpl; [|by split; [|intros [? _]]].
  destruct (y =? 0)%Z eqn:E; [apply Z.eqb_eq in E|apply Z.eqb_neq in E].
  - split; [done|]. intros [[= ->] ?]. done.
  - split; [by intros [= ->]|by intros [-> _]].
Qed.

Lemma balance_with_balance (account : Account.t) (b : Number.decimal) :
  Account.balance (Account.with_balance account b) = b.
Proof. done. Qed.

Lemma decimal_scale2 (d : Number.decimal) :
  Number.scale d = 2%nat → d = Number.Decimal (Number.unscaled d) 2.
Proof. destruct d; simpl; by intros ->. Qed.

(** The balance that [createTransaction] writes, on cents. *)
Lemma create_balance_exact (type : TransactionType) (b a : Z) :
  (Z.abs b + Z.abs a + Z.abs (post type b a) ≤ 4000000000000000)%Z →
  binary_post type (Number.Decimal b 2) (Number.Decimal a 2)
  = Number.Decimal (post type b a) 2.
Proof.
  intros H. unfold binary_post. destruct type.
  - apply (NumberFacts.posting_exact false b a), H.
  - apply (NumberFacts.posting_exact true b a), H.
Qed.

(** The balance that [deleteTransaction] writes, on cents. *)
Lemma delete_balance_exact (type : TransactionType) (b a : Z) :
  (Z.abs b + Z.abs a + Z.abs (unpost type b a) ≤ 4000000000000000)%Z →
  binary_unpost type (Number.Decimal b 2) (Number.Decimal a 2)
  = Number.Decimal (unpost type b a) 2.
Proof.
  intros H. unfold binary_unpost. destruct type.
  - apply (NumberFacts.posting_exact true b a), H.
  - apply (NumberFacts.posting_exact false b a), H.
Qed.

(** What [createTransaction] does to the tables. *)
Lemma createTransaction_transactions this now ins :
  transactions (createTransaction this now ins).1
  = <[currentTransactionId this := (createTransaction this now ins).2]> (transactions this).
Proof.
  unfold createTransaction; simpl.
  destruct (truthy_id (truthy_id _)); [|done].
  by destruct (accounts this !! _).
Qed.

Lemma createTransaction_counter this now ins :
  currentTransactionId (createTransaction this now ins).1
  = (currentTransactionId this + 1)%Z.
Proof.
  unfold createTransaction; simpl.
  destruct (truthy_id (truthy_id _)); [|done].
  by destruct (accounts this !! _).
Qed.

Lemma createTransaction_accounts this now ins :
  accounts (createTransaction this now ins).1 =
  match truthy_id (InsertTransaction.accountId ins) with
  | Some accountId =>
      match accounts this !! accountId with
      | Some account =>
          <[accountId :=
              Account.with_balance account
                (binary_post (InsertTransaction.type ins)
                   (Account.balance account) (InsertTransaction.amount ins))]>
            (accounts this)
      | None => accounts this
      end
  | None => accounts this
  end.
Proof.
  unfold createTransaction; simpl. rewrite truthy_id_idemp.
  destruct (truthy_id _); [|done].
  destruct (accounts this !! _); [|done].
  simpl. by destruct (InsertTransaction.type ins).
Qed.

(** What [deleteTransaction] does to the tables. *)
Lemma deleteTransaction_transactions this id :
  transactions (deleteTransaction this id).1 = delete id (transactions this).
Proof.
  unfold deleteTransaction.
  destruct (transactions this !! id) as [t|] eqn:E; simpl.
  - destruct (truthy_id _); [|done]. by destruct (accounts this !! _).
  - by rewrite delete_id.
Qed.

Lemma deleteTransaction_counter this id :
  currentTransactionId (deleteTransaction this id).1 = currentTransactionId this.
Proof.
  unfold deleteTransaction.
  destruct (transactions this !! id) as [t|]; simpl; [|done].
  destruct (truthy_id _); [|done]. by destruct (accounts this !! _).
Qed.

Lemma deleteTransaction_accounts this id :
  accounts (deleteTransaction this id).1 =
  match transactions this !! id with
  | Some transaction =>
      match truthy_id (Transaction.accountId transaction) with
      | Some accountId =>
          match accounts this !! accountId with
          | Some account =>
              <[accountId :=
                  Account.with_balance account
                    (binary_unpost (Transaction.type transaction)
                       (Account.balance account) (Transaction.amount transaction))]>
                (accounts this)
          | None => accounts this
          end
      | None => accounts this
      end
  | None => accounts this
  end.
Proof.
  unfold deleteTransaction.
  destruct (transactions this !! id) as [t|]; simpl; [|done].
  destruct (truthy_id _); [|done].
  destruct (accounts this !! _); [|done].
  simpl. by destruct (Transaction.type t).
Qed.

(* ===================================================================== *)
(** * Posting on create, update and delete                                *)
(* ===================================================================== *)



(** C3.  An update of an existing transaction replaces the row by the
    patched row, whatever the payload changes, amount, type and account
    included, and leaves every other row, every account and so every stored
    balance as it was. *)
Theorem updateTransaction_leaves_balances
    (this : MemStorage) (id : Z) (updates : PartialTransaction.t)
    (transaction : Transaction.t) :
  transactions this !! id = Some transaction →
  let this' := (updateTransaction this id updates).1 in
  (updateTransaction this id updates).2 = Some (patch transaction updates) ∧
  transactions this' = <[id := patch transaction updates]> (transactions this) ∧
  accounts this' = accounts this ∧
  (∀ accountId,
     Account.balance <$> accounts this' !! accountId
     = Account.balance <$> accounts this !! accountId).
Proof.
  intros Hrow this'. subst this'. unfold updateTransaction. rewrite Hrow. done.
Qed.


(* ===================================================================== *)
(** * Sums over the transaction table                                     *)
(* ===================================================================== *)

Section SumOver.
Context (f : Transaction.t → Z).
Implicit Types rows : gmap Z Transaction.t.






End SumOver.










(* ===================================================================== *)
(** * The balance along a run of creations and deletions                  *)
(* ===================================================================== *)








(* ===================================================================== *)
(** * The balance properties on concrete stores                           *)
(* ===================================================================== *)

(** The balances of the scenario: 70.00 after the expense, 90.00 after the
    income, 120.00 after the deletion of the expense. *)
Example scenario_balances :
  balanceOf 1 <$> [ run scenarioStore (take 1 scenarioOps);
                    run scenarioStore (take 2 scenarioOps);
                    run scenarioStore (take 3 scenarioOps) ]
  = [ Some (Number.Decimal 7000 2);
      Some (Number.Decimal 9000 2);
      Some (Number.Decimal 12000 2) ].
Proof. vm_compute. reflexivity. Qed.





(** C3 on the scenario: the expense is turned into an income of 999.00
    against another account, and the accounts stay as they were. *)
Lemma updateTransaction_leaves_balances_witness :
  let this := run scenarioStore (take 1 scenarioOps) in
  let this' := (updateTransaction this 1 changeEverything).1 in
  (updateTransaction this 1 changeEverything).2
    = Some (patch scenarioRow changeEverything) ∧
  transactions this' = <[1%Z := patch scenarioRow changeEverything]> (transactions this) ∧
  accounts this' = accounts this ∧
  (∀ accountId,
     Account.balance <$> accounts this' !! accountId
     = Account.balance <$> accounts this !! accountId).
Proof.
  apply (updateTransaction_leaves_balances
           (run scenarioStore (take 1 scenarioOps)) 1 changeEverything scenarioRow).
  reflexivity.
Defined.



(* ===================================================================== *)
(** * Binary arithmetic against decimal arithmetic                        *)
(* ===================================================================== *)






(** The same on two-decimal strings, beyond the fifteen digits of the
    column: a balance of 90071992547409.93 has no binary64 of its own, and
    an income of 0.00 moves it by a cent. *)
Example createTransaction_drifts_beyond_fifteen_digits :
  binary_post income (Number.Decimal 9007199254740993 2) (Number.Decimal 0 2)
    = Number.Decimal 9007199254740994 2
  ∧ decimal_post income (Number.Decimal 9007199254740993 2) (Number.Decimal 0 2)
    = Number.Decimal 9007199254740993 2.
Proof. vm_compute. split; reflexivity. Qed.

(** The kernel's binary64 gives the same digits for 0.015. *)
Example agrees_fifteen_thousandths :
  Number.agrees (0 + 15 / 1000)%float
    (Number.add (Number.parseFloat (Number.Decimal 0 2))
                (Number.parseFloat (Number.Decimal 15 3))) = true.
Proof. vm_compute. reflexivity. Qed.


(* ===================================================================== *)
(** * Facts about the analytics handlers                                  *)
(* ===================================================================== *)

Module AnalyticsFacts.
Import Analytics.

Lemma marked_counts_as type t : marked t → counts_as type t = false.
Proof.
  unfold counts_as. intros [H|H].
  - rewrite (bool_decide_eq_true_2 _ H). simpl. by rewrite andb_false_r.
  - rewrite H. simpl. by rewrite andb_false_r.
Qed.






Lemma accumulated_marked d t : marked t → accumulated d t = d.
Proof.
  intros Hm. unfold accumulated. by rewrite !marked_counts_as.
Qed.

(** [accumulate] creates the bucket of the month of the transaction, and
    adds to it what the transaction counts for. *)
Lemma accumulate_lookup md t k :
  accumulate md t !! k =
  if decide (k = monthKey (Transaction.transactionDate t))
  then Some (accumulated (entry md k) t)
  else md !! k.
Proof.
  unfold accumulate, accumulated, entry.
  set (key := monthKey (Transaction.transactionDate t)).
  case_decide as Hk.
  - subst k. destruct (md !! key) as [d|] eqn:E; simpl.
    + destruct (counts_as income t); [|destruct (counts_as expense t)];
        rewrite ?lookup_alter_eq, ?E; simpl; try done.
    + destruct (counts_as income t); [|destruct (counts_as expense t)];
        rewrite ?lookup_alter_eq, ?lookup_insert_eq; simpl; try done.
  - assert (Hne : key ≠ k) by done.
    destruct (md !! key) as [d|] eqn:E; simpl;
      destruct (counts_as income t); [|destruct (counts_as expense t)| |destruct (counts_as expense t)];
      rewrite ?lookup_alter_ne, ?lookup_insert_ne by done; done.
Qed.

Lemma accumulate_entry md t k :
  entry (accumulate md t) k =
  if decide (k = monthKey (Transaction.transactionDate t))
  then accumulated (entry md k) t
  else entry md k.
Proof.
  unfold entry at 1. rewrite accumulate_lookup. by case_decide.
Qed.




(** The months of [monthlyData] are the months of the transactions. *)
Lemma fold_accumulate_is_Some l md k :
  is_Some (fold_left accumulate l md !! k) ↔
  is_Some (md !! k) ∨ ∃ t, t ∈ l ∧ monthKey (Transaction.transactionDate t) = k.
Proof.
  revert md. induction l as [|t l IH]; intros md; simpl.
  - split; [by left|]. intros [H|(t & Ht & _)]; [done|]. by apply elem_of_nil in Ht.
  - rewrite IH, accumulate_lookup. split.
    + intros [H|(t' & Ht' & Hk)].
      * case_decide as Hd; [|by left]. right. exists t. split; [apply list_elem_of_here|done].
      * right. exists t'. split; [by apply list_elem_of_further|done].
    + intros [H|(t' & Ht' & Hk)].
      * left. case_decide; [done|done].
      * apply elem_of_cons in Ht' as [->|Ht'].
        -- left. rewrite decide_True by done. done.
        -- right. by exists t'.
Qed.

Lemma monthlyData_is_Some l k :
  is_Some (monthlyData l !! k) ↔
  ∃ t, t ∈ l ∧ monthKey (Transaction.transactionDate t) = k.
Proof.
  unfold monthlyData. rewrite fold_accumulate_is_Some, lookup_empty.
  split; [intros [[? [=]]|H]; done | by right].
Qed.

(** The order of the keys. *)
Global Instance string_le_total : Total string_le.
Proof. intros s1 s2. apply String.leb_total. Qed.




Lemma sortedMonths_perm md : sortedMonths md ≡ₚ (map_to_list md).*1.
Proof. apply merge_sort_Permutation. Qed.

Lemma sortedMonths_elem_of md k : k ∈ sortedMonths md ↔ is_Some (md !! k).
Proof.
  rewrite sortedMonths_perm, list_elem_of_fmap. split.
  - intros ([k' d] & -> & H). apply elem_of_map_to_list in H. by exists d.
  - intros [d H]. exists (k, d). split; [done|]. by apply elem_of_map_to_list.
Qed.



Lemma slice_last_length {A} (n : nat) (l : list A) :
  length (slice_last n l) = n `min` length l.
Proof. unfold slice_last. rewrite length_drop. lia. Qed.

Lemma monthlyTrends_months l :
  Trend.month <$> monthlyTrends l = slice_last 6 (sortedMonths (monthlyData l)).
Proof.
  unfold monthlyTrends. rewrite <- list_fmap_compose.
  rewrite <- (list_fmap_id (slice_last _ _)) at 2. by apply list_fmap_ext.
Qed.

(** ** The order of the month keys

    A key is the year, a dash and the month on two digits, so on years of
    four digits the order of the keys as strings is the order of the
    months in time. *)






Lemma compare_cons (a b : ascii) (s t : string) :
  String.compare (String a s) (String b t) = lex (Ascii.compare a b) (String.compare s t).
Proof. simpl. by destruct (Ascii.compare a b). Qed.









(** The order of the keys is transitive, so in the sorted keys every key is
    below all the keys after it. *)
Lemma ascii_compare_Lt_trans (a b c : ascii) :
  Ascii.compare a b = Lt → Ascii.compare b c = Lt → Ascii.compare a c = Lt.
Proof.
  unfold Ascii.compare. rewrite !N.compare_lt_iff. lia.
Qed.

Lemma string_compare_Lt_trans (s1 s2 s3 : string) :
  String.compare s1 s2 = Lt → String.compare s2 s3 = Lt → String.compare s1 s3 = Lt.
Proof.
  revert s2 s3. induction s1 as [|a s1 IH]; intros [|b s2] [|c s3]; try done.
  rewrite !compare_cons. unfold lex.
  destruct (Ascii.compare a b) eqn:Eab; [|clear IH|done];
    (destruct (Ascii.compare b c) eqn:Ebc; [| |done]).
  - apply Ascii.compare_eq_iff in Eab as ->. rewrite Ebc. apply IH.
  - apply Ascii.compare_eq_iff in Eab as ->. by rewrite Ebc.
  - apply Ascii.compare_eq_iff in Ebc as <-. by rewrite Eab.
  - by rewrite (ascii_compare_Lt_trans a b c).
Qed.

Global Instance string_lt_trans : Transitive string_lt.
Proof.
  intros s1 s2 s3. unfold string_lt, String.ltb. intros H1 H2.
  destruct (String.compare s1 s2) eqn:E1; [done| |done].
  destruct (String.compare s2 s3) eqn:E2; [done| |done].
  by rewrite (string_compare_Lt_trans s1 s2 s3).
Qed.




Lemma fold_accumulate_entry_marked l md k :
  (∀ t, t ∈ l → monthKey (Transaction.transactionDate t) = k → marked t) →
  entry (fold_left accumulate l md) k = entry md k.
Proof.
  revert md. induction l as [|t l IH]; intros md Hm; simpl; [done|].
  rewrite IH by (intros t' Ht'; apply Hm; by apply list_elem_of_further).
  rewrite accumulate_entry. case_decide as Hk; [|done].
  apply accumulated_marked, Hm; [apply list_elem_of_here|done].
Qed.

(** C10.  A month all of whose transactions are marked as transfers or
    loan payments has a bucket all the same, with income 0 and expenses 0:
    it is one of the sorted months, so it takes one of the six places, and
    when it is among the last six it is listed with income 0, expenses 0
    and net 0. *)
Theorem marked_month_is_listed_with_zeros
    (transactions : list Transaction.t) (k : string) :
  (∃ t, t ∈ transactions ∧ monthKey (Transaction.transactionDate t) = k) →
  (∀ t, t ∈ transactions → monthKey (Transaction.transactionDate t) = k → marked t) →
  monthlyData transactions !! k = Some (MonthData.mk 0 0)
  ∧ k ∈ sortedMonths (monthlyData transactions)
  ∧ length (monthlyTrends transactions)
    = 6 `min` length (sortedMonths (monthlyData transactions))
  ∧ (k ∈ slice_last 6 (sortedMonths (monthlyData transactions)) →
     Trend.mk k 0 0 0 ∈ monthlyTrends transactions).
Proof.
  intros Hex Hall.
  apply monthlyData_is_Some in Hex as Hsome.
  pose proof (fold_accumulate_entry_marked transactions ∅ k Hall) as He.
  fold (monthlyData transactions) in He.
  assert (Hk : monthlyData transactions !! k = Some (MonthData.mk 0 0)).
  { destruct Hsome as [d Hd]. unfold entry in He.
    rewrite Hd, lookup_empty in He. simpl in He. by rewrite Hd, He. }
  split_and!.
  - done.
  - by apply sortedMonths_elem_of.
  - by rewrite <- (length_fmap Trend.month), monthlyTrends_months, slice_last_length.
  - intros Hin. unfold monthlyTrends. apply list_elem_of_fmap.
    exists k. split; [|done]. unfold entry. by rewrite Hk.
Qed.








(** The categories that [categoriesMap] knows are those of the list. *)
Lemma fold_insert_category_None (categories : list Category.t) (m : gmap Z Category.t) cid :
  fold_left (λ m c, <[Category.id c := c]> m) categories m !! cid = None ↔
  m !! cid = None ∧ ∀ c, c ∈ categories → Category.id c ≠ cid.
Proof.
  revert m. induction categories as [|c l IH]; intros m; simpl.
  - split; [intros H; split; [done|] | by intros [H _]].
    intros c Hc. by apply elem_of_nil in Hc.
  - rewrite IH. split.
    + intros [Hm Hl]. apply lookup_insert_None in Hm as [Hm Hc]. split; [done|].
      intros c' Hc'. apply elem_of_cons in Hc' as [->|Hc']; [done|by apply Hl].
    + intros [Hm Hl]. split.
      * apply lookup_insert_None. split; [done|]. apply Hl, list_elem_of_here.
      * intros c' Hc'. by apply Hl, list_elem_of_further.
Qed.

Lemma categoriesMap_None (categories : list Category.t) cid :
  categoriesMap categories !! cid = None ↔
  ∀ c, c ∈ categories → Category.id c ≠ cid.
Proof.
  unfold categoriesMap. rewrite fold_insert_category_None, lookup_empty. tauto.
Qed.

Lemma categoryName_uncategorized (categories : list Category.t) (t : Transaction.t) :
  Transaction.categoryId t = None
  ∨ (∃ cid, Transaction.categoryId t = Some cid
            ∧ ∀ c, c ∈ categories → Category.id c ≠ cid) →
  categoryName (categoriesMap categories) t = Sin_categoria.
Proof.
  unfold categoryName. intros [->|(cid & -> & Hc)]; [done|].
  apply categoriesMap_None in Hc. simpl.
  destruct (cid =? 0)%Z; [done|]. by rewrite Hc.
Qed.

Lemma or_zero_add (x y : Q) :
  Number.or_zero (Some (Number.add x y)) = Number.add x y.
Proof. apply NumberFacts.or_zero_RN. Qed.

(** The categories that [categoriesMap] knows: of the categories with an
    id, the last of the list. *)
Lemma fold_insert_category_Some (categories : list Category.t) (m : gmap Z Category.t)
    (c : Category.t) :
  (∀ c', c' ∈ categories → Category.id c' = Category.id c → c' = c) →
  c ∈ categories ∨ m !! Category.id c = Some c →
  fold_left (λ m c, <[Category.id c := c]> m) categories m !! Category.id c = Some c.
Proof.
  revert m. induction categories as [|c0 l IH]; intros m Hu Hc; simpl.
  - destruct Hc as [Hc|Hc]; [by apply elem_of_nil in Hc|done].
  - apply IH.
    + intros c' Hc'. apply Hu. by apply list_elem_of_further.
    + destruct (decide (Category.id c0 = Category.id c)) as [E|E].
      * right. rewrite (Hu c0 (list_elem_of_here _ _) E). apply lookup_insert_eq.
      * destruct Hc as [Hc|Hc].
        -- apply elem_of_cons in Hc as [->|Hc]; [done|by left].
        -- right. by rewrite lookup_insert_ne.
Qed.

Lemma categoriesMap_Some (categories : list Category.t) (c : Category.t) :
  c ∈ categories →
  (∀ c', c' ∈ categories → Category.id c' = Category.id c → c' = c) →
  categoriesMap categories !! Category.id c = Some c.
Proof. intros Hc Hu. apply fold_insert_category_Some; [done|by left]. Qed.

Lemma categoryName_categorized (categories : list Category.t) (t : Transaction.t)
    (c : Category.t) :
  c ∈ categories →
  (∀ c', c' ∈ categories → Category.id c' = Category.id c → c' = c) →
  Transaction.categoryId t = Some (Category.id c) →
  Category.id c ≠ 0%Z →
  Category.name c ≠ "" →
  categoryName (categoriesMap categories) t = Category.name c.
Proof.
  intros Hc Hu Ht Hid Hn. unfold categoryName. rewrite Ht. simpl.
  destruct (Category.id c =? 0)%Z eqn:E; [by apply Z.eqb_eq in E|].
  rewrite (categoriesMap_Some _ _ Hc Hu). by destruct (Category.name c).
Qed.

Lemma set_lookup_ne (acc : gmap string Obj.value) (key name : string) (v : Obj.value) :
  key ≠ name → Obj.set acc key v !! name = acc !! name.
Proof.
  intros Hne. unfold Obj.set. case_decide; [done|]. by rewrite lookup_insert_ne.
Qed.

Lemma proto_inherited : Obj.inherited "__proto__".
Proof. by apply (bool_decide_unpack _). Qed.

(** The entry of a name that [Object.prototype] does not have, after
    folding the expenses into the accumulator. *)
Lemma fold_expenses_number (m : gmap Z Category.t) (l : list Transaction.t)
    (acc : gmap string Obj.value) (name : string) (q0 : Q) :
  ¬ Obj.inherited name →
  (acc !! name = None ∧ q0 = 0%Q)
  ∨ (acc !! name = Some (Obj.Num q0) ∧ Number.or_zero (Some q0) = q0) →
  fold_left
    (λ acc transaction,
       Obj.set acc (categoryName m transaction)
         (Obj.or_zero_plus (Obj.get acc (categoryName m transaction))
            (Number.parseFloat (Transaction.amount transaction))))
    l acc !! name
  = match (λ t, Number.parseFloat (Transaction.amount t))
            <$> filter (λ t, categoryName m t = name) l with
    | [] => acc !! name
    | amounts => Some (Obj.Num (fold_left Number.add amounts q0))
    end.
Proof.
  intros Hname. revert acc q0. induction l as [|t l IH]; intros acc q0 Hacc; [done|].
  cbn [fold_left]. rewrite filter_cons. case_decide as Hn.
  - subst name. set (x := Number.parseFloat (Transaction.amount t)).
    assert (Hset : Obj.set acc (categoryName m t)
                     (Obj.or_zero_plus (Obj.get acc (categoryName m t)) x)
                   !! categoryName m t
                   = Some (Obj.Num (Number.add q0 x))).
    { unfold Obj.set. case_decide as Hp.
      - exfalso. apply Hname. rewrite Hp. apply proto_inherited.
      - rewrite lookup_insert_eq. f_equal. unfold Obj.get.
        destruct Hacc as [[-> ->]|[-> Hq]].
        + by rewrite decide_False.
        + unfold Obj.or_zero_plus. by rewrite Hq. }
    rewrite (IH _ (Number.add q0 x)).
    + rewrite Hset, fmap_cons. cbn [fold_left]. by destruct (_ <$> filter _ l).
    + right. split; [done|apply or_zero_add].
  - rewrite (IH _ q0); rewrite set_lookup_ne by done; done.
Qed.

(** The entry of a property of [Object.prototype]: the text of the
    inherited value and of the amounts, never their sum. *)
Lemma fold_expenses_text (m : gmap Z Category.t) (l : list Transaction.t)
    (acc : gmap string Obj.value) (name : string) (l0 : list Q) :
  Obj.inherited name → name ≠ "__proto__" →
  (acc !! name = None ∧ l0 = []) ∨ acc !! name = Some (Obj.Text name l0) →
  fold_left
    (λ acc transaction,
       Obj.set acc (categoryName m transaction)
         (Obj.or_zero_plus (Obj.get acc (categoryName m transaction))
            (Number.parseFloat (Transaction.amount transaction))))
    l acc !! name
  = match (λ t, Number.parseFloat (Transaction.amount t))
            <$> filter (λ t, categoryName m t = name) l with
    | [] => acc !! name
    | amounts => Some (Obj.Text name (l0 ++ amounts))
    end.
Proof.
  intros Hname Hp. revert acc l0. induction l as [|t l IH]; intros acc l0 Hacc; [done|].
  cbn [fold_left]. rewrite filter_cons. case_decide as Hn.
  - subst name. set (x := Number.parseFloat (Transaction.amount t)).
    assert (Hset : Obj.set acc (categoryName m t)
                     (Obj.or_zero_plus (Obj.get acc (categoryName m t)) x)
                   !! categoryName m t
                   = Some (Obj.Text (categoryName m t) (l0 ++ [x]))).
    { unfold Obj.set. rewrite decide_False by done.
      rewrite lookup_insert_eq. f_equal. unfold Obj.get.
      destruct Hacc as [[-> ->] | ->]; [|done].
      by rewrite decide_True. }
    rewrite (IH _ (l0 ++ [x])) by (by right).
    rewrite Hset, fmap_cons.
    destruct (_ <$> filter _ l) as [|y l']; [done|]. by rewrite <- app_assoc.
  - rewrite (IH _ l0); rewrite set_lookup_ne by done; done.
Qed.

Lemma fold_expenses_proto (m : gmap Z Category.t) (l : list Transaction.t) (acc : gmap string Obj.value) :
  fold_left
    (λ acc transaction,
       Obj.set acc (categoryName m transaction)
         (Obj.or_zero_plus (Obj.get acc (categoryName m transaction))
            (Number.parseFloat (Transaction.amount transaction))))
    l acc !! "__proto__"
  = acc !! "__proto__".
Proof.
  revert acc. induction l as [|t l IH]; intros acc; [done|].
  cbn [fold_left]. rewrite IH. unfold Obj.set. case_decide as Hp; [done|].
  by rewrite lookup_insert_ne.
Qed.

Lemma amounts_under_filter (m : gmap Z Category.t) (name : string)
    (transactions : list Transaction.t) :
  amounts_under m name transactions
  = (λ t, Number.parseFloat (Transaction.amount t))
    <$> filter (λ t, categoryName m t = name)
          (filter (λ t, counts_as expense t = true) transactions).
Proof. unfold amounts_under. by rewrite list_filter_filter. Qed.

(** X29.  The expenses by category resolve an expense to the name of the
    category of its id, and to the one label of the uncategorized when it
    has no category or its category does not exist.  For a name that
    [Object.prototype] does not have, the entry is the sum, in the order of
    the list, of the amounts of the expenses that count and resolve to the
    name, one entry however many they are, and a name with no such expense
    has no entry.  For a name that [Object.prototype] has, the entry is a
    text and not the sum, and [__proto__] has no entry. *)
Theorem expensesByCategory_sums_by_name
    (transactions : list Transaction.t) (categories : list Category.t) :
  let m := categoriesMap categories in
  let result := expensesByCategory transactions categories in
  (∀ t c,
     c ∈ categories →
     (∀ c', c' ∈ categories → Category.id c' = Category.id c → c' = c) →
     Transaction.categoryId t = Some (Category.id c) →
     Category.id c ≠ 0%Z → Category.name c ≠ "" →
     categoryName m t = Category.name c)
  ∧ (∀ t, Transaction.categoryId t = None
          ∨ (∃ cid, Transaction.categoryId t = Some cid
                    ∧ ∀ c, c ∈ categories → Category.id c ≠ cid) →
          categoryName m t = Sin_categoria)
  ∧ (∀ name, ¬ Obj.inherited name →
       result !! name
       = match amounts_under m name transactions with
         | [] => None
         | amounts => Some (Obj.Num (fold_left Number.add amounts 0%Q))
         end)
  ∧ (∀ name, Obj.inherited name →
       result !! name
       = match amounts_under m name transactions with
         | [] => None
         | amounts =>
             if decide (name = "__proto__") then None
             else Some (Obj.Text name amounts)
         end).
Proof.
  intros m result. subst m result. split_and!.
  - intros t c. apply categoryName_categorized.
  - apply categoryName_uncategorized.
  - intros name Hname. unfold expensesByCategory.
    rewrite (fold_expenses_number _ _ _ _ 0%Q Hname) by (left; by rewrite lookup_empty).
    rewrite amounts_under_filter, lookup_empty.
    by destruct (_ <$> filter _ _).
  - intros name Hname. unfold expensesByCategory. rewrite amounts_under_filter.
    destruct (decide (name = "__proto__")) as [->|Hp].
    + rewrite fold_expenses_proto, lookup_empty. by destruct (_ <$> filter _ _).
    + rewrite (fold_expenses_text _ _ _ _ [] Hname Hp) by (left; by rewrite lookup_empty).
      rewrite lookup_empty. by destruct (_ <$> filter _ _).
Qed.

(* ===================================================================== *)
(** * The analytics on concrete transactions                              *)
(* ===================================================================== *)

(** The markers on the samples. *)
Example transfer_is_marked : marked transfer ∧ marked loan ∧ ¬ marked rent.
Proof. split_and!; [by left | by right | by intros [?|?]]. Qed.


(** The scenario of the specification: 40.00 under Food, 25.00 under
    Transport, and 10.00 without category under the label. *)
Example expensesByCategory_scenario :
  reduced <$> expensesByCategory lunchBusTip food
  = {[ "Food" := Obj.Num 40; "Transport" := Obj.Num 25;
       "Sin categoría" := Obj.Num 10 ]}.
Proof. vm_compute. reflexivity. Qed.

(** Two expenses of one category and one of a deleted category: one entry
    with the sum, and the label of the uncategorized. *)
Example expensesByCategory_sums :
  reduced <$> expensesByCategory lunchDinnerFee food
  = {[ "Food" := Obj.Num (111 # 2); "Sin categoría" := Obj.Num 10 ]}.
Proof. vm_compute. reflexivity. Qed.

(** X29 on those expenses: the names that the categories resolve to, the
    entry of Food with the sum 55.50 of its two expenses, the entry of the
    uncategorized, and no entry for Transport, which has an income only. *)
Lemma expensesByCategory_sums_by_name_witness :
  categoryName (categoriesMap food)
    (row 2 expense 1550 "Dinner" None (Some 1%Z) (civil 2024 5 4)) = "Food"
  ∧ categoryName (categoriesMap food)
      (row 3 expense 1000 "Fee" None (Some 9%Z) (civil 2024 5 5)) = "Sin categoría"
  ∧ reduced <$> expensesByCategory lunchDinnerFee food !! "Food"
    = Some (Obj.Num (111 # 2))
  ∧ reduced <$> expensesByCategory lunchDinnerFee food !! "Sin categoría"
    = Some (Obj.Num 10)
  ∧ expensesByCategory lunchDinnerFee food !! "Transport" = None.
Proof.
  destruct (expensesByCategory_sums_by_name lunchDinnerFee food)
    as (Hc & Hu & Hn & _).
  split_and!.
  - apply (Hc _ (Category.mk 1 "Food" "#7B1FA2" expense)).
    + apply list_elem_of_here.
    + apply (proj1 (Forall_forall
        (λ c', Category.id c' = 1%Z → c' = Category.mk 1 "Food" "#7B1FA2" expense) food)).
      apply Forall_cons; split; [done|].
      apply Forall_cons; split; [simpl; intros H; discriminate H|constructor].
    + reflexivity.
    + discriminate.
    + discriminate.
  - apply Hu. right. exists 9%Z. split; [reflexivity|].
    apply (proj1 (Forall_forall (λ c, Category.id c ≠ 9%Z) food)).
    apply Forall_cons; split; [simpl; intros H; discriminate H|].
    apply Forall_cons; split; [simpl; intros H; discriminate H|constructor].
  - rewrite Hn by (apply (bool_decide_unpack _); vm_compute; exact I).
    vm_compute. reflexivity.
  - rewrite Hn by (apply (bool_decide_unpack _); vm_compute; exact I).
    vm_compute. reflexivity.
  - rewrite Hn by (apply (bool_decide_unpack _); vm_compute; exact I).
    vm_compute. reflexivity.
Defined.

(** C9 fails on a category named like a property of [Object.prototype].
    Two expenses, of 40.00 and of 15.50, under a category named
    [constructor], and one of 10.00 under a category named [__proto__]:
    the entry of [constructor] is the text of the inherited function
    followed by the two amounts, not their sum 55.50, and [__proto__] has
    no entry. *)
Lemma expensesByCategory_reads_inherited_properties :
  reduced <$> expensesByCategory
                [ row 1 expense 4000 "Lunch" None (Some 1%Z) (civil 2024 5 3);
                  row 2 expense 1550 "Dinner" None (Some 1%Z) (civil 2024 5 4);
                  row 3 expense 1000 "Fee" None (Some 2%Z) (civil 2024 5 5) ]
                builtins
  = {[ "constructor" := Obj.Text "constructor" [40; 31 # 2] ]}%Q.
Proof. vm_compute. reflexivity. Qed.



(** The trends of the seven months: six entries, December 2023 left out. *)
Example sevenMonths_trends :
  (λ e, (Trend.month e, Qred (Trend.income e), Qred (Trend.expenses e), Qred (Trend.net e)))
  <$> monthlyTrends sevenMonths
  = [ ("2024-01", 100, 0, 100); ("2024-02", 0, 0, 0); ("2024-03", 100, 0, 100);
      ("2024-04", 0, 25, -25); ("2024-05", 100, 0, 100); ("2024-06", 100, 0, 100) ]%Q.
Proof. vm_compute. reflexivity. Qed.


(** C10 on the seven months: February 2024 has a transfer only and is
    listed with zeros. *)
Lemma marked_month_is_listed_with_zeros_witness :
  Trend.mk "2024-02" 0 0 0 ∈ monthlyTrends sevenMonths.
Proof.
  destruct (marked_month_is_listed_with_zeros sevenMonths "2024-02")
    as (_ & _ & _ & H).
  - exists (row 3 expense 50000 "A la cuenta de ahorros" (Some "Transferencia") None
              (civil 2024 1 5)).
    split; [|reflexivity]. do 2 apply list_elem_of_further. apply list_elem_of_here.
  - apply (proj1 (Forall_forall
      (λ t, monthKey (Transaction.transactionDate t) = "2024-02" → marked t)
      sevenMonths)).
    apply (bool_decide_unpack _). vm_compute. exact I.
  - apply H. apply (bool_decide_unpack _). vm_compute. exact I.
Defined.

End AnalyticsFacts.

(* ===================================================================== *)
(** * Further facts about the transactions of the store                   *)
(* ===================================================================== *)

(** X1.  [deleteTransaction] answers [false] exactly when no transaction is
    stored under the id, and then it changes nothing; after a deletion a
    second deletion of the same id answers [false] and changes nothing:
    no balance is reversed twice. *)
Theorem deleteTransaction_twice (this : MemStorage) (id : Z) :
  ((deleteTransaction this id).2 = false ↔ transactions this !! id = None)
  ∧ ((deleteTransaction this id).2 = false → (deleteTransaction this id).1 = this)
  ∧ deleteTransaction (deleteTransaction this id).1 id
    = ((deleteTransaction this id).1, false).
Proof.
  split_and!.
  - unfold deleteTransaction. destruct (transactions this !! id); simpl; split; done.
  - unfold deleteTransaction. destruct (transactions this !! id); simpl; done.
  - pose proof (deleteTransaction_transactions this id) as Ht.
    set (this1 := (deleteTransaction this id).1) in *.
    unfold deleteTransaction at 1. rewrite Ht, lookup_delete_eq. done.
Qed.

(** X2.  A transaction is created against an account, updated without a
    change of its account, and deleted.  The row is gone, and the balance
    of the account is the balance of the start with the amount and type of
    the creation posted and the amount and type of the updated row
    reversed: the update moves no balance, and the deletion reverses what
    the row says at that time.  The balance and the two amounts carry two
    decimals and fit 15 digits. *)
Theorem create_update_delete_leaves_the_difference
    (this : MemStorage) (now : Date) (ins : InsertTransaction.t)
    (updates : PartialTransaction.t) (accountId : Z) (account : Account.t) :
  InsertTransaction.accountId ins = Some accountId →
  accountId ≠ 0%Z →
  accounts this !! accountId = Some account →
  PartialTransaction.accountId updates = None →
  let created := createTransaction this now ins in
  let id := Transaction.id created.2 in
  let row' := patch created.2 updates in
  let b := Number.unscaled (Account.balance account) in
  let x := Number.unscaled (InsertTransaction.amount ins) in
  let y := Number.unscaled (Transaction.amount row') in
  decimal_15_2 (Account.balance account) →
  decimal_15_2 (InsertTransaction.amount ins) →
  decimal_15_2 (Transaction.amount row') →
  (Z.abs (post (InsertTransaction.type ins) b x) ≤ 999999999999999)%Z →
  let final := (deleteTransaction (updateTransaction created.1 id updates).1 id).1 in
  transactions final !! id = None
  ∧ balanceOf accountId final
    = Some (Number.Decimal
              (unpost (Transaction.type row') (post (InsertTransaction.type ins) b x) y) 2).
Proof.
  intros Hid Hnz Hacc Hu created id row' b x y [Hsb Hb] [Hsx Hx] [Hsy Hy] Hmid final.
  assert (Ht : truthy_id (InsertTransaction.accountId ins) = Some accountId)
    by (by apply truthy_id_Some).
  assert (Hrow : transactions created.1 !! id = Some created.2).
  { subst created id. rewrite createTransaction_transactions.
    unfold createTransaction at 2. simpl. by rewrite lookup_insert_eq. }
  assert (Hacc1 : accounts created.1 !! accountId
                  = Some (Account.with_balance account
                            (Number.Decimal (post (InsertTransaction.type ins) b x) 2))).
  { subst created. rewrite createTransaction_accounts, Ht, Hacc, lookup_insert_eq.
    do 2 f_equal. rewrite (decimal_scale2 _ Hsb), (decimal_scale2 _ Hsx).
    apply create_balance_exact. subst b x.
    destruct (InsertTransaction.type ins); simpl in *; lia. }
  assert (Hupd : (updateTransaction created.1 id updates).1
                 = mkMemStorage (categories created.1) (accounts created.1)
                     (<[id := row']> (transactions created.1))
                     (currentTransactionId created.1)).
  { unfold updateTransaction. by rewrite Hrow. }
  assert (Href : truthy_id (Transaction.accountId row') = Some accountId).
  { subst row'. unfold patch. simpl. rewrite Hu. simpl. by rewrite truthy_id_idemp. }
  subst final. split.
  - by rewrite deleteTransaction_transactions, lookup_delete_eq.
  - unfold balanceOf. rewrite deleteTransaction_accounts, Hupd.
    cbn [accounts transactions].
    rewrite lookup_insert_eq, Href, Hacc1, lookup_insert_eq.
    cbn [fmap option_fmap option_map]. f_equal.
    rewrite !balance_with_balance, (decimal_scale2 _ Hsy).
    apply delete_balance_exact.
    fold y. destruct (Transaction.type row'); simpl; lia.
Qed.

Lemma patch_noUpdates (t : Transaction.t) : patch t noUpdates = t.
Proof. by destruct t. Qed.

Lemma patch_patch (t : Transaction.t) (updates1 updates2 : PartialTransaction.t) :
  patch (patch t updates1) updates2 = patch t (spread updates1 updates2).
Proof.
  destruct updates1 as [a1 b1 c1 d1 e1 f1 g1 h1 i1 j1 k1],
           updates2 as [a2 b2 c2 d2 e2 f2 g2 h2 i2 j2 k2].
  unfold patch, spread; cbn.
  by destruct a2, b2, c2, d2, e2, f2, g2, h2, i2, j2, k2.
Qed.

(** X3.  An update that names no field changes nothing and returns the row
    that is stored, if there is one; two updates of a transaction in a row
    leave the store that the single update with [{ ...updates1, ...updates2 }]
    leaves, and return the same row. *)
Theorem updates_of_a_transaction_compose
    (this : MemStorage) (id : Z) (updates1 updates2 : PartialTransaction.t) :
  updateTransaction this id noUpdates = (this, transactions this !! id)
  ∧ updateTransaction (updateTransaction this id updates1).1 id updates2
    = updateTransaction this id (spread updates1 updates2).
Proof.
  split.
  - unfold updateTransaction.
    destruct (transactions this !! id) as [t|] eqn:E; [|done].
    rewrite patch_noUpdates, insert_id by done. by destruct this.
  - unfold updateTransaction.
    destruct (transactions this !! id) as [t|] eqn:E; cbn [fst transactions];
      [|by rewrite E].
    rewrite lookup_insert_eq. cbn [categories accounts currentTransactionId].
    by rewrite insert_insert_eq, patch_patch.
Qed.

(* ===================================================================== *)
(** * Further facts about the analytics                                   *)
(* ===================================================================== *)

Module TrendFacts.
Import Analytics.

Lemma counts_as_exclusive t :
  counts_as income t = true → counts_as expense t = false.
Proof.
  unfold counts_as. intros H.
  apply andb_true_iff in H as [H _]. apply andb_true_iff in H as [H _].
  apply bool_decide_eq_true in H. rewrite H. done.
Qed.

(** The entry of a month after the loop: the transactions of the month,
    accumulated in the order of the list. *)
Lemma fold_accumulate_month l md k :
  entry (fold_left accumulate l md) k
  = fold_left accumulated
      (filter (λ t, monthKey (Transaction.transactionDate t) = k) l) (entry md k).
Proof.
  revert md. induction l as [|t l IH]; intros md; simpl; [done|].
  rewrite IH, AnalyticsFacts.accumulate_entry, filter_cons.
  case_decide as Hk; case_decide as Hk'; try congruence; done.
Qed.

Lemma fold_accumulated_income l d :
  MonthData.income (fold_left accumulated l d)
  = fold_left (λ sum t, Number.add sum (Number.parseFloat (Transaction.amount t)))
      (filter (λ t, counts_as income t = true) l) (MonthData.income d).
Proof.
  revert d. induction l as [|t l IH]; intros d; simpl; [done|].
  rewrite IH, filter_cons. unfold accumulated.
  destruct (counts_as income t) eqn:Ei.
  - rewrite decide_True by done. done.
  - rewrite decide_False by done. by destruct (counts_as expense t).
Qed.

Lemma fold_accumulated_expenses l d :
  MonthData.expenses (fold_left accumulated l d)
  = fold_left (λ sum t, Number.add sum (Number.parseFloat (Transaction.amount t)))
      (filter (λ t, counts_as expense t = true) l) (MonthData.expenses d).
Proof.
  revert d. induction l as [|t l IH]; intros d; simpl; [done|].
  rewrite IH, filter_cons. unfold accumulated.
  destruct (counts_as income t) eqn:Ei.
  - rewrite (counts_as_exclusive t Ei). rewrite decide_False by done. done.
  - destruct (counts_as expense t) eqn:Ee.
    + rewrite decide_True by done. done.
    + rewrite decide_False by done. done.
Qed.

(** X4.  Every entry of the monthly trends is of a month that has a
    transaction, and its income and expenses are the totals of the
    transactions of that month that count (transfers and payments of loans
    left out), added in the order of the list; its net is their
    difference. *)
Theorem monthlyTrends_entries_are_month_totals
    (transactions : list Transaction.t) (e : Trend.t) :
  e ∈ monthlyTrends transactions →
  let month :=
    filter (λ t, monthKey (Transaction.transactionDate t) = Trend.month e) transactions in
  month ≠ []
  ∧ Trend.income e = total income month
  ∧ Trend.expenses e = total expense month
  ∧ Trend.net e = Number.sub (total income month) (total expense month).
Proof.
  intros He month. unfold monthlyTrends in He.
  apply list_elem_of_fmap in He as (k & -> & Hk). cbn [Trend.month Trend.income Trend.expenses Trend.net] in *.
  assert (Hin : k ∈ sortedMonths (monthlyData transactions)).
  { eapply elem_of_submseteq; [exact Hk|apply submseteq_drop]. }
  apply AnalyticsFacts.sortedMonths_elem_of, AnalyticsFacts.monthlyData_is_Some in Hin
    as (t & Ht & Htk).
  assert (Hentry : entry (monthlyData transactions) k
                   = fold_left accumulated month (MonthData.mk 0 0)).
  { unfold monthlyData. by rewrite fold_accumulate_month. }
  rewrite Hentry, fold_accumulated_income, fold_accumulated_expenses.
  split_and!; try done.
  intros Hnil. assert (t ∈ month) as Hm by (apply list_elem_of_filter; done).
  rewrite Hnil in Hm. by apply elem_of_nil in Hm.
Qed.

End TrendFacts.

Module SummaryFacts.
Import Analytics.

Lemma between_outside lo hi l1 t l2 :
  (getTime (Transaction.transactionDate t) < getTime lo
   ∨ getTime hi < getTime (Transaction.transactionDate t))%Z →
  between lo hi (l1 ++ t :: l2) = between lo hi (l1 ++ l2).
Proof.
  intros H. unfold between. rewrite !filter_app, filter_cons_False; [done|].
  intros Hin. apply andb_true_iff in Hin as [H1 H2].
  apply Z.leb_le in H1, H2. lia.
Qed.

(** X5.  On a clock of whole days, [monthEnd] and [prevMonthEnd] are the
    start of the last day of a month: a transaction dated after the start
    of the last day of a month and before the start of the next month is
    in the window of no month, and the summary of any month is the same
    with and without it. *)
Theorem summary_leaves_out_the_last_day_of_a_month
    (newDate : Z → Z → Z → Date) (t : Transaction.t) (currentMonth : Date) :
  whole_days newDate →
  in_last_day newDate (Transaction.transactionDate t) →
  calendar currentMonth →
  ∀ l1 l2 accounts,
    summary newDate currentMonth (l1 ++ t :: l2) accounts
    = summary newDate currentMonth (l1 ++ l2) accounts.
Proof.
  intros (first & Hmono & Htime) (year & monthIndex & Hy & Hm & Hlo & Hhi)
         [Hcy Hcm] l1 l2 accounts.
  rewrite !Htime in Hlo, Hhi by lia.
  set (k := (12 * year + monthIndex)%Z) in *.
  set (c := (12 * getFullYear currentMonth + getMonth currentMonth)%Z).
  unfold summary.
  rewrite !(between_outside _ _ l1 t l2); [done| |].
  - rewrite !Htime by lia.
    replace (12 * getFullYear currentMonth + (getMonth currentMonth - 1))%Z
      with (c - 1)%Z by (subst c; lia).
    fold c. destruct (decide (c ≤ k)%Z) as [Hc|Hc].
    + right. pose proof (Hmono c k Hc). lia.
    + left. pose proof (Hmono k (c - 1)%Z ltac:(lia)). lia.
  - rewrite !Htime by lia.
    replace (12 * getFullYear currentMonth + (getMonth currentMonth + 1))%Z
      with (c + 1)%Z by (subst c; lia).
    fold c. destruct (decide (c + 1 ≤ k)%Z) as [Hc|Hc].
    + right. pose proof (Hmono (c + 1)%Z k Hc). lia.
    + left. pose proof (Hmono k c ltac:(lia)). lia.
Qed.

Lemma summary_leaves_out_the_last_day_of_a_month_witness :
  summary civil (civil 2024 5 15) [rent; lastDaySale; sale] [checkingAccount]
  = summary civil (civil 2024 5 15) [rent; sale] [checkingAccount]
  ∧ summary civil (civil 2024 6 15) [rent; lastDaySale; sale] [checkingAccount]
    = summary civil (civil 2024 6 15) [rent; sale] [checkingAccount].
Proof.
  assert (W : whole_days civil).
  { exists (λ i, ((i * 31 + 1) * 86400000)%Z). split.
    - intros i j Hij. lia.
    - intros year monthIndex day _ _. unfold civil. cbn [getTime]. lia. }
  assert (H : in_last_day civil (Transaction.transactionDate lastDaySale)).
  { exists 2024%Z, 6%Z. vm_compute. repeat split; discriminate. }
  assert (C1 : calendar (civil 2024 5 15)) by (vm_compute; repeat split; discriminate).
  assert (C2 : calendar (civil 2024 6 15)) by (vm_compute; repeat split; discriminate).
  split.
  - apply (summary_leaves_out_the_last_day_of_a_month civil lastDaySale
             (civil 2024 5 15) W H C1 [rent] [sale] [checkingAccount]).
  - apply (summary_leaves_out_the_last_day_of_a_month civil lastDaySale
             (civil 2024 6 15) W H C2 [rent] [sale] [checkingAccount]).
Defined.


(** [parseFloat] keeps the sign of a numeral that is not positive. *)
Lemma RN_nonpos (q : Q) : (q <= 0)%Q → (Number.RN q <= 0)%Q.
Proof.
  intros Hq. pose proof (NumberFacts.RN_rel_error q) as He.
  apply Qabs_Qle_condition in He. unfold Number.u in He.
  revert He. rewrite (Qabs_neg q Hq). intros [_ He]. lra.
Qed.

Lemma gtb_nonpos (q : Q) : (q <= 0)%Q → Number.gtb q 0 = false.
Proof.
  intros Hq. unfold Number.gtb, Number.ltb.
  assert (H : Qle_bool q 0 = true) by (by apply Qle_bool_iff).
  by rewrite H.
Qed.

Lemma value_nonpos (d : Number.decimal) :
  (Number.unscaled d ≤ 0)%Z → (Number.value d <= 0)%Q.
Proof.
  intros Hd. unfold Number.value, Qdiv.
  assert (H1 : (inject_Z (Number.unscaled d) <= 0)%Q)
    by (change 0%Q with (inject_Z 0); by rewrite <- Zle_Qle).
  assert (H2 : (0 <= / inject_Z (10 ^ Z.of_nat (Number.scale d)))%Q).
  { apply Qinv_le_0_compat. change 0%Q with (inject_Z 0). rewrite <- Zle_Qle.
    apply Z.pow_nonneg. lia. }
  nra.
Qed.

Lemma fold_pending_nonneg (l : list Account.t) (acc : Q) :
  (0 <= acc)%Q →
  (0 <= fold_left
          (λ sum account,
             let b := Number.parseFloat (Account.balance account) in
             Number.add sum (if Number.gtb b 0 then b else 0%Q)) l acc)%Q.
Proof.
  revert acc. induction l as [|a l IH]; intros acc Hacc; simpl; [done|].
  apply IH, NumberFacts.add_nonneg; [done|].
  unfold Number.gtb, Number.ltb.
  destruct (Qle_bool _ 0) eqn:E; simpl; [apply Qle_refl|].
  apply Qlt_le_weak, Qnot_le_lt. intros H. apply Qle_bool_iff in H. congruence.
Qed.

Lemma fold_pending_zero (l : list Account.t) :
  Forall (λ a, (Number.unscaled (Account.balance a) ≤ 0)%Z) l →
  fold_left
    (λ sum account,
       let b := Number.parseFloat (Account.balance account) in
       Number.add sum (if Number.gtb b 0 then b else 0%Q)) l 0%Q = 0%Q.
Proof.
  induction 1 as [|a l Ha Hl IH]; simpl; [done|].
  rewrite gtb_nonpos by (by apply RN_nonpos, value_nonpos).
  unfold Number.add. rewrite NumberFacts.RN_zero by reflexivity. exact IH.
Qed.

(** X6.  [pendingLoans] is never negative, and it is 0 when no account of
    type loan or credit has a positive balance: a debt that is stored as
    a negative balance is not counted. *)
Theorem pendingLoans_counts_positive_balances_only
    (newDate : Z → Z → Z → Date) (currentMonth : Date)
    (transactions : list Transaction.t) (accounts : list Account.t) :
  let s := summary newDate currentMonth transactions accounts in
  (0 <= pendingLoans s)%Q
  ∧ (Forall (λ a, Account.type a = "loan" ∨ Account.type a = "credit" →
                  (Number.unscaled (Account.balance a) ≤ 0)%Z) accounts →
     pendingLoans s = 0%Q).
Proof.
  intros s. subst s. unfold summary. cbn [pendingLoans]. split.
  - apply fold_pending_nonneg, Qle_refl.
  - intros Hall. apply fold_pending_zero.
    apply Forall_forall. intros a Ha. apply list_elem_of_filter in Ha as [Hty Ha].
    eapply Forall_forall in Hall; [|exact Ha]. by apply Hall.
Qed.

(** ** The rounding of a total *)

Lemma value_nonneg (d : Number.decimal) :
  (0 ≤ Number.unscaled d)%Z → (0 <= Number.value d)%Q.
Proof.
  intros Hd. unfold Number.value, Qdiv.
  apply Qmult_le_0_compat.
  - change 0%Q with (inject_Z 0). by rewrite <- Zle_Qle.
  - apply Qinv_le_0_compat. change 0%Q with (inject_Z 0). rewrite <- Zle_Qle.
    apply Z.pow_nonneg. lia.
Qed.

Section SumError.
Local Open Scope Q_scope.

(** [S] bounds the exact sum; [c] bounds the error that one more amount
    brings: one rounding of the amount and one of the sum. *)
Variables (S c : Q).
Hypothesis HS : 0 <= S.
Hypothesis Hc : Number.u * S + Number.u * (S + (1#2) + Number.u * S) <= c.

Lemma sum_values_nonneg l :
  Forall (λ t, (0 ≤ Number.unscaled (Transaction.amount t))%Z) l → 0 <= sum_values l.
Proof.
  induction 1 as [|t l Ht Hl IH]; simpl; [apply Qle_refl|].
  pose proof (value_nonneg _ Ht). lra.
Qed.

Lemma fold_add_error (l : list Transaction.t) (acc e δ : Q) :
  0 <= e → 0 <= δ → Qabs (acc - e) <= δ →
  Forall (λ t, (0 ≤ Number.unscaled (Transaction.amount t))%Z) l →
  e + sum_values l <= S →
  δ + inject_Z (Z.of_nat (length l)) * c <= 1#2 →
  Qabs (fold_left (λ sum t, Number.add sum (Number.parseFloat (Transaction.amount t))) l acc
        - (e + sum_values l))
  <= δ + inject_Z (Z.of_nat (length l)) * c.
Proof.
  revert acc e δ. induction l as [|t l IH]; intros acc e δ He Hδ Hacc Hl Hsum Hbudget.
  - cbn [fold_left length foldr sum_values] in *.
    change (inject_Z (Z.of_nat 0)) with 0 in *.
    apply Qabs_Qle_condition in Hacc. apply Qabs_Qle_condition. split; lra.
  - apply Forall_cons in Hl as [Ht Hl].
    pose proof (value_nonneg _ Ht) as Hv.
    pose proof (sum_values_nonneg l Hl) as Hrest.
    cbn [fold_left length foldr sum_values] in *.
    fold (sum_values l) in *.
    set (v := Number.value (Transaction.amount t)) in *.
    rewrite Nat2Z.inj_succ, <- Z.add_1_r, inject_Z_plus in Hbudget |- *.
    change (inject_Z 1) with 1 in *.
    set (n := inject_Z (Z.of_nat (length l))) in *.
    assert (Hn : 0 <= n).
    { subst n. change 0 with (inject_Z 0). rewrite <- Zle_Qle. lia. }
    assert (Hnc : 0 <= n * c).
    { apply Qmult_le_0_compat; [done|]. unfold Number.u in Hc. lra. }
    apply Qabs_Qle_condition in Hacc.
    assert (Ev : - (Number.u * v) <= Number.RN v - v <= Number.u * v).
    { apply NumberFacts.RN_abs_error. rewrite Qabs_pos by done. apply Qle_refl. }
    unfold Number.parseFloat, Number.add. fold v.
    set (x := Number.RN v) in *.
    assert (Es : - (Number.u * (S + (1#2) + Number.u * S))
                 <= Number.RN (acc + x) - (acc + x)
                 <= Number.u * (S + (1#2) + Number.u * S)).
    { apply NumberFacts.RN_abs_error, Qabs_Qle_condition.
      unfold Number.u in *. split; lra. }
    set (acc' := Number.RN (acc + x)) in *.
    assert (IH' := IH acc' (e + v) (δ + c)).
    assert (Hgoal : Qabs (fold_left
                (λ sum t0, Number.RN (sum + Number.RN (Number.value (Transaction.amount t0))))
                l acc' - (e + v + sum_values l)) <= δ + c + n * c).
    { apply IH'; try done.
      - lra.
      - unfold Number.u in *. lra.
      - apply Qabs_Qle_condition. unfold Number.u in *. split; lra.
      - lra.
      - lra. }
    apply Qabs_Qle_condition in Hgoal. apply Qabs_Qle_condition.
    split; lra.
Qed.

End SumError.


Lemma sum_values_cents (l : list Transaction.t) :
  Forall (λ t, Number.scale (Transaction.amount t) = 2%nat) l →
  (sum_values l
   == inject_Z (foldr (λ t acc, (Number.unscaled (Transaction.amount t) + acc)%Z) 0%Z l)
      * (1 # 100))%Q.
Proof.
  induction 1 as [|t l Ht Hl IH]; cbn [foldr sum_values]; [reflexivity|].
  fold (sum_values l). rewrite IH, inject_Z_plus.
  pose proof (NumberFacts.value_scale2 (Number.unscaled (Transaction.amount t))) as Hv.
  rewrite <- (decimal_scale2 _ Ht) in Hv. lra.
Qed.

(** X7.  The total of a type is computed in binary64.  For at most 10 000
    counted transactions with amounts of two decimals that are not
    negative and sum to at most 1 000 000 000.00, the total is within a
    quarter of a cent of the exact sum of the amounts. *)
Theorem total_is_exact_to_the_cent (type : TransactionType) (l : list Transaction.t) :
  let counted := filter (λ t, counts_as type t = true) l in
  Forall (λ t, Number.scale (Transaction.amount t) = 2%nat
               ∧ (0 ≤ Number.unscaled (Transaction.amount t))%Z) counted →
  (Z.of_nat (length counted) ≤ 10000)%Z →
  (cents type l ≤ 100000000000)%Z →
  (Qabs (total type l - inject_Z (cents type l) * (1 # 100)) <= 1 # 400)%Q.
Proof.
  intros counted Hall Hlen Hsum.
  assert (Hscale : Forall (λ t, Number.scale (Transaction.amount t) = 2%nat) counted)
    by (eapply Forall_impl; [exact Hall|]; by intros t [? ?]).
  assert (Hpos : Forall (λ t, (0 ≤ Number.unscaled (Transaction.amount t))%Z) counted)
    by (eapply Forall_impl; [exact Hall|]; by intros t [? ?]).
  pose proof (sum_values_cents counted Hscale) as Hexact.
  change (foldr _ 0%Z counted) with (cents type l) in Hexact.
  assert (Hn : (inject_Z (Z.of_nat (length counted)) <= 10000)%Q).
  { change 10000%Q with (inject_Z 10000). by rewrite <- Zle_Qle. }
  assert (HS : (inject_Z (cents type l) <= 100000000000)%Q).
  { change 100000000000%Q with (inject_Z 100000000000). by rewrite <- Zle_Qle. }
  pose proof (fold_add_error 1000000000 (1 # 4000000)
                ltac:(discriminate) ltac:(vm_compute; discriminate)
                counted 0 0 0)%Q as H.
  cbv beta in H.
  unfold total. fold counted.
  set (r := fold_left _ counted 0%Q) in *.
  set (n := inject_Z (Z.of_nat (length counted))) in *.
  set (z := inject_Z (cents type l)) in *.
  set (s := sum_values counted) in *.
  assert (H' : (Qabs (r - (0 + s)) <= 0 + n * (1 # 4000000))%Q).
  { apply H.
    - apply Qle_refl.
    - apply Qle_refl.
    - vm_compute. discriminate.
    - exact Hpos.
    - lra.
    - lra. }
  apply Qabs_Qle_condition in H'. apply Qabs_Qle_condition. split; lra.
Qed.

End SummaryFacts.

(* ===================================================================== *)
(** * Facts about the listings of a table                                 *)
(* ===================================================================== *)

Section Values.
Context {A : Type}.
Implicit Types m : gmap Z A.

Global Instance key_le_total : Total (@key_le A).
Proof. intros x y. unfold key_le. lia. Qed.

Global Instance key_le_trans : Transitive (@key_le A).
Proof. intros x y z. unfold key_le. lia. Qed.

Lemma sorted_keys_perm m : merge_sort key_le (map_to_list m) ≡ₚ map_to_list m.
Proof. apply merge_sort_Permutation. Qed.

Lemma sorted_keys_Sorted m : Sorted key_le (merge_sort key_le (map_to_list m)).
Proof. apply (Sorted_merge_sort key_le). Qed.

Lemma values_perm m : values m ≡ₚ (map_to_list m).*2.
Proof. unfold values. by rewrite sorted_keys_perm. Qed.

Lemma elem_of_values m x : x ∈ values m ↔ ∃ k, m !! k = Some x.
Proof.
  rewrite values_perm, list_elem_of_fmap. split.
  - intros ([k y] & -> & H). exists k. by apply elem_of_map_to_list.
  - intros [k H]. exists (k, x). split; [done|]. by apply elem_of_map_to_list.
Qed.

Lemma values_empty : values (∅ : gmap Z A) = [].
Proof. unfold values. by rewrite map_to_list_empty. Qed.

(** A row inserted under a key above all the keys is listed last. *)
Lemma values_insert_last m n v :
  (∀ k, is_Some (m !! k) → (k < n)%Z) →
  values (<[n := v]> m) = values m ++ [v].
Proof.
  intros Hlt. unfold values. rewrite <- (fmap_app snd _ [(n, v)]). f_equal.
  assert (Hn : m !! n = None).
  { destruct (m !! n) eqn:E; [|done]. specialize (Hlt n ltac:(done)). lia. }
  apply (Sorted_unique_strong key_le).
  - intros [k1 x1] [k2 x2] H1 H2 Hle1 Hle2. unfold key_le in *. simpl in *.
    assert (k1 = k2) as -> by lia. f_equal.
    rewrite sorted_keys_perm in H1. apply elem_of_map_to_list in H1.
    rewrite elem_of_app, sorted_keys_perm, list_elem_of_singleton in H2.
    destruct H2 as [H2|[= -> ->]].
    + apply elem_of_map_to_list in H2. rewrite lookup_insert_ne in H1; [congruence|].
      intros ->. congruence.
    + rewrite lookup_insert_eq in H1. congruence.
  - apply sorted_keys_Sorted.
  - apply Sorted_snoc; [apply sorted_keys_Sorted|].
    destruct (merge_sort key_le (map_to_list m)) as [|y l] eqn:E using rev_ind;
      [constructor|]. clear IHl. constructor.
    assert (Hy : y ∈ map_to_list m).
    { rewrite <- sorted_keys_perm, E. apply elem_of_app. right. apply list_elem_of_here. }
    destruct y as [k x]. apply elem_of_map_to_list in Hy.
    unfold key_le. simpl. specialize (Hlt k ltac:(done)). lia.
  - rewrite !sorted_keys_perm, map_to_list_insert by done.
    rewrite (Permutation_app_comm _ [(n, v)]). done.
Qed.

(** The rows of a table that stores every row under its id are listed in
    the order of the ids. *)
Lemma values_by_id (id_of : A → Z) m next :
  issued id_of m next →
  StronglySorted (λ a b, (id_of a < id_of b)%Z) (values m).
Proof.
  intros [_ Hm]. unfold values.
  pose proof (sorted_keys_Sorted m) as Hs.
  apply Sorted_StronglySorted in Hs; [|apply _].
  assert (Hnd : NoDup (merge_sort key_le (map_to_list m)).*1).
  { rewrite sorted_keys_perm. apply NoDup_fst_map_to_list. }
  assert (Hin : ∀ p, p ∈ merge_sort key_le (map_to_list m) → id_of p.2 = p.1).
  { intros [k x] Hp. rewrite sorted_keys_perm in Hp.
    apply elem_of_map_to_list in Hp. simpl. by apply Hm in Hp as [? _]. }
  induction Hs as [|p l Hl IH Hp]; [constructor|].
  rewrite fmap_cons. apply NoDup_cons in Hnd as [Hp1 Hnd].
  constructor.
  - apply IH; [done|]. intros q Hq. apply Hin. by apply list_elem_of_further.
  - apply Forall_fmap, Forall_forall. intros q Hq. simpl.
    rewrite (Hin p) by apply list_elem_of_here.
    rewrite (Hin q) by (by apply list_elem_of_further).
    eapply Forall_forall in Hp; [|exact Hq]. unfold key_le in Hp.
    assert (p.1 ≠ q.1); [|lia].
    intros Heq. apply Hp1. rewrite Heq. apply list_elem_of_fmap. by exists q.
Qed.

End Values.

(** ** The order of a listing of transactions *)

Lemma insert_newest_perm x l : insert_newest x l ≡ₚ x :: l.
Proof.
  induction l as [|y l IH]; simpl; [done|].
  destruct (_ <=? _)%Z; [done|]. by rewrite IH, Permutation_swap.
Qed.

Lemma newest_first_perm l : newest_first l ≡ₚ l.
Proof.
  induction l as [|x l IH]; simpl; [done|]. by rewrite insert_newest_perm, IH.
Qed.

Lemma listed_before_trans a b c :
  listed_before a b → listed_before b c → listed_before a c.
Proof. unfold listed_before. lia. Qed.

Lemma insert_newest_sorted x l :
  Forall (λ y, (Transaction.id x < Transaction.id y)%Z) l →
  StronglySorted listed_before l →
  StronglySorted listed_before (insert_newest x l).
Proof.
  intros Hx Hl. induction Hl as [|y l Hl IH Hy]; simpl.
  - repeat constructor.
  - apply Forall_cons in Hx as [Hxy Hx].
    destruct (_ <=? _)%Z eqn:E; [apply Z.leb_le in E|apply Z.leb_gt in E].
    + constructor; [by constructor|].
      assert (Hxy' : listed_before x y) by (unfold listed_before; lia).
      constructor; [done|].
      eapply Forall_impl; [exact Hy|]. intros z Hz.
      by apply (listed_before_trans x y z).
    + constructor; [by apply IH|].
      rewrite insert_newest_perm. constructor; [|done].
      unfold listed_before. lia.
Qed.

Lemma newest_first_sorted l :
  StronglySorted (λ a b, (Transaction.id a < Transaction.id b)%Z) l →
  StronglySorted listed_before (newest_first l).
Proof.
  induction 1 as [|x l Hl IH Hx]; simpl; [constructor|].
  apply insert_newest_sorted; [|done]. by rewrite newest_first_perm.
Qed.

Lemma StronglySorted_filter {A} (R : relation A) (P : A → Prop)
    `{!∀ x, Decision (P x)} (l : list A) :
  StronglySorted R l → StronglySorted R (filter P l).
Proof.
  induction 1 as [|x l Hl IH Hx]; [constructor|].
  rewrite filter_cons. case_decide; [|done].
  constructor; [done|]. apply Forall_forall. intros y Hy.
  apply list_elem_of_filter in Hy as [_ Hy]. by eapply Forall_forall in Hx.
Qed.

Lemma listed_before_NoDup l : StronglySorted listed_before l → NoDup l.
Proof.
  induction 1 as [|x l Hl IH Hx]; constructor; [|done].
  intros Hin. eapply Forall_forall in Hx; [|exact Hin].
  unfold listed_before in Hx. lia.
Qed.

(* ===================================================================== *)
(** * Facts about the whole object                                        *)
(* ===================================================================== *)

Module StoreFacts.

Section Issued.
Context {A : Type} (id_of : A → Z).
Implicit Types m : gmap Z A.

Lemma issued_fresh m next : issued id_of m next → m !! next = None.
Proof.
  intros [_ H]. destruct (m !! next) as [x|] eqn:E; [|done].
  apply H in E as [_ ?]. lia.
Qed.

Lemma issued_below m next k : issued id_of m next → is_Some (m !! k) → (0 < k < next)%Z.
Proof. intros [_ H] [x Hx]. by apply H in Hx as [_ ?]. Qed.

Lemma issued_insert_next m next x :
  id_of x = next → issued id_of m next → issued id_of (<[next := x]> m) (next + 1).
Proof.
  intros Hx [Hpos H]. split; [lia|]. intros k y Hk.
  apply lookup_insert_Some in Hk as [[<- <-]|[Hne Hk]]; [lia|].
  apply H in Hk. lia.
Qed.

Lemma issued_insert_same m next k x y :
  m !! k = Some x → id_of y = id_of x → issued id_of m next →
  issued id_of (<[k := y]> m) next.
Proof.
  intros Hx Hy [Hpos H]. split; [done|]. intros k' z Hk.
  apply lookup_insert_Some in Hk as [[<- <-]|[Hne Hk]]; [|by apply H].
  apply H in Hx. lia.
Qed.

Lemma issued_delete m next k : issued id_of m next → issued id_of (delete k m) next.
Proof.
  intros [Hpos H]. split; [done|]. intros k' z Hk.
  apply lookup_delete_Some in Hk as [_ Hk]. by apply H.
Qed.

End Issued.

(** The tables after a creation, an update and a deletion of a transaction. *)
Lemma createTransaction_categories this now ins :
  categories (createTransaction this now ins).1 = categories this.
Proof.
  unfold createTransaction; simpl.
  destruct (truthy_id (truthy_id _)); [|done].
  by destruct (accounts this !! _).
Qed.

Lemma deleteTransaction_categories this id :
  categories (deleteTransaction this id).1 = categories this.
Proof.
  unfold deleteTransaction.
  destruct (transactions this !! id) as [t|]; simpl; [|done].
  destruct (truthy_id _); [|done]. by destruct (accounts this !! _).
Qed.

Lemma createTransaction_row_id this now ins :
  Transaction.id (createTransaction this now ins).2 = currentTransactionId this.
Proof. done. Qed.

Lemma issued_accounts_posted (m : gmap Z Account.t) next k account b :
  m !! k = Some account → issued Account.id m next →
  issued Account.id (<[k := Account.with_balance account b]> m) next.
Proof. intros Hk. by apply issued_insert_same with account. Qed.

Lemma createTransaction_issued_accounts this now ins next :
  issued Account.id (accounts this) next →
  issued Account.id (accounts (createTransaction this now ins).1) next.
Proof.
  intros H. rewrite createTransaction_accounts.
  destruct (truthy_id _) as [k|]; [|done].
  destruct (accounts this !! k) as [account|] eqn:E; [|done].
  by apply issued_accounts_posted.
Qed.

Lemma deleteTransaction_issued_accounts this id next :
  issued Account.id (accounts this) next →
  issued Account.id (accounts (deleteTransaction this id).1) next.
Proof.
  intros H. rewrite deleteTransaction_accounts.
  destruct (transactions this !! id) as [t|]; [|done].
  destruct (truthy_id _) as [k|]; [|done].
  destruct (accounts this !! k) as [account|] eqn:E; [|done].
  by apply issued_accounts_posted.
Qed.

Lemma exec_well_formed this c : well_formed this → well_formed (Store.exec this c).
Proof.
  intros [Hu Hc Ha Ht Hg].
  destruct c; cbn [Store.exec].
  - constructor; simpl; try done. by apply issued_insert_next.
  - unfold Store.updateUser. destruct (Store.users this !! id) as [user|] eqn:E; simpl; [|done].
    constructor; simpl; try done. by apply issued_insert_same with user.
  - constructor; simpl; try done. by apply issued_insert_next.
  - unfold Store.updateCategory.
    destruct (categories (Store.tables this) !! id) as [category|] eqn:E; simpl; [|done].
    constructor; simpl; try done. by apply issued_insert_same with category.
  - constructor; simpl; try done. by apply issued_delete.
  - constructor; simpl; try done. by apply issued_insert_next.
  - unfold Store.updateAccount.
    destruct (accounts (Store.tables this) !! id) as [account|] eqn:E; simpl; [|done].
    constructor; simpl; try done. by apply issued_insert_same with account.
  - constructor; simpl; try done. by apply issued_delete.
  - constructor; cbn [Store.createTransaction Store.set_tables Store.tables Store.users Store.telegramConfigs
      Store.currentUserId Store.currentCategoryId Store.currentAccountId
      Store.currentConfigId fst snd];
      try done.
    + by rewrite createTransaction_categories.
    + by apply createTransaction_issued_accounts.
    + rewrite createTransaction_transactions, createTransaction_counter.
      by apply issued_insert_next.
  - constructor; cbn [Store.updateTransaction Store.set_tables Store.tables Store.users Store.telegramConfigs
      Store.currentUserId Store.currentCategoryId Store.currentAccountId
      Store.currentConfigId fst snd];
      try done; unfold updateTransaction;
      destruct (transactions (Store.tables this) !! id) as [t|] eqn:E; simpl; try done.
    by apply issued_insert_same with t.
  - constructor; cbn [Store.deleteTransaction Store.set_tables Store.tables Store.users Store.telegramConfigs
      Store.currentUserId Store.currentCategoryId Store.currentAccountId
      Store.currentConfigId fst snd];
      try done.
    + by rewrite deleteTransaction_categories.
    + by apply deleteTransaction_issued_accounts.
    + rewrite deleteTransaction_transactions, deleteTransaction_counter.
      by apply issued_delete.
  - constructor; simpl; try done. by apply issued_insert_next.
  - unfold Store.updateTelegramConfig.
    destruct (Store.telegramConfigs this !! id) as [config|] eqn:E; simpl; [|done].
    constructor; simpl; try done. by apply issued_insert_same with config.
Qed.

Lemma not_before_refl this : not_before this this.
Proof. unfold not_before. lia. Qed.

Lemma not_before_trans this1 this2 this3 :
  not_before this1 this2 → not_before this2 this3 → not_before this1 this3.
Proof. unfold not_before. lia. Qed.

Lemma exec_not_before this c : not_before this (Store.exec this c).
Proof.
  destruct c; cbn [Store.exec]; unfold not_before.
  - simpl. lia.
  - unfold Store.updateUser. destruct (Store.users this !! id); simpl; lia.
  - simpl. lia.
  - unfold Store.updateCategory. destruct (categories (Store.tables this) !! id); simpl; lia.
  - simpl. lia.
  - simpl. lia.
  - unfold Store.updateAccount. destruct (accounts (Store.tables this) !! id); simpl; lia.
  - simpl. lia.
  - cbn [Store.createTransaction Store.set_tables Store.tables Store.users Store.telegramConfigs
      Store.currentUserId Store.currentCategoryId Store.currentAccountId
      Store.currentConfigId fst snd].
    rewrite createTransaction_counter. lia.
  - cbn [Store.updateTransaction Store.set_tables Store.tables Store.users Store.telegramConfigs
      Store.currentUserId Store.currentCategoryId Store.currentAccountId
      Store.currentConfigId fst snd].
    unfold updateTransaction.
    destruct (transactions (Store.tables this) !! id); simpl; lia.
  - cbn [Store.deleteTransaction Store.set_tables Store.tables Store.users Store.telegramConfigs
      Store.currentUserId Store.currentCategoryId Store.currentAccountId
      Store.currentConfigId fst snd].
    rewrite deleteTransaction_counter. lia.
  - simpl. lia.
  - unfold Store.updateTelegramConfig. destruct (Store.telegramConfigs this !! id); simpl; lia.
Qed.

Lemma execs_well_formed this calls : well_formed this → well_formed (Store.execs this calls).
Proof.
  revert this. induction calls as [|c calls IH]; intros this H; simpl; [done|].
  by apply IH, exec_well_formed.
Qed.

Lemma execs_not_before this calls : not_before this (Store.execs this calls).
Proof.
  revert this. induction calls as [|c calls IH]; intros this; simpl.
  - apply not_before_refl.
  - eapply not_before_trans; [apply exec_not_before|apply IH].
Qed.

Lemma constructor_well_formed now : well_formed (Store.constructor now).
Proof.
  constructor; (split; [done|]); intros k x Hk.
  - cbn [Store.constructor Store.users] in Hk.
    apply lookup_singleton_Some in Hk as [<- <-]. simpl. lia.
  - cbn [Store.constructor Store.tables] in Hk. unfold initializeDefaults in Hk.
    cbn [categories] in Hk.
    apply elem_of_list_to_map_2 in Hk. simpl in Hk.
    repeat (apply elem_of_cons in Hk as [[= -> ->]|Hk]; [simpl; lia|]).
    by apply elem_of_nil in Hk.
  - cbn [Store.constructor Store.tables] in Hk. unfold initializeDefaults in Hk.
    cbn [accounts] in Hk.
    apply lookup_insert_Some in Hk as [[<- <-]|[_ Hk]]; [simpl; lia|].
    apply lookup_insert_Some in Hk as [[<- <-]|[_ Hk]]; [simpl; lia|].
    by rewrite lookup_empty in Hk.
  - cbn [Store.constructor Store.tables] in Hk. unfold initializeDefaults in Hk.
    cbn [transactions] in Hk. by rewrite lookup_empty in Hk.
  - cbn [Store.constructor Store.telegramConfigs] in Hk. by rewrite lookup_empty in Hk.
Qed.


(** X8.  From a well-formed store, every sequence of calls of the methods
    that write leaves a well-formed store (a row is stored under its own
    id, below the counter of its table), and the id that a [create]
    method gives afterwards is above the id of every row that the table
    had at the start, deleted since or not: an id is issued once. *)
Theorem ids_are_issued_once (this : Store.t) (calls : list Store.call) :
  well_formed this →
  let this' := Store.execs this calls in
  well_formed this'
  ∧ (∀ now insertUser k,
       is_Some (Store.users this !! k) →
       (k < User.id (Store.createUser this' now insertUser).2)%Z)
  ∧ (∀ insertCategory k,
       is_Some (categories (Store.tables this) !! k) →
       (k < Category.id (Store.createCategory this' insertCategory).2)%Z)
  ∧ (∀ insertAccount k,
       is_Some (accounts (Store.tables this) !! k) →
       (k < Account.id (Store.createAccount this' insertAccount).2)%Z)
  ∧ (∀ now insertTransaction k,
       is_Some (transactions (Store.tables this) !! k) →
       (k < Transaction.id (Store.createTransaction this' now insertTransaction).2)%Z)
  ∧ (∀ now insertConfig k,
       is_Some (Store.telegramConfigs this !! k) →
       (k < TelegramConfig.id (Store.createTelegramConfig this' now insertConfig).2)%Z).
Proof.
  intros Hwf this'. subst this'.
  pose proof (execs_not_before this calls) as (Hu & Hc & Ha & Ht & Hg).
  split; [by apply execs_well_formed|].
  destruct Hwf as [Wu Wc Wa Wt Wg].
  split_and!.
  - intros now insertUser k Hk. apply (issued_below _ _ _ _ Wu) in Hk.
    cbn [Store.createUser snd User.id]. lia.
  - intros insertCategory k Hk. apply (issued_below _ _ _ _ Wc) in Hk.
    cbn [Store.createCategory snd Category.id]. lia.
  - intros insertAccount k Hk. apply (issued_below _ _ _ _ Wa) in Hk.
    cbn [Store.createAccount snd Account.id]. lia.
  - intros now insertTransaction k Hk. apply (issued_below _ _ _ _ Wt) in Hk.
    cbn [Store.createTransaction snd]. rewrite createTransaction_row_id. lia.
  - intros now insertConfig k Hk. apply (issued_below _ _ _ _ Wg) in Hk.
    cbn [Store.createTelegramConfig snd TelegramConfig.id]. lia.
Qed.

(** X9.  In a well-formed store [createAccount] takes an id that no account
    has; afterwards [getAccountById] finds the new account under it and
    every other account as before, [getAllAccounts] lists the new
    account last, the balance is the one of the payload or 0.00 without
    one, and no transaction changes. *)
Theorem createAccount_stores_a_new_account
    (this : Store.t) (insertAccount : InsertAccount.t) :
  well_formed this →
  let this' := (Store.createAccount this insertAccount).1 in
  let account := (Store.createAccount this insertAccount).2 in
  Store.getAccountById this (Account.id account) = None
  ∧ Store.getAccountById this' (Account.id account) = Some account
  ∧ (∀ id, id ≠ Account.id account →
           Store.getAccountById this' id = Store.getAccountById this id)
  ∧ Store.getAllAccounts this' = Store.getAllAccounts this ++ [account]
  ∧ Account.balance account
    = default (Number.Decimal 0 2) (InsertAccount.balance insertAccount)
  ∧ transactions (Store.tables this') = transactions (Store.tables this).
Proof.
  intros [_ _ Wa _ _] this' account. subst this' account.
  unfold Store.getAccountById, Store.getAllAccounts.
  cbn [Store.createAccount fst snd Account.id Account.balance Store.tables
       accounts transactions].
  split_and!; try done.
  - by apply (issued_fresh Account.id).
  - by rewrite lookup_insert_eq.
  - intros id Hid. by rewrite lookup_insert_ne.
  - apply values_insert_last. intros k Hk.
    apply (issued_below _ _ _ _ Wa) in Hk. lia.
Qed.

(** X10.  [deleteAccount] removes the account and leaves its transactions:
    a transaction of the account is still found by its id, it can still
    be deleted, and neither that deletion nor a new transaction that names
    the deleted account changes the balance of any account. *)
Theorem deleteAccount_leaves_the_transactions_of_the_account
    (this : Store.t) (id k : Z) (t : Transaction.t) :
  Store.getTransactionById this k = Some t →
  Transaction.accountId t = Some id →
  let this1 := (Store.deleteAccount this id).1 in
  Store.getAccountById this1 id = None
  ∧ Store.getTransactionById this1 k = Some t
  ∧ (Store.deleteTransaction this1 k).2 = true
  ∧ Store.getTransactionById (Store.deleteTransaction this1 k).1 k = None
  ∧ accounts (Store.tables (Store.deleteTransaction this1 k).1)
    = accounts (Store.tables this1)
  ∧ ∀ now insertTransaction,
      InsertTransaction.accountId insertTransaction = Some id →
      accounts (Store.tables (Store.createTransaction this1 now insertTransaction).1)
      = accounts (Store.tables this1).
Proof.
  intros Hk Hid this1. subst this1.
  unfold Store.getTransactionById, Store.getAccountById in *.
  cbn [Store.deleteAccount Store.set_accounts Store.set_tables Store.tables fst
       Store.deleteTransaction Store.createTransaction snd].
  rewrite deleteTransaction_accounts, deleteTransaction_transactions.
  cbn [accounts transactions].
  rewrite Hk, Hid.
  assert (Hdel : ∀ x, truthy_id (Some id) = Some x →
                      delete id (accounts (Store.tables this)) !! x = None).
  { intros x Hx. apply truthy_id_Some in Hx as [[= <-] _]. apply lookup_delete_eq. }
  split_and!.
  - apply lookup_delete_eq.
  - done.
  - unfold deleteTransaction. cbn [transactions]. by rewrite Hk.
  - apply lookup_delete_eq.
  - destruct (truthy_id (Some id)) as [x|] eqn:E; [|done]. by rewrite (Hdel x).
  - intros now insertTransaction Hins.
    rewrite createTransaction_accounts. cbn [accounts]. rewrite Hins.
    destruct (truthy_id (Some id)) as [x|] eqn:E; [|done]. by rewrite (Hdel x).
Qed.

(** X11.  In a well-formed store [getAllTransactions] lists each stored
    transaction once, and [getTransactionsByUserId] each stored
    transaction of the user once, and nothing else; both lists go from
    the latest creation to the earliest, and transactions created at the
    same instant are in the order of their ids. *)
Theorem transactions_are_listed_the_latest_first (this : Store.t) (userId : Z) :
  well_formed this →
  (∀ t, t ∈ Store.getAllTransactions this ↔
        ∃ id, Store.getTransactionById this id = Some t)
  ∧ StronglySorted listed_before (Store.getAllTransactions this)
  ∧ NoDup (Store.getAllTransactions this)
  ∧ (∀ t, t ∈ Store.getTransactionsByUserId this userId ↔
          (∃ id, Store.getTransactionById this id = Some t)
          ∧ Transaction.userId t = Some userId)
  ∧ StronglySorted listed_before (Store.getTransactionsByUserId this userId)
  ∧ NoDup (Store.getTransactionsByUserId this userId).
Proof.
  intros [_ _ _ Wt _].
  unfold Store.getAllTransactions, Store.getTransactionsByUserId,
    Store.getTransactionById.
  pose proof (values_by_id Transaction.id _ _ Wt) as Hs.
  assert (H1 : StronglySorted listed_before
                 (newest_first (values (transactions (Store.tables this)))))
    by (by apply newest_first_sorted).
  assert (H2 : StronglySorted listed_before
                 (newest_first
                    (filter (λ t, Transaction.userId t = Some userId)
                       (values (transactions (Store.tables this))))))
    by (by apply newest_first_sorted, StronglySorted_filter).
  split_and!.
  - intros t. by rewrite newest_first_perm, elem_of_values.
  - done.
  - by apply listed_before_NoDup.
  - intros t. rewrite newest_first_perm, list_elem_of_filter, elem_of_values. tauto.
  - done.
  - by apply listed_before_NoDup.
Qed.

(** X12.  In a well-formed store, after [createTelegramConfig] the
    configuration that [getTelegramConfig] returns is the one it returned
    before, if there was one, and the new one otherwise: a second
    configuration is stored and never read.  The new configuration is
    active only if the payload says [true]; [false] is stored as [null]. *)
Theorem getTelegramConfig_is_the_first_created
    (this : Store.t) (now : Date) (insertConfig : InsertTelegramConfig.t) :
  well_formed this →
  let this' := (Store.createTelegramConfig this now insertConfig).1 in
  let config := (Store.createTelegramConfig this now insertConfig).2 in
  Store.getTelegramConfig this'
  = Some (default config (Store.getTelegramConfig this))
  ∧ (TelegramConfig.isActive config = Some true
     ↔ InsertTelegramConfig.isActive insertConfig = Some true)
  ∧ (TelegramConfig.isActive config ≠ Some true → TelegramConfig.isActive config = None).
Proof.
  intros [_ _ _ _ Wg] this' config. subst this' config.
  unfold Store.getTelegramConfig.
  cbn [Store.createTelegramConfig fst snd Store.telegramConfigs TelegramConfig.isActive].
  split_and!.
  - rewrite values_insert_last.
    + by destruct (values (Store.telegramConfigs this)).
    + intros k Hk. apply (issued_below _ _ _ _ Wg) in Hk. lia.
  - by destruct (InsertTelegramConfig.isActive insertConfig) as [[]|].
  - by destruct (InsertTelegramConfig.isActive insertConfig) as [[]|].
Qed.

End StoreFacts.

(* ===================================================================== *)
(** * Facts about the routes                                              *)
(* ===================================================================== *)

Module ApiFacts.

Section Host.
Context (newDate : Z → Z → Z → Date) (parseDate : string → option Date).


(** ** Users are found by their names *)

Lemma find_app_None {A} (f : A → bool) (l1 l2 : list A) :
  List.find f l1 = None → List.find f (l1 ++ l2) = List.find f l2.
Proof.
  induction l1 as [|x l1 IH]; simpl; [done|]. by destruct (f x).
Qed.

Lemma find_app_Some {A} (f : A → bool) (l1 l2 : list A) (x : A) :
  List.find f l1 = Some x → List.find f (l1 ++ l2) = Some x.
Proof.
  induction l1 as [|y l1 IH]; simpl; [done|]. by destruct (f y).
Qed.

Lemma find_None_elem {A} (f : A → bool) (l : list A) (x : A) :
  List.find f l = None → x ∈ l → f x = false.
Proof.
  intros H Hx. apply (List.find_none f l H). by apply list_elem_of_In.
Qed.

Lemma getUserByUsername_None this username i user :
  Store.getUserByUsername this username = None →
  Store.users this !! i = Some user → User.username user ≠ username.
Proof.
  unfold Store.getUserByUsername. intros H Hi Heq.
  assert (Hin : user ∈ values (Store.users this)) by (apply elem_of_values; by exists i).
  apply (find_None_elem _ _ _ H) in Hin. by apply bool_decide_eq_false in Hin.
Qed.

Lemma getUserByEmail_None this email i user :
  Store.getUserByEmail this email = None →
  Store.users this !! i = Some user → User.email user ≠ email.
Proof.
  unfold Store.getUserByEmail. intros H Hi Heq.
  assert (Hin : user ∈ values (Store.users this)) by (apply elem_of_values; by exists i).
  apply (find_None_elem _ _ _ H) in Hin. by apply bool_decide_eq_false in Hin.
Qed.

Lemma getUserByUsername_Some this username user :
  Store.getUserByUsername this username = Some user →
  User.username user = username ∧ ∃ i, Store.users this !! i = Some user.
Proof.
  unfold Store.getUserByUsername. intros H.
  apply List.find_some in H as [Hin Hu]. apply bool_decide_eq_true in Hu.
  split; [done|]. by apply elem_of_values, list_elem_of_In.
Qed.

Lemma requireAuth_Some server req userId :
  Api.requireAuth server req = Some userId →
  Api.sessions server !! Api.session req = Some userId ∧ userId ≠ 0%Z.
Proof. unfold Api.requireAuth. apply truthy_id_Some. Qed.


(** ** The routes keep the server consistent *)

Lemma truthy_id_Some_nonzero (z : Z) : z ≠ 0%Z → truthy_id (Some z) = Some z.
Proof. intros Hz. by apply truthy_id_Some. Qed.

Lemma exec_users this c :
  leaves_users c → Store.users (Store.exec this c) = Store.users this.
Proof.
  destruct c; intros Hc; try done; cbn [Store.exec].
  - unfold Store.updateCategory. by destruct (categories (Store.tables this) !! id).
  - unfold Store.updateAccount. by destruct (accounts (Store.tables this) !! id).
  - unfold Store.updateTelegramConfig. by destruct (Store.telegramConfigs this !! id).
Qed.

(** The rows of the transactions after a call: a row that was there with
    the same owner, or the row that the call creates. *)
Lemma exec_transactions this c k t :
  leaves_users c →
  (∀ id updates, c = Store.UpdateTransaction id updates →
                 PartialTransaction.userId updates = None) →
  transactions (Store.tables (Store.exec this c)) !! k = Some t →
  (∃ t0, transactions (Store.tables this) !! k = Some t0
         ∧ Transaction.userId t = Transaction.userId t0)
  ∨ (∃ now insertTransaction,
       c = Store.CreateTransaction now insertTransaction
       ∧ Transaction.userId t = truthy_id (InsertTransaction.userId insertTransaction)).
Proof.
  destruct c; intros Hc Hu; try done; cbn [Store.exec].
  - intros Hk; left; by exists t.
  - unfold Store.updateCategory.
    destruct (categories (Store.tables this) !! id); intros Hk; left; by exists t.
  - intros Hk; left; by exists t.
  - intros Hk; left; by exists t.
  - unfold Store.updateAccount.
    destruct (accounts (Store.tables this) !! id); intros Hk; left; by exists t.
  - intros Hk; left; by exists t.
  - cbn [Store.createTransaction Store.set_tables Store.tables fst].
    rewrite createTransaction_transactions. intros Hk.
    apply lookup_insert_Some in Hk as [[<- <-]|[_ Hk]].
    + right. by exists now, insertTransaction.
    + left. by exists t.
  - cbn [Store.updateTransaction Store.set_tables Store.tables fst].
    unfold updateTransaction.
    destruct (transactions (Store.tables this) !! id) as [t0|] eqn:E; cbn [fst transactions].
    + intros Hk. apply lookup_insert_Some in Hk as [[<- <-]|[_ Hk]].
      * left. exists t0. split; [done|]. unfold patch. cbn [Transaction.userId].
        by rewrite (Hu id updates eq_refl).
      * left. by exists t.
    + intros Hk. left. by exists t.
  - cbn [Store.deleteTransaction Store.set_tables Store.tables fst].
    rewrite deleteTransaction_transactions. intros Hk.
    apply lookup_delete_Some in Hk as [_ Hk]. left. by exists t.
  - intros Hk; left; by exists t.
  - unfold Store.updateTelegramConfig.
    destruct (Store.telegramConfigs this !! id); intros Hk; left; by exists t.
Qed.

Lemma exec_consistent server c :
  consistent server →
  leaves_users c →
  (∀ id updates, c = Store.UpdateTransaction id updates →
                 PartialTransaction.userId updates = None) →
  (∀ now insertTransaction, c = Store.CreateTransaction now insertTransaction →
     ∃ userId, truthy_id (InsertTransaction.userId insertTransaction) = Some userId
               ∧ is_Some (Store.users (Api.storage server) !! userId)) →
  consistent (Api.set_storage server (Store.exec (Api.storage server) c)).
Proof.
  intros [Hwf Hun Hem Hse Hov] Hc Hupd Hcre.
  constructor; cbn [Api.set_storage Api.storage Api.sessions];
    rewrite ?(exec_users _ _ Hc); try done.
  - by apply StoreFacts.exec_well_formed.
  - intros id t Hk.
    apply exec_transactions in Hk as [(t0 & Hk & ->)|(now & ins & -> & ->)]; try done.
    + by apply (Hov id).
    + by apply (Hcre now ins).
Qed.

Lemma handle_consistent server req :
  consistent server → consistent (Api.handle newDate parseDate server req).1.
Proof.
  intros H. pose proof H as [Hwf Hun Hem Hse Hov].
  unfold Api.handle, Api.guarded.
  destruct (Api.route req) as
    [body| | |body| |body|id body|id| |body|id body|id|startDate endDate|body|id body|id
     | | | | |body|id body]; try done.
  - (* login *)
    unfold Api.login. destruct body as [input| |]; try done.
    destruct (Store.getUserByUsername _ _) as [user|] eqn:E; [|done].
    case_bool_decide; [|done].
    apply getUserByUsername_Some in E as [_ [i Hi]].
    pose proof (proj2 Hwf.(wf_users _) i user Hi) as [Hid _].
    constructor; cbn [Api.storage Api.sessions fst snd]; try done.
    intros session userId Hs.
    apply lookup_insert_Some in Hs as [[_ <-]|[_ Hs]]; [|by apply (Hse session)].
    rewrite Hid. by exists user.
  - (* logout *)
    unfold Api.logout. constructor; cbn [Api.storage Api.sessions fst]; try done.
    intros session userId Hs. apply lookup_delete_Some in Hs as [_ Hs].
    by apply (Hse session).
  - (* me *)
    destruct (Api.requireAuth server req); [|done].
    unfold Api.me. by destruct (Store.getUser _ _).
  - (* register *)
    unfold Api.register. destruct body as [input| |]; try done.
    destruct (Store.getUserByUsername _ _) eqn:Eu; [done|].
    destruct (Store.getUserByEmail _ _) eqn:Ee; [done|].
    cbn [fst snd Store.createUser User.id].
    set (next := Store.currentUserId (Api.storage server)).
    set (user := User.mk next _ _ _ _ _ _ _).
    pose proof (StoreFacts.issued_fresh User.id _ _ Hwf.(wf_users _)) as Hfresh.
    fold next in Hfresh.
    constructor; cbn [Api.storage Api.sessions Store.users Store.tables fst snd].
    + apply (StoreFacts.exec_well_formed (Api.storage server)
               (Store.CreateUser (Api.now req)
                  (InsertUser.mk (Api.register_username input) (Api.register_email input)
                     (Api.register_password input) (Api.register_fullName input)
                     (Some "employee") None)) Hwf).
    + intros i j u v Hi Hj Huv.
      apply lookup_insert_Some in Hi as [[<- <-]|[Hni Hi]];
        apply lookup_insert_Some in Hj as [[<- <-]|[Hnj Hj]]; try done.
      * exfalso. apply (getUserByUsername_None _ _ _ _ Eu Hj). by rewrite <- Huv.
      * exfalso. by apply (getUserByUsername_None _ _ _ _ Eu Hi).
      * by apply (Hun i j u v).
    + intros i j u v Hi Hj Huv.
      apply lookup_insert_Some in Hi as [[<- <-]|[Hni Hi]];
        apply lookup_insert_Some in Hj as [[<- <-]|[Hnj Hj]]; try done.
      * exfalso. apply (getUserByEmail_None _ _ _ _ Ee Hj). by rewrite <- Huv.
      * exfalso. by apply (getUserByEmail_None _ _ _ _ Ee Hi).
      * by apply (Hem i j u v).
    + intros session userId Hs. apply lookup_insert_is_Some'.
      apply lookup_insert_Some in Hs as [[_ <-]|[_ Hs]]; [by left|].
      right. by apply (Hse session).
    + intros id t Hk. destruct (Hov id t Hk) as (userId & Ht & Hu).
      exists userId. split; [done|]. apply lookup_insert_is_Some'. by right.
  - (* GET categories *)
    by destruct (Api.requireAuth server req).
  - (* POST categories *)
    destruct (Api.requireAuth server req); [|done].
    unfold Api.postCategory. destruct body as [data| |]; try done.
    by apply (exec_consistent server (Store.CreateCategory data)).
  - (* PUT categories *)
    destruct (Api.requireAuth server req); [|done].
    unfold Api.putCategory. destruct body as [updates| |]; try done.
    destruct id as [id|]; [|done].
    destruct (Store.updateCategory _ _ _).2 eqn:E; [|done].
    by apply (exec_consistent server (Store.UpdateCategory id updates)).
  - (* DELETE categories *)
    destruct (Api.requireAuth server req); [|done].
    unfold Api.deleteCategory. destruct id as [id|]; [|done].
    destruct (Store.deleteCategory _ _).2; [|done].
    by apply (exec_consistent server (Store.DeleteCategory id)).
  - (* GET accounts *)
    by destruct (Api.requireAuth server req).
  - (* POST accounts *)
    destruct (Api.requireAuth server req) as [userId|]; [|done].
    unfold Api.postAccount. destruct body as [data| |]; try done.
    by apply (exec_consistent server
                (Store.CreateAccount
                   (InsertAccount.mk (Api.account_name data) (Api.account_type data)
                      (Api.account_balance data) (Api.account_bankName data)
                      (Api.account_accountNumber data) (Some userId)))).
  - (* PUT accounts *)
    destruct (Api.requireAuth server req); [|done].
    unfold Api.putAccount. destruct body as [updates| |]; try done.
    destruct id as [id|]; [|done].
    destruct (Store.updateAccount _ _ _).2 eqn:E; [|done].
    by apply (exec_consistent server (Store.UpdateAccount id updates)).
  - (* DELETE accounts *)
    destruct (Api.requireAuth server req); [|done].
    unfold Api.deleteAccount. destruct id as [id|]; [|done].
    destruct (Store.deleteAccount _ _).2; [|done].
    by apply (exec_consistent server (Store.DeleteAccount id)).
  - (* GET transactions *)
    by destruct (Api.requireAuth server req).
  - (* POST transactions *)
    destruct (Api.requireAuth server req) as [userId|] eqn:Ea; [|done].
    apply requireAuth_Some in Ea as [Hs Hnz].
    unfold Api.postTransaction. destruct body as [data| |]; try done.
    destruct (Api.noon_of _ _) as [date|]; [|done].
    apply (exec_consistent server
             (Store.CreateTransaction (Api.now req)
                (InsertTransaction.mk (Api.type data) (Api.amount data)
                   (Api.description data) (Api.thirdParty data) (Api.categoryId data)
                   (Api.accountId data) (Api.paymentMethod data) None (Api.notes data)
                   (Some userId) (Some date)))); try done.
    intros now ins [= <- <-]. exists userId. cbn [InsertTransaction.userId].
    split; [by apply truthy_id_Some_nonzero|]. by apply (Hse (Api.session req)).
  - (* PUT transactions *)
    destruct (Api.requireAuth server req); [|done].
    unfold Api.putTransaction. destruct body as [updates| |]; try done.
    destruct (truthy_string (Api.update_transactionDate updates)) as [s|].
    + destruct (Api.noon_of parseDate s) as [date|]; [|done].
      destruct id as [id|]; [|done].
      destruct (Store.updateTransaction _ _ _).2 eqn:E; [|done].
      apply (exec_consistent server
               (Store.UpdateTransaction id (Api.updateData updates (mjoin (Some (Some date))))));
        try done.
      by intros id' updates' [= <- <-].
    + destruct id as [id|]; [|done].
      destruct (Store.updateTransaction _ _ _).2 eqn:E; [|done].
      apply (exec_consistent server
               (Store.UpdateTransaction id (Api.updateData updates (mjoin None))));
        try done.
      by intros id' updates' [= <- <-].
  - (* DELETE transactions *)
    destruct (Api.requireAuth server req); [|done].
    unfold Api.deleteTransaction. destruct id as [id|]; [|done].
    destruct (Store.deleteTransaction _ _).2; [|done].
    by apply (exec_consistent server (Store.DeleteTransaction id)).
  - by destruct (Api.requireAuth server req).
  - by destruct (Api.requireAuth server req).
  - by destruct (Api.requireAuth server req).
  - by destruct (Api.requireAuth server req).
  - (* POST telegram *)
    destruct (Api.requireAuth server req); [|done].
    unfold Api.postTelegramConfig. destruct body as [data| |]; try done.
    by apply (exec_consistent server (Store.CreateTelegramConfig (Api.now req) data)).
  - (* PUT telegram *)
    destruct (Api.requireAuth server req); [|done].
    unfold Api.putTelegramConfig. destruct body as [updates| |]; try done.
    destruct id as [id|]; [|done].
    destruct (Store.updateTelegramConfig _ _ _).2 eqn:E; [|done].
    by apply (exec_consistent server (Store.UpdateTelegramConfig id updates)).
Qed.


Lemma start_consistent now : consistent (Api.start now).
Proof.
  constructor; cbn [Api.start Api.storage Api.sessions].
  - apply StoreFacts.constructor_well_formed.
  - intros i j u v Hi Hj _. cbn [Store.constructor Store.users] in Hi, Hj.
    apply lookup_singleton_Some in Hi as [<- _].
    by apply lookup_singleton_Some in Hj as [<- _].
  - intros i j u v Hi Hj _. cbn [Store.constructor Store.users] in Hi, Hj.
    apply lookup_singleton_Some in Hi as [<- _].
    by apply lookup_singleton_Some in Hj as [<- _].
  - intros session userId Hs. by rewrite lookup_empty in Hs.
  - intros id t Hk. cbn [Store.constructor Store.tables] in Hk.
    unfold initializeDefaults in Hk. cbn [transactions] in Hk.
    by rewrite lookup_empty in Hk.
Qed.

Lemma serve_consistent server requests :
  consistent server → consistent (Api.serve newDate parseDate server requests).
Proof.
  revert server. induction requests as [|req requests IH]; intros server H; [done|].
  apply IH. by apply handle_consistent.
Qed.

(** X13.  Whatever requests the server handles from its start, the store is
    well formed, no two users share a username or an email address, every
    session holds the id of a stored user, and every transaction carries
    the id of a stored user. *)
Theorem routes_keep_the_server_consistent (now : Date) (requests : list Api.Request) :
  consistent (Api.serve newDate parseDate (Api.start now) requests).
Proof. apply serve_consistent, start_consistent. Qed.

(** X14.  A request to a route other than login, logout and register, in a
    session that holds no user id, is answered with 401 and
    [Authentication required], and changes neither the store nor the
    sessions. *)
Theorem requests_without_a_user_are_rejected (server : Api.Server) (req : Api.Request) :
  Api.open (Api.route req) = false →
  Api.requireAuth server req = None →
  Api.handle newDate parseDate server req = (server, Api.unauthenticated).
Proof.
  intros Ho Ha. unfold Api.handle, Api.guarded. rewrite Ha.
  by destruct (Api.route req).
Qed.

(** ** Logging in *)

(** What a request does to the store: nothing, a call that leaves the
    users alone, or the creation of a user. *)
Lemma handle_storage server req :
  Api.storage (Api.handle newDate parseDate server req).1 = Api.storage server
  ∨ (∃ c, of_a_route c
          ∧ Api.storage (Api.handle newDate parseDate server req).1 = Store.exec (Api.storage server) c)
  ∨ (∃ now insertUser,
       Store.getUserByUsername (Api.storage server) (InsertUser.username insertUser) = None
       ∧ Api.storage (Api.handle newDate parseDate server req).1
         = (Store.createUser (Api.storage server) now insertUser).1).
Proof.
  unfold Api.handle, Api.guarded.
  destruct (Api.route req) as
    [body| | |body| |body|id body|id| |body|id body|id|startDate endDate|body|id body|id
     | | | | |body|id body];
    try (destruct (Api.requireAuth server req) as [userId|]; [|by left]);
    try (by left).
  - unfold Api.login. destruct body; try (by left).
    destruct (Store.getUserByUsername _ _); [|by left].
    case_bool_decide; by left.
  - unfold Api.me. destruct (Store.getUser _ _); by left.
  - unfold Api.register. destruct body as [input| |]; try (by left).
    destruct (Store.getUserByUsername _ _) eqn:Eu; [by left|].
    destruct (Store.getUserByEmail _ _); [by left|].
    right; right. eexists _, _. split; [|reflexivity]. exact Eu.
  - unfold Api.postCategory. destruct body as [data| |]; try (by left).
    right; left. exists (Store.CreateCategory data). by repeat split.
  - unfold Api.putCategory. destruct body as [updates| |]; try (by left).
    destruct id as [id|]; [|by left].
    destruct (Store.updateCategory _ _ _).2; [|by left].
    right; left. exists (Store.UpdateCategory id updates). by repeat split.
  - unfold Api.deleteCategory. destruct id as [id|]; [|by left].
    destruct (Store.deleteCategory _ _).2; [|by left].
    right; left. exists (Store.DeleteCategory id). by repeat split.
  - unfold Api.postAccount. destruct body as [data| |]; try (by left).
    right; left. eexists (Store.CreateAccount _). (split; [|reflexivity]); by split.
  - unfold Api.putAccount. destruct body as [updates| |]; try (by left).
    destruct id as [id|]; [|by left].
    destruct (Store.updateAccount _ _ _).2; [|by left].
    right; left. exists (Store.UpdateAccount id updates). by repeat split.
  - unfold Api.deleteAccount. destruct id as [id|]; [|by left].
    destruct (Store.deleteAccount _ _).2; [|by left].
    right; left. exists (Store.DeleteAccount id). by repeat split.
  - unfold Api.postTransaction. destruct body as [data| |]; try (by left).
    destruct (Api.noon_of _ _); [|by left].
    right; left. eexists (Store.CreateTransaction _ _). (split; [|reflexivity]); by split.
  - unfold Api.putTransaction. destruct body as [updates| |]; try (by left).
    destruct (match truthy_string _ with Some _ => _ | None => _ end) as [[date|]|];
      try (by left);
      (destruct id as [id|]; [|by left]);
      (destruct (Store.updateTransaction _ _ _).2; [|by left]);
      right; left; eexists (Store.UpdateTransaction _ _); (split; [|reflexivity]); by split.
  - unfold Api.deleteTransaction. destruct id as [id|]; [|by left].
    destruct (Store.deleteTransaction _ _).2; [|by left].
    right; left. exists (Store.DeleteTransaction id). by repeat split.
  - unfold Api.postTelegramConfig. destruct body as [data| |]; try (by left).
    right; left. exists (Store.CreateTelegramConfig (Api.now req) data). by repeat split.
  - unfold Api.putTelegramConfig. destruct body as [updates| |]; try (by left).
    destruct id as [id|]; [|by left].
    destruct (Store.updateTelegramConfig _ _ _).2; [|by left].
    right; left. exists (Store.UpdateTelegramConfig id updates). by repeat split.
Qed.

Lemma createUser_getUserByUsername this now insertUser username user :
  well_formed this →
  Store.getUserByUsername this username = Some user →
  Store.getUserByUsername (Store.createUser this now insertUser).1 username = Some user.
Proof.
  intros Hwf H. unfold Store.getUserByUsername in *.
  cbn [Store.createUser fst Store.users].
  rewrite values_insert_last.
  - by apply find_app_Some.
  - intros k Hk. by apply (StoreFacts.issued_below _ _ _ _ Hwf.(wf_users _)) in Hk as [_ ?].
Qed.

(** A user that is found by a name is found by it after every request. *)
Lemma handle_getUserByUsername server req username user :
  consistent server →
  Store.getUserByUsername (Api.storage server) username = Some user →
  Store.getUserByUsername (Api.storage (Api.handle newDate parseDate server req).1) username = Some user.
Proof.
  intros [Hwf _ _ _ _] H.
  destruct (handle_storage server req) as [->|[(c & [Hc _] & ->)|(now & ins & _ & ->)]].
  - done.
  - unfold Store.getUserByUsername in *. by rewrite exec_users.
  - by apply createUser_getUserByUsername.
Qed.

Lemma serve_getUserByUsername server requests username user :
  consistent server →
  Store.getUserByUsername (Api.storage server) username = Some user →
  Store.getUserByUsername (Api.storage (Api.serve newDate parseDate server requests)) username = Some user.
Proof.
  revert server. induction requests as [|req requests IH]; intros server Hc H; [done|].
  apply IH; [by apply handle_consistent|by apply handle_getUserByUsername].
Qed.

(** X15.  A registration that is answered with 201 returns the new user
    under the name of the payload and logs the session in; after any
    further requests, a login with the name and the password of the
    registration is answered with 200 and the same user, and puts the id
    of the user in the session of the login. *)
Theorem a_registered_user_can_log_in
    (server : Api.Server) (req : Api.Request) (input : Api.RegisterInput)
    (requests : list Api.Request) (req' : Api.Request) :
  consistent server →
  Api.route req = Api.POST_auth_register (Api.Valid input) →
  Api.status (Api.handle newDate parseDate server req).2 = 201%Z →
  Api.route req'
  = Api.POST_auth_login
      (Api.Valid (Api.mkLoginInput (Api.register_username input)
                    (Api.register_password input))) →
  let server' :=
    Api.serve newDate parseDate (Api.handle newDate parseDate server req).1 requests in
  ∃ user,
    Api.username user = Api.register_username input
    ∧ (Api.handle newDate parseDate server req).2
      = Api.mkResponse 201 (Api.OneUser user)
    ∧ Api.requireAuth (Api.handle newDate parseDate server req).1 req
      = Some (Api.id user)
    ∧ Api.handle newDate parseDate server' req'
      = (Api.mkServer (Api.storage server')
           (<[Api.session req' := Api.id user]> (Api.sessions server')),
         Api.json (Api.OneUser user)).
Proof.
  intros Hc Hr Hs Hr' server'.
  pose proof (handle_consistent server req Hc) as Hc1.
  pose proof Hc as [Hwf _ _ _ _].
  pose proof (StoreFacts.issued_fresh User.id _ _ Hwf.(wf_users _)) as Hfresh.
  destruct Hwf.(wf_users _) as [Hpos _].
  assert (Hfind : ∃ user,
    Store.getUserByUsername (Api.storage (Api.handle newDate parseDate server req).1)
      (Api.register_username input) = Some user
    ∧ User.password user = Api.register_password input
    ∧ (Api.handle newDate parseDate server req).2 = Api.mkResponse 201 (Api.OneUser (Api.public user))
    ∧ Api.sessions (Api.handle newDate parseDate server req).1 !! Api.session req = Some (User.id user)
    ∧ User.id user ≠ 0%Z
    ∧ User.username user = Api.register_username input).
  { unfold Api.handle in *. rewrite Hr in *. unfold Api.register in *.
    destruct (Store.getUserByUsername _ _) eqn:Eu; [done|].
    destruct (Store.getUserByEmail _ _) eqn:Ee; [done|].
    cbn [fst snd Api.storage Api.sessions].
    exists (Store.createUser (Api.storage server) (Api.now req)
              (InsertUser.mk (Api.register_username input) (Api.register_email input)
                 (Api.register_password input) (Api.register_fullName input)
                 (Some "employee") None)).2.
    split_and!; [|reflexivity|reflexivity|by rewrite lookup_insert_eq| |reflexivity].
    - unfold Store.getUserByUsername in *. cbn [Store.createUser fst Store.users].
      rewrite values_insert_last.
      + rewrite find_app_None by done. cbn [List.find User.username].
        by rewrite bool_decide_eq_true_2.
      + intros k Hk.
        by apply (StoreFacts.issued_below _ _ _ _ Hwf.(wf_users _)) in Hk as [_ ?].
    - cbn [Store.createUser snd User.id]. lia. }
  destruct Hfind as (user & Hfind & Hpw & Hresp & Hsess & Hnz & Hname).
  exists (Api.public user). split_and!.
  - done.
  - done.
  - unfold Api.requireAuth. rewrite Hsess. by apply truthy_id_Some_nonzero.
  - pose proof (serve_getUserByUsername _ requests _ _ Hc1 Hfind) as Hlater.
    fold server' in Hlater.
    unfold Api.handle. rewrite Hr'. unfold Api.login.
    cbn [Api.login_username Api.login_password].
    rewrite Hlater, bool_decide_eq_true_2 by done. done.
Qed.

(** X16.  A login with a valid body is answered with 401 and
    [Invalid credentials], and changes nothing, when no stored user has
    both the username and the password of the body. *)
Theorem login_needs_the_password_of_the_user
    (server : Api.Server) (req : Api.Request) (input : Api.LoginInput) :
  Api.route req = Api.POST_auth_login (Api.Valid input) →
  (∀ id user,
     Store.getUser (Api.storage server) id = Some user →
     User.username user = Api.login_username input →
     User.password user ≠ Api.login_password input) →
  Api.handle newDate parseDate server req
  = (server, Api.mkResponse 401 (Api.Message "Invalid credentials")).
Proof.
  intros Hr Hpw. unfold Api.handle. rewrite Hr. unfold Api.login.
  destruct (Store.getUserByUsername _ _) as [user|] eqn:E; [|done].
  apply getUserByUsername_Some in E as [Hname [i Hi]].
  rewrite bool_decide_eq_false_2; [done|]. by apply (Hpw i).
Qed.


(** ** The transactions that a user sees *)

Lemma createTransaction_getTransactionsByUserId this now insertTransaction userId :
  well_formed this →
  truthy_id (InsertTransaction.userId insertTransaction) ≠ Some userId →
  Store.getTransactionsByUserId (Store.createTransaction this now insertTransaction).1 userId
  = Store.getTransactionsByUserId this userId.
Proof.
  intros Hwf Hu. unfold Store.getTransactionsByUserId.
  cbn [Store.createTransaction Store.set_tables Store.tables fst].
  rewrite createTransaction_transactions, values_insert_last.
  - rewrite filter_app, filter_cons_False, filter_nil, app_nil_r; done.
  - intros k Hk.
    by apply (StoreFacts.issued_below _ _ _ _ Hwf.(wf_transactions _)) in Hk as [_ ?].
Qed.

(** X17.  A [POST /api/transactions] of one user, whatever its body, leaves
    another user logged in, leaves the list of the transactions of that
    other user as it was, and so leaves the answers to the expenses by
    category and the monthly trends of the other user as they were. *)
Theorem transactions_of_others_stay_out_of_the_analytics
    (server : Api.Server) (req req' : Api.Request)
    (body : Api.Parsed Api.CreateTransaction) (userId userId' : Z) :
  consistent server →
  Api.route req = Api.POST_transactions body →
  Api.requireAuth server req = Some userId →
  Api.requireAuth server req' = Some userId' →
  userId' ≠ userId →
  let server' := (Api.handle newDate parseDate server req).1 in
  Api.requireAuth server' req' = Some userId'
  ∧ Store.getTransactionsByUserId (Api.storage server') userId'
    = Store.getTransactionsByUserId (Api.storage server) userId'
  ∧ (Api.route req' = Api.GET_analytics_expenses_by_category
     ∨ Api.route req' = Api.GET_analytics_monthly_trends →
     (Api.handle newDate parseDate server' req').2
     = (Api.handle newDate parseDate server req').2).
Proof.
  intros [Hwf _ _ _ _] Hr Ha Ha' Hne server'.
  pose proof Ha as Hnz. apply requireAuth_Some in Hnz as [_ Hnz].
  assert (Hs : Api.sessions server' = Api.sessions server
               ∧ Store.getTransactionsByUserId (Api.storage server') userId'
                 = Store.getTransactionsByUserId (Api.storage server) userId'
               ∧ Store.getAllCategories (Api.storage server')
                 = Store.getAllCategories (Api.storage server)).
  { subst server'. unfold Api.handle, Api.guarded. rewrite Hr, Ha.
    unfold Api.postTransaction. destruct body as [data| |]; try done.
    destruct (Api.noon_of _ _) as [date|]; [|done].
    cbn [fst Api.set_storage Api.sessions Api.storage]. split_and!; [done| |].
    - apply createTransaction_getTransactionsByUserId; [done|].
      cbn [InsertTransaction.userId]. rewrite truthy_id_Some_nonzero by done. congruence.
    - unfold Store.getAllCategories.
      cbn [Store.createTransaction Store.set_tables Store.tables fst].
      by rewrite StoreFacts.createTransaction_categories. }
  destruct Hs as (Hsess & Htx & Hcat).
  assert (Ha1 : Api.requireAuth server' req' = Some userId')
    by (unfold Api.requireAuth in *; by rewrite Hsess).
  split_and!; [done|done|].
  intros [Hr'|Hr']; unfold Api.handle, Api.guarded; rewrite Hr', Ha1, Ha'.
  - unfold Api.getExpensesByCategory. cbn [snd]. by rewrite Htx, Hcat.
  - unfold Api.getMonthlyTrends. cbn [snd]. by rewrite Htx.
Qed.

Lemma transaction_enrich categoriesMap accountsMap (l : list Transaction.t) :
  Api.transaction <$> (Api.enrich categoriesMap accountsMap <$> l) = l.
Proof.
  induction l as [|t l IH]; [done|]. rewrite !fmap_cons, IH. done.
Qed.

Lemma truthy_string_nonempty (s : string) : s ≠ "" → truthy_string (Some s) = Some s.
Proof. by destruct s. Qed.

(** X18.  [GET /api/transactions] with a start and an end date that parse
    answers with the stored transactions dated in the range, of every
    user: the user of the request plays no part in the selection. *)
Theorem a_range_of_dates_lists_the_transactions_of_all_users
    (server : Api.Server) (req : Api.Request) (userId : Z)
    (startDate endDate : string) (lo hi : Date) :
  Api.route req = Api.GET_transactions (Some startDate) (Some endDate) →
  startDate ≠ "" → endDate ≠ "" →
  parseDate startDate = Some lo → parseDate endDate = Some hi →
  Api.requireAuth server req = Some userId →
  ∃ l,
    Api.handle newDate parseDate server req = (server, Api.json (Api.Transactions l))
    ∧ ∀ t, t ∈ Api.transaction <$> l ↔
           (∃ id, Store.getTransactionById (Api.storage server) id = Some t)
           ∧ (getTime lo ≤ getTime (Transaction.transactionDate t) ≤ getTime hi)%Z.
Proof.
  intros Hr Hs He Hlo Hhi Ha.
  unfold Api.handle, Api.guarded. rewrite Hr, Ha. unfold Api.getTransactions.
  rewrite !truthy_string_nonempty, Hlo, Hhi by done.
  eexists. split; [reflexivity|].
  intros t. rewrite transaction_enrich.
  unfold Store.getTransactionsByDateRange, Analytics.between, Store.getTransactionById.
  rewrite list_elem_of_filter, elem_of_values, andb_true_iff, !Z.leb_le. tauto.
Qed.

End Host.

End ApiFacts.

Module ListingFacts.

(** A [Map] built from rows with distinct ids. *)
Lemma fold_insert_lookup {A} (id_of : A → Z) (l : list A) (m : gmap Z A) (k : Z) :
  NoDup (id_of <$> l) →
  (∀ x, x ∈ l → m !! id_of x = None) →
  fold_left (λ m x, <[id_of x := x]> m) l m !! k
  = match List.find (λ x, bool_decide (id_of x = k)) l with
    | Some x => Some x
    | None => m !! k
    end.
Proof.
  revert m. induction l as [|x l IH]; intros m Hnd Hm; [done|].
  rewrite fmap_cons in Hnd. apply NoDup_cons in Hnd as [Hx Hnd].
  cbn [fold_left List.find]. rewrite IH; [|done|].
  - case_bool_decide as Hk.
    + destruct (List.find _ l) as [y|] eqn:E.
      * exfalso. apply List.find_some in E as [Hy Hyk].
        apply bool_decide_eq_true in Hyk. apply Hx.
        apply list_elem_of_fmap. exists y. split; [congruence|by apply list_elem_of_In].
      * by rewrite <- Hk, lookup_insert_eq.
    + destruct (List.find _ l); [done|]. by rewrite lookup_insert_ne.
  - intros y Hy. rewrite lookup_insert_ne.
    + apply Hm. by apply list_elem_of_further.
    + intros Heq. apply Hx. apply list_elem_of_fmap. by exists y.
Qed.

Lemma StronglySorted_lt_NoDup {A} (id_of : A → Z) (l : list A) :
  StronglySorted (λ a b, (id_of a < id_of b)%Z) l → NoDup (id_of <$> l).
Proof.
  induction 1 as [|x l Hl IH Hx]; [constructor|].
  rewrite fmap_cons. constructor; [|done].
  intros Hin. apply list_elem_of_fmap in Hin as (y & Hy & Hin).
  eapply Forall_forall in Hx; [|exact Hin]. lia.
Qed.

Lemma find_id_filter {A} (id_of : A → Z) (P : A → Prop) `{!∀ x, Decision (P x)}
    (m : gmap Z A) (next k : Z) :
  issued id_of m next →
  List.find (λ x, bool_decide (id_of x = k)) (filter P (values m))
  = match m !! k with
    | Some x => if decide (P x) then Some x else None
    | None => None
    end.
Proof.
  intros Hm. pose proof Hm as [_ Hkey].
  destruct (List.find _ _) as [x|] eqn:E.
  - apply List.find_some in E as [Hx Hk]. apply bool_decide_eq_true in Hk.
    apply list_elem_of_In, list_elem_of_filter in Hx as [HP Hx].
    apply elem_of_values in Hx as [k' Hx]. apply Hkey in Hx as Hid.
    destruct Hid as [Hid _]. assert (k' = k) as -> by congruence.
    by rewrite Hx, decide_True.
  - destruct (m !! k) as [x|] eqn:Ek; [|done].
    case_decide as HP; [|done]. exfalso.
    assert (Hin : x ∈ filter P (values m)).
    { apply list_elem_of_filter. split; [done|]. apply elem_of_values. by exists k. }
    apply (ApiFacts.find_None_elem _ _ _ E) in Hin.
    apply bool_decide_eq_false in Hin. apply Hin. by apply Hkey in Ek as [? _].
Qed.

Lemma map_of_rows {A} (id_of : A → Z) (P : A → Prop) `{!∀ x, Decision (P x)}
    (m : gmap Z A) (next k : Z) :
  issued id_of m next →
  fold_left (λ m x, <[id_of x := x]> m) (filter P (values m)) (∅ : gmap Z A) !! k
  = match m !! k with
    | Some x => if decide (P x) then Some x else None
    | None => None
    end.
Proof.
  intros Hm. rewrite fold_insert_lookup.
  - rewrite (find_id_filter id_of P m next k Hm), lookup_empty.
    destruct (m !! k); [|done]. by case_decide.
  - apply StronglySorted_lt_NoDup, StronglySorted_filter, (values_by_id id_of m next Hm).
  - intros x _. apply lookup_empty.
Qed.

Lemma categoriesMap_getAllCategories this k :
  well_formed this →
  Analytics.categoriesMap (Store.getAllCategories this) !! k = Store.getCategoryById this k.
Proof.
  intros Hwf. unfold Analytics.categoriesMap, Store.getAllCategories, Store.getCategoryById.
  pose proof (map_of_rows Category.id (λ _ : Category.t, True) _ _ k
                (wf_categories _ Hwf)) as H.
  assert (Hall : filter (λ _ : Category.t, True) (values (categories (Store.tables this)))
                 = values (categories (Store.tables this))).
  { clear. induction (values _) as [|x l IH]; [done|]. by rewrite filter_cons_True, IH. }
  rewrite Hall in H. rewrite H.
  destruct (categories (Store.tables this) !! k); [by rewrite decide_True|done].
Qed.

Lemma accountsMap_getAccountsByUserId this userId k :
  well_formed this →
  Api.accountsMap (Store.getAccountsByUserId this userId) !! k
  = match Store.getAccountById this k with
    | Some account =>
        if decide (Account.userId account = Some userId) then Some account else None
    | None => None
    end.
Proof.
  intros Hwf. unfold Api.accountsMap, Store.getAccountsByUserId, Store.getAccountById.
  apply (map_of_rows Account.id _ _ _ k (wf_accounts _ Hwf)).
Qed.


(** X19.  [deleteCategory] leaves the transactions as they are; in a
    well-formed store the expenses by category then put a transaction of
    the deleted category under [Sin categoría], and every other
    transaction under the name it had. *)
Theorem expenses_of_a_deleted_category_are_uncategorized
    (this : Store.t) (id : Z) (t : Transaction.t) :
  well_formed this →
  Transaction.categoryId t = Some id →
  let this' := (Store.deleteCategory this id).1 in
  transactions (Store.tables this') = transactions (Store.tables this)
  ∧ Analytics.categoryName (Analytics.categoriesMap (Store.getAllCategories this')) t
    = Analytics.Sin_categoria
  ∧ ∀ t', Transaction.categoryId t' ≠ Some id →
          Analytics.categoryName (Analytics.categoriesMap (Store.getAllCategories this')) t'
          = Analytics.categoryName (Analytics.categoriesMap (Store.getAllCategories this)) t'.
Proof.
  intros Hwf Hid this'.
  assert (Hwf' : well_formed this')
    by apply (StoreFacts.exec_well_formed this (Store.DeleteCategory id) Hwf).
  split_and!.
  - done.
  - unfold Analytics.categoryName. rewrite Hid.
    destruct (truthy_id (Some id)) as [k|] eqn:E; [|done].
    apply truthy_id_Some in E as [[= <-] _].
    rewrite categoriesMap_getAllCategories by done.
    unfold Store.getCategoryById. subst this'.
    cbn [Store.deleteCategory Store.set_categories Store.set_tables Store.tables fst
         categories].
    by rewrite lookup_delete_eq.
  - intros t' Hne. unfold Analytics.categoryName.
    destruct (truthy_id (Transaction.categoryId t')) as [k|] eqn:E; [|done].
    apply truthy_id_Some in E as [E _].
    rewrite !categoriesMap_getAllCategories by done.
    unfold Store.getCategoryById. subst this'.
    cbn [Store.deleteCategory Store.set_categories Store.set_tables Store.tables fst
         categories].
    rewrite lookup_delete_ne; [done|]. congruence.
Qed.

Section Host.
Context (newDate : Z → Z → Z → Date) (parseDate : string → option Date).

(** X20.  [GET /api/transactions] answers, for a well-formed store, with
    transactions that each carry the category stored under their
    category id and the account stored under their account id if that
    account is of the user of the request, and no account otherwise;
    without both dates the transactions are those of the user, the
    latest first. *)
Theorem transactions_are_listed_with_the_accounts_of_the_user
    (server : Api.Server) (req : Api.Request) (userId : Z)
    (startDate endDate : option string) :
  well_formed (Api.storage server) →
  Api.route req = Api.GET_transactions startDate endDate →
  Api.requireAuth server req = Some userId →
  ∃ l,
    Api.handle newDate parseDate server req = (server, Api.json (Api.Transactions l))
    ∧ l = details (Api.storage server) userId <$> (Api.transaction <$> l)
    ∧ (truthy_string startDate = None ∨ truthy_string endDate = None →
       Api.transaction <$> l
       = Store.getTransactionsByUserId (Api.storage server) userId).
Proof.
  intros Hwf Hr Ha. unfold Api.handle, Api.guarded. rewrite Hr, Ha.
  unfold Api.getTransactions. eexists. split; [reflexivity|].
  rewrite ApiFacts.transaction_enrich. split.
  - apply list_fmap_ext. intros i t _. unfold Api.enrich, details. f_equal.
    + destruct (truthy_id (Transaction.categoryId t)); [|done].
      by apply categoriesMap_getAllCategories.
    + destruct (truthy_id (Transaction.accountId t)); [|done].
      by apply accountsMap_getAccountsByUserId.
  - intros [H|H]; rewrite H; [done|]. by destruct (truthy_string startDate).
Qed.

End Host.

End ListingFacts.

Module ClientFacts.

Section Host.
Context (newDate : Z → Z → Z → Date) (parseDate : string → option Date).

(** What a creation through the route does to the server. *)
Lemma post_transaction server req userId data date :
  Api.route req = Api.POST_transactions (Api.Valid data) →
  Api.sessions server !! Api.session req = Some userId →
  userId ≠ 0%Z →
  parseDate (Api.transactionDate data +:+ "T12:00:00.000Z") = Some date →
  let server' := (Api.handle newDate parseDate server req).1 in
  let row :=
    posted_row (currentTransactionId (Store.tables (Api.storage server)))
      (Api.now req) date userId data in
  Api.sessions server' = Api.sessions server
  ∧ (Api.handle newDate parseDate server req).2
    = Api.mkResponse 201 (Api.OneTransaction row)
  ∧ transactions (Store.tables (Api.storage server'))
    = <[Transaction.id row := row]> (transactions (Store.tables (Api.storage server)))
  ∧ accounts (Store.tables (Api.storage server'))
    = match truthy_id (Api.accountId data) with
      | Some accountId =>
          match accounts (Store.tables (Api.storage server)) !! accountId with
          | Some account =>
              <[accountId :=
                  Account.with_balance account
                    (binary_post (Api.type data) (Account.balance account)
                       (Api.amount data))]>
                (accounts (Store.tables (Api.storage server)))
          | None => accounts (Store.tables (Api.storage server))
          end
      | None => accounts (Store.tables (Api.storage server))
      end.
Proof.
  intros Hr Hs Hnz Hd server' row. subst server' row.
  assert (Ha : Api.requireAuth server req = Some userId).
  { unfold Api.requireAuth. rewrite Hs. by apply ApiFacts.truthy_id_Some_nonzero. }
  unfold Api.handle, Api.guarded. rewrite Hr, Ha. unfold Api.postTransaction, Api.noon_of.
  rewrite Hd. cbn [fst snd Api.set_storage Api.sessions Api.storage].
  cbn [Store.createTransaction Store.set_tables Store.tables fst snd].
  rewrite createTransaction_transactions, createTransaction_accounts.
  split_and!; try done.
Qed.

Lemma marked_transfer id now date userId data :
  Api.thirdParty data = Some "Transferencia" →
  Analytics.marked (posted_row id now date userId data).
Proof. intros H. left. cbn. by rewrite H. Qed.

(** X21.  The dialog posts a transfer as an expense of the source account
    and an income of the destination account.  When the server has
    handled the two requests, in either order, the balance of the source
    is down by the amount, the balance of the destination is up by it,
    no other account has changed, and every transaction that was not
    there before is marked as a transfer, so that the analytics leave it
    out.  The accounts are distinct and stored, and the balances and the
    amount carry two decimals and fit 15 digits. *)
Theorem a_transfer_moves_the_amount_between_the_accounts
    (server : Api.Server) (session : Z) (now1 now2 : Date) (userId fromId toId : Z)
    (fromAccount toAccount : Account.t) (amount : Number.decimal)
    (notes transactionDate : string) (date : Date) (requests : list Api.Request) :
  let outgoing :=
    Api.mkRequest session now1
      (Api.POST_transactions
         (Api.Valid (Client.outgoingTransaction amount fromId toAccount notes
                       transactionDate))) in
  let incoming :=
    Api.mkRequest session now2
      (Api.POST_transactions
         (Api.Valid (Client.incomingTransaction amount toId fromAccount notes
                       transactionDate))) in
  requests = [outgoing; incoming] ∨ requests = [incoming; outgoing] →
  Api.sessions server !! session = Some userId →
  userId ≠ 0%Z →
  Store.getAccountById (Api.storage server) fromId = Some fromAccount →
  Store.getAccountById (Api.storage server) toId = Some toAccount →
  fromId ≠ toId → fromId ≠ 0%Z → toId ≠ 0%Z →
  decimal_15_2 (Account.balance fromAccount) →
  decimal_15_2 (Account.balance toAccount) →
  decimal_15_2 amount →
  parseDate (transactionDate +:+ "T12:00:00.000Z") = Some date →
  let server' := Api.serve newDate parseDate server requests in
  accounts (Store.tables (Api.storage server'))
  = <[toId :=
        Account.with_balance toAccount
          (Number.Decimal
             (Number.unscaled (Account.balance toAccount) + Number.unscaled amount) 2)]>
      (<[fromId :=
           Account.with_balance fromAccount
             (Number.Decimal
                (Number.unscaled (Account.balance fromAccount) - Number.unscaled amount)
                2)]>
         (accounts (Store.tables (Api.storage server))))
  ∧ ∀ id t,
      Store.getTransactionById (Api.storage server') id = Some t →
      Store.getTransactionById (Api.storage server) id = Some t ∨ Analytics.marked t.
Proof.
  intros outgoing incoming Hreq Hs Hnz Hfrom Hto Hne Hfz Htz [Hsf Hbf] [Hst Hbt] [Hsa Hba]
         Hd server'.
  unfold Store.getAccountById, Store.getTransactionById in *.
  assert (Hout : binary_post expense (Account.balance fromAccount) amount
                 = Number.Decimal
                     (Number.unscaled (Account.balance fromAccount)
                      - Number.unscaled amount) 2).
  { rewrite (decimal_scale2 _ Hsf), (decimal_scale2 _ Hsa). cbn [Number.unscaled].
    apply (create_balance_exact expense). simpl. lia. }
  assert (Hinc : binary_post income (Account.balance toAccount) amount
                 = Number.Decimal
                     (Number.unscaled (Account.balance toAccount)
                      + Number.unscaled amount) 2).
  { rewrite (decimal_scale2 _ Hst), (decimal_scale2 _ Hsa). cbn [Number.unscaled].
    apply (create_balance_exact income). simpl. lia. }
  destruct Hreq as [-> | ->]; subst server'; cbn [Api.serve fold_left].
  - pose proof (post_transaction server outgoing userId _ date eq_refl Hs Hnz Hd)
      as (Hs1 & _ & Ht1 & Ha1).
    set (server1 := (Api.handle newDate parseDate server outgoing).1) in *.
    pose proof (post_transaction server1 incoming userId _ date eq_refl
                  ltac:(by rewrite Hs1) Hnz Hd) as (Hs2 & _ & Ht2 & Ha2).
    set (server2 := (Api.handle newDate parseDate server1 incoming).1) in *.
    cbn [Client.outgoingTransaction Client.incomingTransaction Api.accountId Api.type
         Api.amount] in Ha1, Ha2.
    rewrite (ApiFacts.truthy_id_Some_nonzero _ Hfz), Hfrom, Hout in Ha1.
    rewrite (ApiFacts.truthy_id_Some_nonzero _ Htz), Ha1,
      lookup_insert_ne, Hto, Hinc in Ha2 by done.
    split; [exact Ha2|].
    intros id t. rewrite Ht2, Ht1. intros Hk.
    apply lookup_insert_Some in Hk as [[_ <-]|[_ Hk]]; [right; by apply marked_transfer|].
    apply lookup_insert_Some in Hk as [[_ <-]|[_ Hk]]; [right; by apply marked_transfer|].
    by left.
  - pose proof (post_transaction server incoming userId _ date eq_refl Hs Hnz Hd)
      as (Hs1 & _ & Ht1 & Ha1).
    set (server1 := (Api.handle newDate parseDate server incoming).1) in *.
    pose proof (post_transaction server1 outgoing userId _ date eq_refl
                  ltac:(by rewrite Hs1) Hnz Hd) as (Hs2 & _ & Ht2 & Ha2).
    set (server2 := (Api.handle newDate parseDate server1 outgoing).1) in *.
    cbn [Client.outgoingTransaction Client.incomingTransaction Api.accountId Api.type
         Api.amount] in Ha1, Ha2.
    rewrite (ApiFacts.truthy_id_Some_nonzero _ Htz), Hto, Hinc in Ha1.
    rewrite (ApiFacts.truthy_id_Some_nonzero _ Hfz), Ha1,
      lookup_insert_ne, Hfrom, Hout in Ha2 by done.
    split; [by rewrite Ha2, insert_insert_ne|].
    intros id t. rewrite Ht2, Ht1. intros Hk.
    apply lookup_insert_Some in Hk as [[_ <-]|[_ Hk]]; [right; by apply marked_transfer|].
    apply lookup_insert_Some in Hk as [[_ <-]|[_ Hk]]; [right; by apply marked_transfer|].
    by left.
Qed.

End Host.

Lemma includes_credit (name : string) :
  Analytics.includes Analytics.Pago_de_prestamo ("Pago de crédito: " +:+ name)
  = Analytics.includes Analytics.Pago_de_prestamo name.
Proof. reflexivity. Qed.

(** X22.  The row that the server stores for a payment of the dialog is left
    out of the analytics when the account paid is of type loan: its
    description starts with [Pago de préstamo].  For a credit, the other
    type that the dialog admits, the description starts with
    [Pago de crédito], and the row counts as an expense unless the name
    of the account contains [Pago de préstamo]. *)
Theorem a_payment_counts_as_an_expense_for_a_credit_only
    (id : Z) (now date : Date) (userId fromAccountId : Z) (amount : Number.decimal)
    (toLoan : Account.t) (notes transactionDate : string) :
  let row :=
    posted_row id now date userId
      (Client.paymentTransaction amount fromAccountId toLoan notes transactionDate) in
  (Account.type toLoan = "loan" → Analytics.marked row)
  ∧ (Account.type toLoan ≠ "loan" →
     Analytics.counts_as expense row
     = negb (Analytics.includes Analytics.Pago_de_prestamo (Account.name toLoan))).
Proof.
  intros row. subst row. split.
  - intros Hty. right. cbn [posted_row Transaction.description Api.description
                              Client.paymentTransaction].
    unfold Client.debt. rewrite decide_True by done. reflexivity.
  - intros Hty. unfold Analytics.counts_as.
    cbn [posted_row Transaction.description Transaction.type Transaction.thirdParty
         Api.description Api.type Api.thirdParty Client.paymentTransaction].
    unfold Client.debt. rewrite decide_False by done.
    change ("Pago de " +:+ "crédito" +:+ ": " +:+ Account.name toLoan)
      with ("Pago de crédito: " +:+ Account.name toLoan).
    rewrite includes_credit. reflexivity.
Qed.

End ClientFacts.

(* ===================================================================== *)
(** * Further facts about the routes and the dialog                       *)
(* ===================================================================== *)

Module RouteFacts.

(** [toFixed(2)] gives a numeral of the sign of the number. *)
Lemma toFixed2_sign (v : Q) :
  (Number.gtb v 0 = true → (0 ≤ Number.unscaled (Number.toFixed 2 v))%Z)
  ∧ (Number.gtb v 0 = false → (Number.unscaled (Number.toFixed 2 v) ≤ 0)%Z).
Proof.
  unfold Number.gtb, Number.toFixed, Number.ltb. cbn [Number.unscaled].
  change (inject_Z (10 ^ Z.of_nat 2)) with 100%Q.
  split; intros Hv.
  - apply negb_true_iff in Hv.
    assert (Hpos : (0 < v)%Q).
    { apply Qnot_le_lt. intros Hle. apply Qle_bool_iff in Hle. congruence. }
    assert (Hle : Qle_bool 0 v = true) by (apply Qle_bool_iff; lra).
    rewrite Hle. cbn [negb].
    change 0%Z with (Qfloor 0). apply Qfloor_resp_le. lra.
  - apply negb_false_iff in Hv. apply Qle_bool_iff in Hv.
    destruct (Qle_bool 0 v) eqn:E; cbn [negb].
    + apply Qle_bool_iff in E.
      pose proof (Qfloor_le (v * 100 + (1 # 2))) as Hf.
      assert (Hlt : (inject_Z (Qfloor (v * 100 + (1 # 2))) < inject_Z 1)%Q).
      { change (inject_Z 1) with 1%Q. lra. }
      rewrite <- Zlt_Qlt in Hlt. lia.
    + assert (0 ≤ Qfloor (- v * 100 + (1 # 2)))%Z; [|lia].
      change 0%Z with (Qfloor 0). apply Qfloor_resp_le. lra.
Qed.

(** The balance that the dialog sends for the account paid, on cents. *)
Lemma newLoanBalance_exact (toLoan : Account.t) (amount : Number.decimal) :
  decimal_15_2 (Account.balance toLoan) →
  decimal_15_2 amount →
  Client.newLoanBalance toLoan amount
  = Number.Decimal
      (Z.max 0 (Number.unscaled (Account.balance toLoan) - Number.unscaled amount)) 2.
Proof.
  intros [Hsl Hl] [Hsa Ha]. unfold Client.newLoanBalance.
  rewrite (decimal_scale2 _ Hsl), (decimal_scale2 _ Hsa). cbn [Number.unscaled].
  set (l := Number.unscaled (Account.balance toLoan)) in *.
  set (a := Number.unscaled amount) in *.
  pose proof (NumberFacts.posting_exact false l a ltac:(lia)) as H. cbn beta iota in H.
  set (v := Number.sub _ _) in *.
  destruct (toFixed2_sign v) as [Hp Hn].
  destruct (Number.gtb v 0) eqn:E.
  - rewrite H. f_equal. specialize (Hp eq_refl). rewrite H in Hp. simpl in Hp. lia.
  - specialize (Hn eq_refl). rewrite H in Hn. simpl in Hn.
    replace (Z.max 0 (l - a)) with 0%Z by lia. reflexivity.
Qed.

Section Host.
Context (newDate : Z → Z → Z → Date) (parseDate : string → option Date).

(** A request that finds no user in its session is answered with 401. *)
Lemma handle_without_a_user server req :
  Api.open (Api.route req) = false →
  Api.requireAuth server req = None →
  Api.handle newDate parseDate server req = (server, Api.unauthenticated).
Proof.
  intros Ho Ha. unfold Api.handle, Api.guarded. rewrite Ha.
  by destruct (Api.route req).
Qed.

(** X23.  A logout leaves the store as it is and closes the session: until
    the session logs in again, every route other than login, logout and
    register answers it with 401; the other sessions stay as they are. *)
Theorem logout_closes_the_session (server : Api.Server) (req : Api.Request) :
  Api.route req = Api.POST_auth_logout →
  let server' := (Api.handle newDate parseDate server req).1 in
  Api.storage server' = Api.storage server
  ∧ (∀ req', Api.session req' = Api.session req →
             Api.open (Api.route req') = false →
             Api.handle newDate parseDate server' req' = (server', Api.unauthenticated))
  ∧ (∀ req', Api.session req' ≠ Api.session req →
             Api.requireAuth server' req' = Api.requireAuth server req').
Proof.
  intros Hr server'.
  assert (Hh : server'
               = Api.mkServer (Api.storage server)
                   (delete (Api.session req) (Api.sessions server))).
  { subst server'. unfold Api.handle. by rewrite Hr. }
  rewrite Hh. clear Hh server'. cbn [Api.storage]. split_and!; [done| |].
  - intros req' Hs Ho. apply handle_without_a_user; [done|].
    unfold Api.requireAuth. cbn [Api.sessions]. by rewrite Hs, lookup_delete_eq.
  - intros req' Hs. unfold Api.requireAuth. cbn [Api.sessions].
    by rewrite lookup_delete_ne.
Qed.

(** X24.  A transaction that one user posts can be deleted by any user that
    is logged in: the deletion is answered with 200, and afterwards the
    accounts and the transactions are those before the creation; no
    route checks the owner.  The store is well formed, and the amount and
    the balance of the account carry two decimals and fit 15 digits. *)
Theorem a_posted_transaction_can_be_deleted_by_any_user
    (server : Api.Server) (req req' : Api.Request) (userId userId' : Z)
    (data : Api.CreateTransaction) (date : Date) :
  well_formed (Api.storage server) →
  Api.route req = Api.POST_transactions (Api.Valid data) →
  Api.requireAuth server req = Some userId →
  parseDate (Api.transactionDate data +:+ "T12:00:00.000Z") = Some date →
  decimal_15_2 (Api.amount data) →
  (∀ accountId account,
     Api.accountId data = Some accountId →
     Store.getAccountById (Api.storage server) accountId = Some account →
     decimal_15_2 (Account.balance account)
     ∧ (Z.abs (post (Api.type data) (Number.unscaled (Account.balance account))
                 (Number.unscaled (Api.amount data))) ≤ 999999999999999)%Z) →
  let id := currentTransactionId (Store.tables (Api.storage server)) in
  let posted := Api.handle newDate parseDate server req in
  Api.route req' = Api.DELETE_transactions (Some id) →
  Api.requireAuth server req' = Some userId' →
  let deleted := Api.handle newDate parseDate posted.1 req' in
  posted.2
  = Api.mkResponse 201 (Api.OneTransaction (posted_row id (Api.now req) date userId data))
  ∧ deleted.2 = Api.json (Api.Message "Transaction deleted successfully")
  ∧ accounts (Store.tables (Api.storage deleted.1))
    = accounts (Store.tables (Api.storage server))
  ∧ transactions (Store.tables (Api.storage deleted.1))
    = transactions (Store.tables (Api.storage server))
  ∧ Api.sessions deleted.1 = Api.sessions server.
Proof.
  intros Hwf Hr Ha Hd [Hsx Hx] Hacc id posted Hr' Ha' deleted.
  apply ApiFacts.requireAuth_Some in Ha as [Hs Hnz].
  pose proof (ClientFacts.post_transaction newDate parseDate server req userId data date
                Hr Hs Hnz Hd) as (Hs1 & Hres & Ht1 & Ha1).
  fold posted in Hs1, Hres, Ht1, Ha1. cbn [Transaction.id posted_row] in Ht1.
  fold id in Hres, Ht1.
  set (row := posted_row id (Api.now req) date userId data) in *.
  assert (Hfresh : transactions (Store.tables (Api.storage server)) !! id = None).
  { apply (StoreFacts.issued_fresh Transaction.id), Hwf. }
  assert (Ha1' : Api.requireAuth posted.1 req' = Some userId').
  { unfold Api.requireAuth in *. by rewrite Hs1. }
  assert (Hrow : transactions (Store.tables (Api.storage posted.1)) !! id = Some row).
  { by rewrite Ht1, lookup_insert_eq. }
  assert (Hdel : (deleteTransaction (Store.tables (Api.storage posted.1)) id).2 = true).
  { unfold deleteTransaction. by rewrite Hrow. }
  assert (Hh : deleted
               = (Api.set_storage posted.1
                    (Store.set_tables (Api.storage posted.1)
                       (deleteTransaction (Store.tables (Api.storage posted.1)) id).1),
                  Api.json (Api.Message "Transaction deleted successfully"))).
  { subst deleted. unfold Api.handle, Api.guarded. rewrite Hr', Ha1'.
    unfold Api.deleteTransaction.
    cbn [Store.deleteTransaction Store.set_tables Store.tables fst snd].
    by rewrite Hdel. }
  rewrite Hh. clear Hh deleted.
  cbn [fst snd Api.set_storage Api.storage Api.sessions Store.tables Store.set_tables].
  split_and!; [done|done| | |done].
  - rewrite deleteTransaction_accounts, Hrow.
    cbn [row posted_row Transaction.accountId Transaction.type Transaction.amount].
    rewrite truthy_id_idemp, Ha1.
    destruct (truthy_id (Api.accountId data)) as [accountId|] eqn:Et; [|done].
    apply truthy_id_Some in Et as [Et Hz].
    destruct (accounts (Store.tables (Api.storage server)) !! accountId)
      as [account|] eqn:Eacc.
    + destruct (Hacc accountId account Et Eacc) as [[Hsb Hb] Hp].
      rewrite lookup_insert_eq, insert_insert_eq.
      rewrite <- (insert_id _ _ _ Eacc) at 2. f_equal.
      rewrite balance_with_balance.
      rewrite (decimal_scale2 _ Hsb), (decimal_scale2 _ Hsx).
      rewrite create_balance_exact by (cbn [Number.unscaled]; lia).
      rewrite delete_balance_exact.
      * destruct account as [i n ty [b s] bn an u]. cbn in *. subst s.
        unfold Account.with_balance. cbn. do 2 f_equal.
        destruct (Api.type data); cbn; lia.
      * cbn [Number.unscaled].
        destruct (Api.type data); cbn [post unpost] in *; lia.
    + by rewrite Eacc.
  - rewrite deleteTransaction_transactions, Ht1. by rewrite delete_insert_id.
Qed.

(** X25.  [POST /api/accounts] with a valid body is answered with 201 and
    the new account: it takes the next id, it is of the user of the
    request, and its balance is that of the body, or 0.00 for an empty
    one.  [GET /api/accounts] then lists it last for that user, and the
    accounts of every other user are listed as before. *)
Theorem a_created_account_is_listed_for_its_user
    (server : Api.Server) (req : Api.Request) (userId : Z) (data : Api.CreateAccount) :
  well_formed (Api.storage server) →
  Api.route req = Api.POST_accounts (Api.Valid data) →
  Api.requireAuth server req = Some userId →
  let posted := Api.handle newDate parseDate server req in
  ∃ account,
    posted.2 = Api.mkResponse 201 (Api.OneAccount account)
    ∧ Account.id account = Store.currentAccountId (Api.storage server)
    ∧ Account.userId account = Some userId
    ∧ Account.balance account
      = default (Number.Decimal 0 2) (Api.account_balance data)
    ∧ (∀ req', Api.route req' = Api.GET_accounts →
               Api.requireAuth posted.1 req' = Some userId →
               Api.handle newDate parseDate posted.1 req'
               = (posted.1,
                  Api.json
                    (Api.Accounts
                       (Store.getAccountsByUserId (Api.storage server) userId
                        ++ [account]))))
    ∧ (∀ userId', userId' ≠ userId →
                  Store.getAccountsByUserId (Api.storage posted.1) userId'
                  = Store.getAccountsByUserId (Api.storage server) userId').
Proof.
  intros Hwf Hr Ha posted.
  pose proof (ApiFacts.requireAuth_Some _ _ _ Ha) as [Hs Hnz].
  set (accountData :=
         InsertAccount.mk (Api.account_name data) (Api.account_type data)
           (Api.account_balance data) (Api.account_bankName data)
           (Api.account_accountNumber data) (Some userId)).
  set (r := Store.createAccount (Api.storage server) accountData).
  assert (Hh : posted = (Api.set_storage server r.1, Api.mkResponse 201 (Api.OneAccount r.2))).
  { subst posted. unfold Api.handle, Api.guarded. by rewrite Hr, Ha. }
  assert (Hlist : ∀ u,
             Store.getAccountsByUserId r.1 u
             = Store.getAccountsByUserId (Api.storage server) u
               ++ (if decide (u = userId) then [r.2] else [])).
  { intros u. unfold Store.getAccountsByUserId. subst r.
    cbn [Store.createAccount fst snd Store.tables accounts].
    rewrite values_insert_last.
    - rewrite filter_app. f_equal.
      cbn [InsertAccount.userId accountData].
      rewrite (ApiFacts.truthy_id_Some_nonzero _ Hnz).
      destruct (decide (u = userId)) as [->|Hne].
      + by rewrite filter_cons_True.
      + rewrite filter_cons_False; [done|]. cbn. congruence.
    - intros k Hk.
      by apply (StoreFacts.issued_below _ _ _ _ Hwf.(wf_accounts _)) in Hk as [_ ?]. }
  exists r.2. rewrite Hh. cbn [fst snd]. split_and!; try done.
  - cbn. by apply ApiFacts.truthy_id_Some_nonzero.
  - intros req' Hr' Ha'. unfold Api.handle, Api.guarded. rewrite Hr', Ha'.
    cbn [Api.set_storage Api.storage].
    by rewrite Hlist, decide_True.
  - intros userId' Hne. cbn [Api.set_storage Api.storage].
    by rewrite Hlist, decide_False, app_nil_r.
Qed.

(** The rows of the transactions after a call of a route: a row that was
    there, with its id, its owner and its date of creation, or the row of
    the next id. *)
Lemma exec_rows this c k t' :
  of_a_route c →
  transactions (Store.tables (Store.exec this c)) !! k = Some t' →
  (∃ t, transactions (Store.tables this) !! k = Some t
        ∧ Transaction.id t' = Transaction.id t
        ∧ Transaction.userId t' = Transaction.userId t
        ∧ Transaction.createdAt t' = Transaction.createdAt t)
  ∨ k = currentTransactionId (Store.tables this).
Proof.
  intros [Hc Hu].
  assert (Hsame : transactions (Store.tables this) !! k = Some t' →
                  ∃ t, transactions (Store.tables this) !! k = Some t
                       ∧ Transaction.id t' = Transaction.id t
                       ∧ Transaction.userId t' = Transaction.userId t
                       ∧ Transaction.createdAt t' = Transaction.createdAt t)
    by (intros; by exists t').
  destruct c; try done; cbn [Store.exec].
  - intros Hk; left; by apply Hsame.
  - unfold Store.updateCategory. destruct (categories (Store.tables this) !! id);
      intros Hk; left; by apply Hsame.
  - intros Hk; left; by apply Hsame.
  - intros Hk; left; by apply Hsame.
  - unfold Store.updateAccount. destruct (accounts (Store.tables this) !! id);
      intros Hk; left; by apply Hsame.
  - intros Hk; left; by apply Hsame.
  - cbn [Store.createTransaction Store.set_tables Store.tables fst].
    rewrite createTransaction_transactions. intros Hk.
    apply lookup_insert_Some in Hk as [[<- _]|[_ Hk]]; [by right|left; by apply Hsame].
  - cbn [Store.updateTransaction Store.set_tables Store.tables fst].
    unfold updateTransaction.
    destruct (transactions (Store.tables this) !! id) as [t0|] eqn:E; cbn [fst transactions];
      [|intros Hk; left; by apply Hsame].
    intros Hk. apply lookup_insert_Some in Hk as [[<- <-]|[_ Hk]]; [|left; by apply Hsame].
    left. exists t0. split; [done|]. unfold patch. cbn. by rewrite Hu.
  - cbn [Store.deleteTransaction Store.set_tables Store.tables fst].
    rewrite deleteTransaction_transactions. intros Hk.
    apply lookup_delete_Some in Hk as [_ Hk]. left; by apply Hsame.
  - intros Hk; left; by apply Hsame.
  - unfold Store.updateTelegramConfig. destruct (Store.telegramConfigs this !! id);
      intros Hk; left; by apply Hsame.
Qed.

Lemma handle_rows server req k t' :
  transactions (Store.tables (Api.storage (Api.handle newDate parseDate server req).1)) !! k
  = Some t' →
  (∃ t, transactions (Store.tables (Api.storage server)) !! k = Some t
        ∧ Transaction.id t' = Transaction.id t
        ∧ Transaction.userId t' = Transaction.userId t
        ∧ Transaction.createdAt t' = Transaction.createdAt t)
  ∨ k = currentTransactionId (Store.tables (Api.storage server)).
Proof.
  destruct (ApiFacts.handle_storage newDate parseDate server req)
    as [->|[(c & Hc & ->)|(now & ins & _ & ->)]].
  - intros Hk. left. by exists t'.
  - by apply exec_rows.
  - intros Hk. left. by exists t'.
Qed.

Lemma handle_well_formed server req :
  well_formed (Api.storage server) →
  well_formed (Api.storage (Api.handle newDate parseDate server req).1)
  ∧ not_before (Api.storage server) (Api.storage (Api.handle newDate parseDate server req).1).
Proof.
  intros Hwf.
  destruct (ApiFacts.handle_storage newDate parseDate server req)
    as [->|[(c & Hc & ->)|(now & ins & _ & ->)]].
  - split; [done|apply StoreFacts.not_before_refl].
  - split; [by apply StoreFacts.exec_well_formed|apply StoreFacts.exec_not_before].
  - split.
    + by apply (StoreFacts.exec_well_formed _ (Store.CreateUser now ins)).
    + apply (StoreFacts.exec_not_before _ (Store.CreateUser now ins)).
Qed.

Lemma serve_rows server requests :
  well_formed (Api.storage server) →
  let server' := Api.serve newDate parseDate server requests in
  not_before (Api.storage server) (Api.storage server')
  ∧ ∀ k t',
      transactions (Store.tables (Api.storage server')) !! k = Some t' →
      (k < currentTransactionId (Store.tables (Api.storage server)))%Z →
      ∃ t, transactions (Store.tables (Api.storage server)) !! k = Some t
           ∧ Transaction.id t' = Transaction.id t
           ∧ Transaction.userId t' = Transaction.userId t
           ∧ Transaction.createdAt t' = Transaction.createdAt t.
Proof.
  revert server. induction requests as [|req requests IH]; intros server Hwf; cbn.
  - split; [apply StoreFacts.not_before_refl|]. intros k t' Hk _. by exists t'.
  - destruct (handle_well_formed server req Hwf) as [Hwf1 Hnb1].
    destruct (IH _ Hwf1) as [Hnb Hrows]. split.
    + eapply StoreFacts.not_before_trans; [exact Hnb1|exact Hnb].
    + intros k t' Hk Hlt.
      destruct (Hrows k t' Hk) as (t1 & Hk1 & Hid & Hu & Hc).
      { destruct Hnb1 as (_ & _ & _ & ? & _). lia. }
      apply handle_rows in Hk1 as [(t & Hk0 & Hid0 & Hu0 & Hc0)|Heq]; [|lia].
      exists t. split; [done|]. split_and!; congruence.
Qed.

(** X26.  Whatever requests the server handles, a transaction that is
    stored under an id and is still stored under it afterwards has kept
    its id, its owner and its date of creation: no route changes them,
    and no id is given to a second transaction. *)
Theorem a_transaction_keeps_its_owner
    (server : Api.Server) (requests : list Api.Request) (id : Z) (t t' : Transaction.t) :
  well_formed (Api.storage server) →
  Store.getTransactionById (Api.storage server) id = Some t →
  Store.getTransactionById (Api.storage (Api.serve newDate parseDate server requests)) id
  = Some t' →
  Transaction.id t' = id
  ∧ Transaction.userId t' = Transaction.userId t
  ∧ Transaction.createdAt t' = Transaction.createdAt t.
Proof.
  unfold Store.getTransactionById. intros Hwf Hk Hk'.
  destruct (Hwf.(wf_transactions _)) as [_ Hids].
  destruct (Hids _ _ Hk) as [Hid Hlt].
  destruct (serve_rows server requests Hwf) as [_ Hrows].
  destruct (Hrows id t' Hk' ltac:(lia)) as (t0 & Hk0 & ? & ? & ?).
  assert (t0 = t) as -> by congruence.
  split_and!; congruence.
Qed.

(** X27.  The dialog pays a loan or a credit with a transaction of the
    source account and an update of the balance of the account paid.
    When the server has handled the two requests, the balance of the
    source is down by the amount, the balance of the account paid is its
    balance less the amount, or 0.00 if that is negative, and no other
    account has changed.  The accounts are distinct and stored as the
    dialog knows them, and the balances and the amount carry two decimals
    and fit 15 digits. *)
Theorem a_payment_lowers_the_debt
    (server : Api.Server) (session : Z) (now1 now2 : Date) (userId fromId toId : Z)
    (fromAccount toLoan : Account.t) (amount : Number.decimal)
    (notes transactionDate : string) (date : Date) :
  let payment :=
    Api.mkRequest session now1
      (Api.POST_transactions
         (Api.Valid (Client.paymentTransaction amount fromId toLoan notes transactionDate))) in
  let update :=
    Api.mkRequest session now2
      (Api.PUT_accounts (Some toId) (Api.Valid (Client.loanUpdate toLoan amount))) in
  Api.sessions server !! session = Some userId →
  userId ≠ 0%Z →
  Store.getAccountById (Api.storage server) fromId = Some fromAccount →
  Store.getAccountById (Api.storage server) toId = Some toLoan →
  fromId ≠ toId → fromId ≠ 0%Z →
  decimal_15_2 (Account.balance fromAccount) →
  decimal_15_2 (Account.balance toLoan) →
  decimal_15_2 amount →
  parseDate (transactionDate +:+ "T12:00:00.000Z") = Some date →
  let paid :=
    Account.with_balance toLoan
      (Number.Decimal
         (Z.max 0 (Number.unscaled (Account.balance toLoan) - Number.unscaled amount)) 2) in
  let server1 := (Api.handle newDate parseDate server payment).1 in
  Api.handle newDate parseDate server1 update
  = (Api.serve newDate parseDate server [payment; update], Api.json (Api.OneAccount paid))
  ∧ accounts (Store.tables (Api.storage (Api.serve newDate parseDate server [payment; update])))
    = <[toId := paid]>
        (<[fromId :=
             Account.with_balance fromAccount
               (Number.Decimal
                  (Number.unscaled (Account.balance fromAccount) - Number.unscaled amount)
                  2)]>
           (accounts (Store.tables (Api.storage server)))).
Proof.
  intros payment update Hs Hnz Hfrom Hto Hne Hfz [Hsf Hbf] Hl [Hsa Hba] Hd paid server1.
  unfold Store.getAccountById in *.
  pose proof (ClientFacts.post_transaction newDate parseDate server payment userId _ date
                eq_refl Hs Hnz Hd) as (Hs1 & _ & _ & Ha1).
  fold server1 in Hs1, Ha1.
  cbn [Client.paymentTransaction Api.accountId Api.type Api.amount] in Ha1.
  rewrite (ApiFacts.truthy_id_Some_nonzero _ Hfz), Hfrom in Ha1.
  assert (Hout : binary_post expense (Account.balance fromAccount) amount
                 = Number.Decimal
                     (Number.unscaled (Account.balance fromAccount)
                      - Number.unscaled amount) 2).
  { rewrite (decimal_scale2 _ Hsf), (decimal_scale2 _ Hsa). cbn [Number.unscaled].
    apply (create_balance_exact expense). simpl. lia. }
  rewrite Hout in Ha1.
  assert (Hauth : Api.requireAuth server1 update = Some userId).
  { unfold Api.requireAuth. rewrite Hs1. cbn [update Api.session]. rewrite Hs.
    by apply ApiFacts.truthy_id_Some_nonzero. }
  assert (Hloan : accounts (Store.tables (Api.storage server1)) !! toId = Some toLoan).
  { by rewrite Ha1, lookup_insert_ne. }
  assert (Hh : Api.handle newDate parseDate server1 update
               = (Api.set_storage server1
                    (Store.set_accounts (Api.storage server1)
                       (<[toId := paid]> (accounts (Store.tables (Api.storage server1))))),
                  Api.json (Api.OneAccount paid))).
  { unfold Api.handle, Api.guarded. rewrite Hauth. cbn [update Api.route].
    unfold Api.putAccount, Store.updateAccount. rewrite Hloan. cbn [fst snd].
    cbn [Client.loanUpdate PartialAccount.name PartialAccount.type PartialAccount.balance
         PartialAccount.bankName PartialAccount.accountNumber PartialAccount.userId
         default].
    rewrite (newLoanBalance_exact _ _ Hl (conj Hsa Hba)). done. }
  assert (Hserve : Api.serve newDate parseDate server [payment; update]
                   = (Api.handle newDate parseDate server1 update).1) by done.
  rewrite Hserve, Hh. cbn [fst]. split; [done|].
  cbn [Api.set_storage Api.storage Store.set_accounts Store.set_tables Store.tables accounts].
  by rewrite Ha1.
Qed.

(** A user that is found by an address is found by it after every request. *)
Lemma serve_getUserByEmail server requests email user :
  consistent server →
  Store.getUserByEmail (Api.storage server) email = Some user →
  Store.getUserByEmail (Api.storage (Api.serve newDate parseDate server requests)) email
  = Some user.
Proof.
  revert server. induction requests as [|req requests IH]; intros server Hc H; [done|].
  apply IH; [by apply ApiFacts.handle_consistent|].
  destruct Hc as [Hwf _ _ _ _].
  destruct (ApiFacts.handle_storage newDate parseDate server req)
    as [->|[(c & [Hc _] & ->)|(now & ins & _ & ->)]].
  - done.
  - unfold Store.getUserByEmail in *. by rewrite ApiFacts.exec_users.
  - unfold Store.getUserByEmail in *. cbn [Store.createUser fst Store.users].
    rewrite values_insert_last.
    + by apply ApiFacts.find_app_Some.
    + intros k Hk.
      by apply (StoreFacts.issued_below _ _ _ _ Hwf.(wf_users _)) in Hk as [_ ?].
Qed.

(** X28.  A username or an email address that a user of a consistent server
    has stays taken whatever requests follow: a registration under the
    username is answered with 400 and [Username already exists], one
    under the address with 400 and that message or
    [Email already exists], and neither changes the server. *)
Theorem a_taken_name_or_address_cannot_be_registered
    (server : Api.Server) (requests : list Api.Request) (req : Api.Request)
    (input : Api.RegisterInput) :
  consistent server →
  Api.route req = Api.POST_auth_register (Api.Valid input) →
  let server' := Api.serve newDate parseDate server requests in
  (is_Some (Store.getUserByUsername (Api.storage server) (Api.register_username input)) →
   Api.handle newDate parseDate server' req
   = (server', Api.mkResponse 400 (Api.Message "Username already exists")))
  ∧ (is_Some (Store.getUserByEmail (Api.storage server) (Api.register_email input)) →
     ∃ message,
       Api.handle newDate parseDate server' req
       = (server', Api.mkResponse 400 (Api.Message message))
       ∧ (message = "Username already exists" ∨ message = "Email already exists")).
Proof.
  intros Hc Hr server'. split.
  - intros [user Hu].
    apply (ApiFacts.serve_getUserByUsername newDate parseDate _ requests) in Hu; [|done].
    fold server' in Hu. unfold Api.handle. rewrite Hr. unfold Api.register. by rewrite Hu.
  - intros [user Hu].
    apply (serve_getUserByEmail _ requests) in Hu; [|done].
    fold server' in Hu. unfold Api.handle. rewrite Hr. unfold Api.register.
    destruct (Store.getUserByUsername _ _).
    + exists "Username already exists". split; [done|by left].
    + rewrite Hu. exists "Email already exists". split; [done|by right].
Qed.

End Host.

End RouteFacts.

(* ===================================================================== *)
(** * The further properties on the samples                               *)
(* ===================================================================== *)

Lemma deleteTransaction_twice_witness :
  deleteTransaction scenarioStore 1 = (scenarioStore, false).
Proof.
  destruct (deleteTransaction_twice scenarioStore 1) as (H1 & H2 & _).
  assert (H : (deleteTransaction scenarioStore 1).2 = false) by (apply H1; reflexivity).
  apply H2 in H. apply injective_projections; [exact H|reflexivity].
Defined.

Lemma create_update_delete_leaves_the_difference_witness :
  balanceOf 1
    (deleteTransaction
       (updateTransaction
          (createTransaction scenarioStore noon (payload income 2000 "Venta" None 6 1)).1
          1 amountToFive).1 1).1
  = Some (Number.Decimal 11500 2).
Proof.
  apply (create_update_delete_leaves_the_difference scenarioStore noon
           (payload income 2000 "Venta" None 6 1) amountToFive 1 scenarioAccount).
  - reflexivity.
  - lia.
  - reflexivity.
  - reflexivity.
  - split; [reflexivity|simpl; lia].
  - split; [reflexivity|simpl; lia].
  - split; [reflexivity|simpl; lia].
  - simpl. lia.
Defined.

Lemma monthlyTrends_entries_are_month_totals_witness :
  ∃ e,
    e ∈ Analytics.monthlyTrends [rent; transfer; sale; lastSale]
    ∧ Analytics.Trend.month e = "2024-06"
    ∧ Analytics.Trend.income e = Analytics.total income [rent; transfer; sale]
    ∧ Analytics.Trend.expenses e = Analytics.total expense [rent; transfer; sale].
Proof.
  set (e := default (Analytics.Trend.mk "" 0 0 0)
              (Analytics.monthlyTrends [rent; transfer; sale; lastSale] !! 1%nat)).
  assert (He : e ∈ Analytics.monthlyTrends [rent; transfer; sale; lastSale]).
  { vm_compute. right. left. }
  destruct (TrendFacts.monthlyTrends_entries_are_month_totals _ e He) as (_ & Hi & Hx & _).
  exists e. split_and!; [exact He|reflexivity|exact Hi|exact Hx].
Defined.

Lemma pendingLoans_counts_positive_balances_only_witness :
  Analytics.pendingLoans (Analytics.summary civil noon [] [checkingAccount; overpaidLoan])
  = 0%Q.
Proof.
  destruct (SummaryFacts.pendingLoans_counts_positive_balances_only civil noon []
              [checkingAccount; overpaidLoan]) as [_ H].
  apply H. repeat constructor.
  - intros [?|?]; discriminate.
  - intros _. simpl. lia.
Defined.

Lemma total_is_exact_to_the_cent_witness :
  (Qabs (Analytics.total income [rent; transfer; sale; lastSale]
         - inject_Z (cents income [rent; transfer; sale; lastSale]) * (1 # 100))
   <= 1 # 400)%Q.
Proof.
  apply (SummaryFacts.total_is_exact_to_the_cent income [rent; transfer; sale; lastSale]).
  - apply (bool_decide_unpack _). vm_compute. exact I.
  - vm_compute. discriminate.
  - vm_compute. discriminate.
Defined.

Lemma sampleStore_well_formed : well_formed sampleStore.
Proof. apply StoreFacts.execs_well_formed, StoreFacts.constructor_well_formed. Qed.

Lemma ids_are_issued_once_witness :
  (2 < Account.id
         (Store.createAccount
            (Store.execs (Store.constructor noon) [Store.DeleteAccount 2]) loanAccount).2)%Z.
Proof.
  destruct (StoreFacts.ids_are_issued_once (Store.constructor noon) [Store.DeleteAccount 2]
              (StoreFacts.constructor_well_formed noon)) as (_ & _ & _ & H & _).
  apply (H loanAccount 2%Z). by eexists.
Defined.

Lemma createAccount_stores_a_new_account_witness :
  Store.getAccountById (Store.createAccount sampleStore loanAccount).1 3
  = Some (Store.createAccount sampleStore loanAccount).2
  ∧ Store.getAllAccounts (Store.createAccount sampleStore loanAccount).1
    = Store.getAllAccounts sampleStore ++ [(Store.createAccount sampleStore loanAccount).2].
Proof.
  destruct (StoreFacts.createAccount_stores_a_new_account sampleStore loanAccount
              sampleStore_well_formed) as (_ & H1 & _ & H2 & _).
  split; [exact H1|exact H2].
Defined.

Lemma deleteAccount_leaves_the_transactions_of_the_account_witness :
  Store.getAccountById (Store.deleteAccount sampleStore 2).1 2 = None
  ∧ (Store.deleteTransaction (Store.deleteAccount sampleStore 2).1 1).2 = true
  ∧ accounts (Store.tables (Store.deleteTransaction (Store.deleteAccount sampleStore 2).1 1).1)
    = accounts (Store.tables (Store.deleteAccount sampleStore 2).1).
Proof.
  destruct (StoreFacts.deleteAccount_leaves_the_transactions_of_the_account
              sampleStore 2 1
              (createTransaction (Store.tables (Store.constructor noon)) noon
                 (payload expense 3000 "Alquiler" None 3 2)).2
              eq_refl eq_refl) as (H1 & _ & H2 & _ & H3 & _).
  split_and!; [exact H1|exact H2|exact H3].
Defined.

Lemma transactions_are_listed_the_latest_first_witness :
  StronglySorted listed_before (Store.getTransactionsByUserId sampleStore 1)
  ∧ NoDup (Store.getTransactionsByUserId sampleStore 1).
Proof.
  destruct (StoreFacts.transactions_are_listed_the_latest_first sampleStore 1
              sampleStore_well_formed) as (_ & _ & _ & _ & H1 & H2).
  split; [exact H1|exact H2].
Defined.

Lemma getTelegramConfig_is_the_first_created_witness :
  Store.getTelegramConfig
    (Store.createTelegramConfig
       (Store.createTelegramConfig sampleStore noon
          (InsertTelegramConfig.mk "123:abc" (Some true))).1
       noon (InsertTelegramConfig.mk "456:def" (Some false))).1
  = Some (Store.createTelegramConfig sampleStore noon
            (InsertTelegramConfig.mk "123:abc" (Some true))).2.
Proof.
  destruct (StoreFacts.getTelegramConfig_is_the_first_created
              (Store.createTelegramConfig sampleStore noon
                 (InsertTelegramConfig.mk "123:abc" (Some true))).1
              noon (InsertTelegramConfig.mk "456:def" (Some false))
              (StoreFacts.exec_well_formed sampleStore
                 (Store.CreateTelegramConfig noon
                    (InsertTelegramConfig.mk "123:abc" (Some true)))
                 sampleStore_well_formed)) as (H & _).
  exact H.
Defined.

Lemma expenses_of_a_deleted_category_are_uncategorized_witness :
  Analytics.categoryName
    (Analytics.categoriesMap (Store.getAllCategories (Store.deleteCategory sampleStore 3).1))
    rent
  = Analytics.Sin_categoria.
Proof.
  destruct (ListingFacts.expenses_of_a_deleted_category_are_uncategorized sampleStore 3 rent
              sampleStore_well_formed eq_refl) as (_ & H & _).
  exact H.
Defined.

Lemma opened_consistent : consistent opened.
Proof. apply ApiFacts.serve_consistent, ApiFacts.start_consistent. Qed.

Lemma requests_without_a_user_are_rejected_witness :
  Api.handle civil sampleParse (Api.start noon) (Api.mkRequest 9 noon Api.GET_accounts)
  = (Api.start noon, Api.unauthenticated).
Proof.
  apply (ApiFacts.requests_without_a_user_are_rejected civil sampleParse (Api.start noon)
           (Api.mkRequest 9 noon Api.GET_accounts)); reflexivity.
Defined.

Lemma a_registered_user_can_log_in_witness :
  ∃ user,
    Api.username user = "ana"
    ∧ (Api.handle civil sampleParse
         (Api.serve civil sampleParse
            (Api.handle civil sampleParse (Api.start noon)
               (Api.mkRequest 7 noon (Api.POST_auth_register (Api.Valid ana)))).1
            [Api.mkRequest 5 noon (Api.POST_auth_login (Api.Valid adminLogin))])
         (Api.mkRequest 8 noon
            (Api.POST_auth_login (Api.Valid (Api.mkLoginInput "ana" "secreto"))))).2
      = Api.json (Api.OneUser user).
Proof.
  destruct (ApiFacts.a_registered_user_can_log_in civil sampleParse (Api.start noon)
              (Api.mkRequest 7 noon (Api.POST_auth_register (Api.Valid ana))) ana
              [Api.mkRequest 5 noon (Api.POST_auth_login (Api.Valid adminLogin))]
              (Api.mkRequest 8 noon
                 (Api.POST_auth_login (Api.Valid (Api.mkLoginInput "ana" "secreto"))))
              (ApiFacts.start_consistent noon) eq_refl eq_refl eq_refl)
    as (user & H1 & _ & _ & H4).
  exists user. split; [exact H1|]. by rewrite H4.
Defined.

Lemma login_needs_the_password_of_the_user_witness :
  Api.handle civil sampleParse (Api.start noon)
    (Api.mkRequest 5 noon
       (Api.POST_auth_login (Api.Valid (Api.mkLoginInput "admin" "admin123"))))
  = (Api.start noon, Api.mkResponse 401 (Api.Message "Invalid credentials")).
Proof.
  apply (ApiFacts.login_needs_the_password_of_the_user civil sampleParse (Api.start noon)
           (Api.mkRequest 5 noon
              (Api.POST_auth_login (Api.Valid (Api.mkLoginInput "admin" "admin123"))))
           (Api.mkLoginInput "admin" "admin123") eq_refl).
  intros id user Hu _. unfold Store.getUser in Hu. cbn in Hu.
  apply lookup_singleton_Some in Hu as [_ <-]. discriminate.
Defined.

Lemma transactions_of_others_stay_out_of_the_analytics_witness :
  (Api.handle civil sampleParse
     (Api.handle civil sampleParse opened
        (Api.mkRequest 7 noon (Api.POST_transactions (Api.Valid lunch)))).1
     (Api.mkRequest 5 noon Api.GET_analytics_monthly_trends)).2
  = (Api.handle civil sampleParse opened
       (Api.mkRequest 5 noon Api.GET_analytics_monthly_trends)).2.
Proof.
  destruct (ApiFacts.transactions_of_others_stay_out_of_the_analytics civil sampleParse
              opened (Api.mkRequest 7 noon (Api.POST_transactions (Api.Valid lunch)))
              (Api.mkRequest 5 noon Api.GET_analytics_monthly_trends)
              (Api.Valid lunch) 2 1 opened_consistent eq_refl)
    as (_ & _ & H).
  - vm_compute. reflexivity.
  - vm_compute. reflexivity.
  - lia.
  - apply H. by right.
Defined.

Lemma a_range_of_dates_lists_the_transactions_of_all_users_witness :
  ∃ l,
    Api.handle civil sampleParse opened
      (Api.mkRequest 7 noon (Api.GET_transactions (Some "2024-06-01") (Some "2024-06-30")))
    = (opened, Api.json (Api.Transactions l))
    ∧ ∀ t, t ∈ Api.transaction <$> l ↔
           (∃ id, Store.getTransactionById (Api.storage opened) id = Some t)
           ∧ (1717200000000 ≤ getTime (Transaction.transactionDate t) ≤ 1719705600000)%Z.
Proof.
  apply (ApiFacts.a_range_of_dates_lists_the_transactions_of_all_users civil sampleParse
           opened
           (Api.mkRequest 7 noon
              (Api.GET_transactions (Some "2024-06-01") (Some "2024-06-30")))
           2 "2024-06-01" "2024-06-30"
           (mkDate 1717200000000 2024 5) (mkDate 1719705600000 2024 5)).
  - reflexivity.
  - discriminate.
  - discriminate.
  - reflexivity.
  - reflexivity.
  - vm_compute. reflexivity.
Defined.

Lemma transactions_are_listed_with_the_accounts_of_the_user_witness :
  ∃ l,
    Api.handle civil sampleParse opened (Api.mkRequest 7 noon (Api.GET_transactions None None))
    = (opened, Api.json (Api.Transactions l))
    ∧ l = details (Api.storage opened) 2 <$> (Api.transaction <$> l)
    ∧ Api.transaction <$> l = Store.getTransactionsByUserId (Api.storage opened) 2.
Proof.
  destruct (ListingFacts.transactions_are_listed_with_the_accounts_of_the_user
              civil sampleParse opened
              (Api.mkRequest 7 noon (Api.GET_transactions None None)) 2 None None)
    as (l & H1 & H2 & H3).
  - apply opened_consistent.
  - reflexivity.
  - vm_compute. reflexivity.
  - exists l. split_and!; [exact H1|exact H2|]. apply H3. by left.
Defined.

Lemma a_transfer_moves_the_amount_between_the_accounts_witness :
  let server :=
    Api.serve civil sampleParse (Api.start noon)
      [Api.mkRequest 5 noon (Api.POST_auth_login (Api.Valid adminLogin))] in
  let server' :=
    Api.serve civil sampleParse server
      [ Api.mkRequest 5 noon
          (Api.POST_transactions
             (Api.Valid (Client.incomingTransaction (Number.Decimal 10000 2) 2
                           checkingAccount "" "2024-06-10")));
        Api.mkRequest 5 noon
          (Api.POST_transactions
             (Api.Valid (Client.outgoingTransaction (Number.Decimal 10000 2) 1
                           savingsAccount "" "2024-06-10"))) ] in
  Account.balance <$> Store.getAccountById (Api.storage server') 1
  = Some (Number.Decimal 8735030 2)
  ∧ Account.balance <$> Store.getAccountById (Api.storage server') 2
    = Some (Number.Decimal 2578075 2).
Proof.
  intros server server'.
  destruct (ClientFacts.a_transfer_moves_the_amount_between_the_accounts
              civil sampleParse server 5 noon noon 1 1 2 checkingAccount savingsAccount
              (Number.Decimal 10000 2) "" "2024-06-10" noon
              [ Api.mkRequest 5 noon
                  (Api.POST_transactions
                     (Api.Valid (Client.incomingTransaction (Number.Decimal 10000 2) 2
                                   checkingAccount "" "2024-06-10")));
                Api.mkRequest 5 noon
                  (Api.POST_transactions
                     (Api.Valid (Client.outgoingTransaction (Number.Decimal 10000 2) 1
                                   savingsAccount "" "2024-06-10"))) ])
    as [H _].
  - by right.
  - vm_compute. reflexivity.
  - lia.
  - vm_compute. reflexivity.
  - vm_compute. reflexivity.
  - lia.
  - lia.
  - lia.
  - split; [reflexivity|simpl; lia].
  - split; [reflexivity|simpl; lia].
  - split; [reflexivity|simpl; lia].
  - reflexivity.
  - subst server'. unfold Store.getAccountById. rewrite H.
    split; [by rewrite lookup_insert_ne, lookup_insert_eq|by rewrite lookup_insert_eq].
Defined.

Lemma a_payment_counts_as_an_expense_for_a_credit_only_witness :
  Analytics.marked
    (posted_row 3 noon noon 1
       (Client.paymentTransaction (Number.Decimal 10000 2) 1 overpaidLoan "" "2024-06-10"))
  ∧ Analytics.counts_as expense
      (posted_row 3 noon noon 1
         (Client.paymentTransaction (Number.Decimal 10000 2) 1 creditCard "" "2024-06-10"))
    = true.
Proof.
  split.
  - destruct (ClientFacts.a_payment_counts_as_an_expense_for_a_credit_only 3 noon noon 1 1
                (Number.Decimal 10000 2) overpaidLoan "" "2024-06-10") as [H _].
    apply H. reflexivity.
  - destruct (ClientFacts.a_payment_counts_as_an_expense_for_a_credit_only 3 noon noon 1 1
                (Number.Decimal 10000 2) creditCard "" "2024-06-10") as [_ H].
    rewrite H; [reflexivity|discriminate].
Defined.

Lemma logout_closes_the_session_witness :
  Api.handle civil sampleParse
    (Api.handle civil sampleParse opened (Api.mkRequest 5 noon Api.POST_auth_logout)).1
    (Api.mkRequest 5 noon Api.GET_accounts)
  = ((Api.handle civil sampleParse opened (Api.mkRequest 5 noon Api.POST_auth_logout)).1,
     Api.unauthenticated).
Proof.
  destruct (RouteFacts.logout_closes_the_session civil sampleParse opened
              (Api.mkRequest 5 noon Api.POST_auth_logout) eq_refl) as (_ & H & _).
  apply H; reflexivity.
Defined.

Lemma a_posted_transaction_can_be_deleted_by_any_user_witness :
  accounts
    (Store.tables
       (Api.storage
          (Api.serve civil sampleParse opened
             [ Api.mkRequest 5 noon (Api.POST_transactions (Api.Valid lunch));
               Api.mkRequest 7 noon (Api.DELETE_transactions (Some 3%Z)) ])))
  = accounts (Store.tables (Api.storage opened)).
Proof.
  destruct (RouteFacts.a_posted_transaction_can_be_deleted_by_any_user civil sampleParse
              opened (Api.mkRequest 5 noon (Api.POST_transactions (Api.Valid lunch)))
              (Api.mkRequest 7 noon (Api.DELETE_transactions (Some 3%Z))) 1 2 lunch noon)
    as (_ & _ & H & _).
  - apply opened_consistent.
  - reflexivity.
  - vm_compute. reflexivity.
  - reflexivity.
  - split; [reflexivity|simpl; lia].
  - intros accountId account [= <-] Hacc. vm_compute in Hacc.
    injection Hacc as <-. split; [split; [reflexivity|simpl; lia]|simpl; lia].
  - vm_compute. reflexivity.
  - vm_compute. reflexivity.
  - exact H.
Defined.

Lemma a_created_account_is_listed_for_its_user_witness :
  let posted :=
    Api.handle civil sampleParse opened
      (Api.mkRequest 7 noon (Api.POST_accounts (Api.Valid loanData))) in
  ∃ account,
    Account.balance account = Number.Decimal 500000 2
    ∧ Api.handle civil sampleParse posted.1 (Api.mkRequest 7 noon Api.GET_accounts)
      = (posted.1,
         Api.json
           (Api.Accounts (Store.getAccountsByUserId (Api.storage opened) 2 ++ [account])))
    ∧ Store.getAccountsByUserId (Api.storage posted.1) 1
      = Store.getAccountsByUserId (Api.storage opened) 1.
Proof.
  intros posted.
  destruct (RouteFacts.a_created_account_is_listed_for_its_user civil sampleParse opened
              (Api.mkRequest 7 noon (Api.POST_accounts (Api.Valid loanData))) 2 loanData)
    as (account & _ & _ & _ & Hb & Hl & Ho).
  - apply opened_consistent.
  - reflexivity.
  - vm_compute. reflexivity.
  - exists account. split_and!; [exact Hb| |by apply Ho].
    apply Hl; [reflexivity|]. vm_compute. reflexivity.
Defined.

Lemma a_transaction_keeps_its_owner_witness :
  Transaction.userId
    (patch (posted_row 1 noon noon 1 lunch) (Api.updateData renamed None))
  = Some 1%Z.
Proof.
  destruct (RouteFacts.a_transaction_keeps_its_owner civil sampleParse opened
              [Api.mkRequest 7 noon (Api.PUT_transactions (Some 1%Z) (Api.Valid renamed))]
              1 (posted_row 1 noon noon 1 lunch)
              (patch (posted_row 1 noon noon 1 lunch) (Api.updateData renamed None)))
    as (_ & H & _).
  - apply opened_consistent.
  - vm_compute. reflexivity.
  - vm_compute. reflexivity.
  - exact H.
Defined.

Lemma a_payment_lowers_the_debt_witness :
  let server' :=
    Api.serve civil sampleParse indebted
      [ Api.mkRequest 5 noon
          (Api.POST_transactions
             (Api.Valid (Client.paymentTransaction (Number.Decimal 10000 2) 1 bankLoan ""
                           "2024-06-10")));
        Api.mkRequest 5 noon
          (Api.PUT_accounts (Some 3%Z)
             (Api.Valid (Client.loanUpdate bankLoan (Number.Decimal 10000 2)))) ] in
  Account.balance <$> Store.getAccountById (Api.storage server') 1
  = Some (Number.Decimal 8735030 2)
  ∧ Account.balance <$> Store.getAccountById (Api.storage server') 3
    = Some (Number.Decimal 490000 2).
Proof.
  intros server'.
  destruct (RouteFacts.a_payment_lowers_the_debt civil sampleParse indebted 5 noon noon
              1 1 3 checkingAccount bankLoan (Number.Decimal 10000 2) "" "2024-06-10" noon)
    as [_ H].
  - vm_compute. reflexivity.
  - lia.
  - vm_compute. reflexivity.
  - vm_compute. reflexivity.
  - lia.
  - lia.
  - split; [reflexivity|simpl; lia].
  - split; [reflexivity|simpl; lia].
  - split; [reflexivity|simpl; lia].
  - reflexivity.
  - subst server'. unfold Store.getAccountById. rewrite H.
    split; [by rewrite lookup_insert_ne, lookup_insert_eq|by rewrite lookup_insert_eq].
Defined.

Lemma a_taken_name_or_address_cannot_be_registered_witness :
  Api.handle civil sampleParse opened
    (Api.mkRequest 9 noon
       (Api.POST_auth_register
          (Api.Valid (Api.mkRegisterInput "admin" "otro@empresa.com" "secreto" "Otro"))))
  = (opened, Api.mkResponse 400 (Api.Message "Username already exists")).
Proof.
  destruct (RouteFacts.a_taken_name_or_address_cannot_be_registered civil sampleParse
              (Api.start noon)
              [ Api.mkRequest 5 noon (Api.POST_auth_login (Api.Valid adminLogin));
                Api.mkRequest 7 noon (Api.POST_auth_register (Api.Valid ana));
                Api.mkRequest 5 noon (Api.POST_transactions (Api.Valid lunch));
                Api.mkRequest 7 noon (Api.POST_transactions (Api.Valid lunch)) ]
              (Api.mkRequest 9 noon
                 (Api.POST_auth_register
                    (Api.Valid
                       (Api.mkRegisterInput "admin" "otro@empresa.com" "secreto" "Otro"))))
              (Api.mkRegisterInput "admin" "otro@empresa.com" "secreto" "Otro")
              (ApiFacts.start_consistent noon) eq_refl) as [H _].
  apply H. vm_compute. by eexists.
Defined.
